(** * Entity validator of strapi (packages/strapi/lib/services/entity-validator)

    The module builds, for a content-type schema and a candidate record, a
    tree of yup validator nodes and runs it.  The development below embeds
      - the JavaScript values the validator handles,
      - the part of the yup schema engine the builder drives (node state,
        modifiers, casting and validation with collected errors),
      - the builder functions of [index.js], one definition per function,
    and then proves the properties of the specification. *)

From Stdlib Require Import List String ZArith QArith Bool Lia Permutation.
Import ListNotations.
Open Scope string_scope.
Open Scope list_scope.

Set Implicit Arguments.
Set Warnings "-register-all".

(* ================================================================== *)
(** * JavaScript values *)
(* ================================================================== *)

(** Data reaching the validator: [undefined], [null], booleans, numbers,
    strings, arrays and plain objects.  An object is the list of its own
    properties in insertion order. *)
Inductive value : Type :=
| VUndefined
| VNull
| VBool (b : bool)
| VNumber (q : Q)
| VString (s : string)
| VArray (items : list value)
| VObject (props : list (string * value)).

Module Js.

(** [v == null] *)
Definition isNil (v : value) : bool :=
  match v with VUndefined | VNull => true | _ => false end.

Definition isNull (v : value) : bool :=
  match v with VNull => true | _ => false end.

Definition isUndefined (v : value) : bool :=
  match v with VUndefined => true | _ => false end.

(** Truthiness, as used by [if (x)], [!x], [a && b] and [a || b]. *)
Definition truthy (v : value) : bool :=
  match v with
  | VUndefined | VNull => false
  | VBool b => b
  | VNumber q => negb (Qeq_bool q 0)
  | VString s => negb (String.eqb s "")
  | VArray _ | VObject _ => true
  end.

(** [a || b] on values. *)
Definition or (a b : value) : value := if truthy a then a else b.

(** [Array.isArray] *)
Definition isArray (v : value) : bool :=
  match v with VArray _ => true | _ => false end.

(** A plain object ([Object.prototype.toString] gives [[object Object]]). *)
Definition isObject (v : value) : bool :=
  match v with VObject _ => true | _ => false end.

Definition isString (v : value) : bool :=
  match v with VString _ => true | _ => false end.

(** [Number.isInteger]: the integer a value denotes, if it is an
    integral number. *)
Definition isInteger (v : value) : option Z :=
  match v with
  | VNumber q =>
      let r := Qred q in
      if Pos.eqb (Qden r) 1 then Some (Qnum r) else None
  | _ => None
  end.

(** [v === "s"] *)
Definition is_string (v : value) (s : string) : bool :=
  match v with VString t => String.eqb t s | _ => false end.

(** [v === true] *)
Definition is_true (v : value) : bool :=
  match v with VBool true => true | _ => false end.

(** [Array.isArray(v) && v.length > 0] *)
Definition nonEmptyArray (v : value) : bool :=
  match v with VArray (_ :: _) => true | _ => false end.

Fixpoint lookup {A : Type} (k : string) (l : list (string * A)) : option A :=
  match l with
  | [] => None
  | (k', a) :: rest => if String.eqb k k' then Some a else lookup k rest
  end.

(** Own-property read [o[k]] ([_.get(o, k)] for a plain field name):
    [undefined] when [o] is not an object or has no such property. *)
Definition get (o : value) (k : string) : value :=
  match o with
  | VObject props =>
      match lookup k props with Some v => v | None => VUndefined end
  | _ => VUndefined
  end.

(** [Object.keys] *)
Definition keys (o : value) : list string :=
  match o with VObject props => map fst props | _ => [] end.

(** [a === b] on primitives; two arrays or objects are never the same
    reference here. *)
Definition strictEq (a b : value) : bool :=
  match a, b with
  | VUndefined, VUndefined => true
  | VNull, VNull => true
  | VBool x, VBool y => Bool.eqb x y
  | VNumber x, VNumber y => Qeq_bool x y
  | VString x, VString y => String.eqb x y
  | _, _ => false
  end.

Definition mem (x : string) (l : list string) : bool :=
  existsb (String.eqb x) l.

(** The two functions of the JavaScript runtime that yup's built-in
    coercions call. *)
Record runtime : Type := {
  JSON_parse : string -> option value;   (* [None]: a SyntaxError *)
  toString : value -> string
}.

End Js.

(* ================================================================== *)
(** * Errors and results *)
(* ================================================================== *)

(** A path into the record: [a.b[0].c]. *)
Inductive segment : Type :=
| Key (name : string)
| Idx (i : nat).

(** One failed test of one node: where, and which test ([err.type]). *)
Record verror : Type := {
  e_path : list segment;
  e_type : string
}.

(** What a call can throw. *)
Inductive thrown : Type :=
| Error (message : string)                      (* [new Error(message)] *)
| TypeError (message : string)
| RangeError (message : string)                 (* call depth exhausted *)
| ValidationError (inner : list verror)         (* yup's aggregate *)
| BadRequest (message : string) (data : value). (* [strapi.errors.badRequest] *)

Inductive result (A : Type) : Type :=
| Ok (a : A)
| Throw (e : thrown).

Arguments Ok {A} a.
Arguments Throw {A} e.

Definition bind {A B : Type} (r : result A) (k : A -> result B) : result B :=
  match r with
  | Ok a => k a
  | Throw e => Throw e
  end.

Notation "x <- r ;; k" := (bind r (fun x => k))
  (at level 61, r at next level, right associativity).

Section MapM.
Variables (A B : Type) (f : A -> result B).

(** Run [f] over a list from left to right; the first throw wins. *)
Fixpoint mapM (l : list A) : result (list B) :=
  match l with
  | [] => Ok []
  | a :: rest =>
      match f a with
      | Throw e => Throw e
      | Ok b =>
          match mapM rest with
          | Throw e => Throw e
          | Ok bs => Ok (b :: bs)
          end
      end
  end.
End MapM.

(* ================================================================== *)
(** * The yup schema engine (yup 0.29), as far as the builder drives it *)
(* ================================================================== *)

Module Yup.

(** The schema classes the builder instantiates, and one case for the
    classes only the leaf registry instantiates (number, boolean, date,
    ...), given by their [_typeCheck]. *)
Inductive kind : Type :=
| KMixed
| KString
| KArray
| KObject
| KOther (name : string) (typeCheck : value -> bool).

(** A test attached with [.test(...)].  [t_fn] names the test function
    when it is one shared function object (yup drops an older test of the
    same name and the same function); a fresh closure has [None]. *)
Record test : Type := {
  t_name : string;
  t_exclusive : bool;
  t_fn : option string;
  t_params : list (string * Z);
  t_ok : kind -> value -> bool
}.

(** A transform [(value, originalValue) => ...]; its first argument is
    [this.isType] of the node that runs it. *)
Definition transform : Type := (value -> bool) -> value -> value -> value.

(** The state of one schema node. *)
Record spec : Type := {
  s_kind : kind;
  s_nullable : bool;                    (* [_nullable] *)
  s_default : option value;             (* [Some d]: [_default] is set *)
  s_tests : list test;                  (* [tests] *)
  s_exclusive : list (string * bool);   (* [_exclusive] *)
  s_transforms : list transform;        (* [transforms] *)
  s_whitelist : option (list value)     (* [oneOf] *)
}.

(** A schema node with its children: the element type of an array node
    and the fields of an object node.  [yup.lazy(f)] only occurs as the
    element type of an array. *)
Inductive schema : Type :=
| Schema (sp : spec) (inner : option innerType) (fields : list (string * schema))
with innerType : Type :=
| Of (s : schema)
| OfLazy (builder : value -> result schema).

Definition spec_of (s : schema) : spec :=
  match s with Schema sp _ _ => sp end.

Definition inner_of (s : schema) : option innerType :=
  match s with Schema _ i _ => i end.

Definition fields_of (s : schema) : list (string * schema) :=
  match s with Schema _ _ fs => fs end.

Definition tests_of (s : schema) : list test := s_tests (spec_of s).
Definition nullable_of (s : schema) : bool := s_nullable (spec_of s).
Definition default_of (s : schema) : option value := s_default (spec_of s).
Definition transforms_of (s : schema) : list transform := s_transforms (spec_of s).
Definition kind_of (s : schema) : kind := s_kind (spec_of s).
Definition whitelist_of (s : schema) : option (list value) := s_whitelist (spec_of s).

(** Is a test of this name attached? *)
Definition hasTest (name : string) (s : schema) : bool :=
  existsb (fun t => String.eqb (t_name t) name) (tests_of s).

Definition map_spec (f : spec -> spec) (s : schema) : schema :=
  match s with Schema sp i fs => Schema (f sp) i fs end.

(** ** Type checks *)

Definition typeCheck (k : kind) (v : value) : bool :=
  match k with
  | KMixed => true
  | KString => Js.isString v
  | KArray => Js.isArray v
  | KObject => Js.isObject v
  | KOther _ check => check v
  end.

(** [schema.isType(v)] *)
Definition isType (k : kind) (nullable : bool) (v : value) : bool :=
  (nullable && Js.isNull v) || typeCheck k v.

(** [schema._isPresent(v)]: strings and arrays must also be non-empty. *)
Definition isPresent (k : kind) (v : value) : bool :=
  match v with
  | VUndefined | VNull => false
  | VString s => match k with KString => negb (String.eqb s "") | _ => true end
  | VArray items => match k with KArray => negb (Nat.eqb (List.length items) 0) | _ => true end
  | _ => true
  end.

(** The [length] that [min] and [max] of an array node compare. *)
Definition lengthOf (v : value) : Z :=
  match v with
  | VArray items => Z.of_nat (List.length items)
  | VString s => Z.of_nat (String.length s)
  | _ => 0
  end.

(** ** Constructors *)

Section Constructors.
Variable js : Js.runtime.

Definition base (k : kind) (ts : list transform) : schema :=
  Schema {| s_kind := k; s_nullable := false; s_default := None;
            s_tests := []; s_exclusive := []; s_transforms := ts;
            s_whitelist := None |} None [].

(** [yup.mixed()] *)
Definition mixed : schema := base KMixed [].

(** The coercion an object or array node starts with: a string is
    parsed as JSON, and what is not of the node's type becomes [null]. *)
Definition coerceJson : transform :=
  fun isType v _ =>
    let v' := match v with
              | VString s =>
                  match Js.JSON_parse js s with Some p => p | None => VNull end
              | _ => v
              end in
    if isType v' then v' else VNull.

(** The coercion a string node starts with. *)
Definition coerceString : transform :=
  fun isType v _ =>
    if isType v then v
    else if Js.isNil v then v else VString (Js.toString js v).

(** [yup.array()] *)
Definition array : schema := base KArray [coerceJson].

(** [yup.object()] *)
Definition object : schema := base KObject [coerceJson].

(** [yup.string()] *)
Definition string_ : schema := base KString [coerceString].
End Constructors.

(** ** Modifiers *)

(** [.of(inner)] *)
Definition arrayOf (i : innerType) (s : schema) : schema :=
  match s with Schema sp _ fs => Schema sp (Some i) fs end.

(** [.shape(fields)] on a node without fields. *)
Definition shape (fs : list (string * schema)) (s : schema) : schema :=
  match s with Schema sp i _ => Schema sp i fs end.

(** [.nullable()] *)
Definition nullable : schema -> schema :=
  map_spec (fun sp =>
    {| s_kind := s_kind sp; s_nullable := true; s_default := s_default sp;
       s_tests := s_tests sp; s_exclusive := s_exclusive sp;
       s_transforms := s_transforms sp; s_whitelist := s_whitelist sp |}).

(** [.default(d)], called with one argument: [_default] is set, also to
    [undefined]. *)
Definition default (d : value) : schema -> schema :=
  map_spec (fun sp =>
    {| s_kind := s_kind sp; s_nullable := s_nullable sp; s_default := Some d;
       s_tests := s_tests sp; s_exclusive := s_exclusive sp;
       s_transforms := s_transforms sp; s_whitelist := s_whitelist sp |}).

(** [.transform(fn)] *)
Definition addTransform (fn : transform) : schema -> schema :=
  map_spec (fun sp =>
    {| s_kind := s_kind sp; s_nullable := s_nullable sp; s_default := s_default sp;
       s_tests := s_tests sp; s_exclusive := s_exclusive sp;
       s_transforms := s_transforms sp ++ [fn]; s_whitelist := s_whitelist sp |}).

(** [.oneOf(values)] *)
Definition oneOf (vs : list value) : schema -> schema :=
  map_spec (fun sp =>
    {| s_kind := s_kind sp; s_nullable := s_nullable sp; s_default := s_default sp;
       s_tests := s_tests sp; s_exclusive := s_exclusive sp;
       s_transforms := s_transforms sp;
       s_whitelist := Some (match s_whitelist sp with
                            | Some old => old ++ vs
                            | None => vs
                            end) |}).

Definition sameFn (a b : test) : bool :=
  match t_fn a, t_fn b with
  | Some x, Some y => String.eqb x y
  | _, _ => false
  end.

Definition isExclusive (name : string) (ex : list (string * bool)) : bool :=
  match Js.lookup name ex with Some b => b | None => false end.

(** [.test(opts)]: an older test of the same name goes when the name is
    exclusive or the test function is the same; the new test is put last
    and the name's exclusivity recorded. *)
Definition addTestSpec (t : test) (sp : spec) : spec :=
  let excl := t_exclusive t || isExclusive (t_name t) (s_exclusive sp) in
  let keep (old : test) :=
    negb (String.eqb (t_name old) (t_name t) && (excl || sameFn old t)) in
  {| s_kind := s_kind sp; s_nullable := s_nullable sp; s_default := s_default sp;
     s_tests := filter keep (s_tests sp) ++ [t];
     s_exclusive := (t_name t, t_exclusive t) :: s_exclusive sp;
     s_transforms := s_transforms sp; s_whitelist := s_whitelist sp |}.

Definition addTest (t : test) : schema -> schema := map_spec (addTestSpec t).

(** [.required()] *)
Definition requiredTest : test :=
  {| t_name := "required"; t_exclusive := true; t_fn := None; t_params := [];
     t_ok := fun k v => isPresent k v |}.

Definition required : schema -> schema := addTest requiredTest.

(** [.min(n)] of an array or string node: absent values pass. *)
Definition minTest (n : Z) : test :=
  {| t_name := "min"; t_exclusive := true; t_fn := None;
     t_params := [("min", n)];
     t_ok := fun _ v => Js.isNil v || (n <=? lengthOf v)%Z |}.

Definition min (n : Z) : schema -> schema := addTest (minTest n).

(** [.max(n)] *)
Definition maxTest (n : Z) : test :=
  {| t_name := "max"; t_exclusive := true; t_fn := None;
     t_params := [("max", n)];
     t_ok := fun _ v => Js.isNil v || (lengthOf v <=? n)%Z |}.

Definition max (n : Z) : schema -> schema := addTest (maxTest n).

(** ** Casting *)

(** [schema.default()] without argument: the default that was set, else
    for an object node with fields the object of its fields' defaults. *)
Fixpoint getDefault (s : schema) : value :=
  match s with
  | Schema sp _ fields =>
      match s_default sp with
      | Some d => d
      | None =>
          match s_kind sp, fields with
          | KObject, _ :: _ =>
              VObject (map (fun '(k, f) => (k, getDefault f)) fields)
          | _, _ => VUndefined
          end
      end
  end.

(** [MixedSchema.prototype._cast]: the transforms in order, each given the
    raw value as second argument, unless the raw value is [undefined]; then
    the default when the outcome is [undefined] and a default was set. *)
Definition mixedCast (sp : spec) (raw : value) : value :=
  let v :=
    match raw with
    | VUndefined => raw
    | _ =>
        fold_left
          (fun acc (fn : transform) =>
             fn (isType (s_kind sp) (s_nullable sp)) acc raw)
          (s_transforms sp) raw
    end in
  match v, s_default sp with
  | VUndefined, Some d => d
  | _, _ => v
  end.

(** The properties an object cast keeps from its fields: those whose cast
    value is not [undefined]. *)
Definition definedProps (ps : list (string * value)) : list (string * value) :=
  filter (fun '(_, v) => negb (Js.isUndefined v)) ps.

(** The properties of the input that no field of the shape names; they are
    copied (no [stripUnknown]). *)
Definition unknownProps (nodes : list string) (props : list (string * value))
  : list (string * value) :=
  filter (fun '(k, _) => negb (Js.mem k nodes)) props.

(** [schema.cast(raw)] as [validate] runs it ([assert: false]).  The object
    case returns the rebuilt object, its properties in the order of the
    shape; yup hands back the input object itself when no property changed
    and may order the properties otherwise, and all of these agree on every
    property read. *)
Fixpoint cast (s : schema) (raw : value) {struct s} : result value :=
  match s with
  | Schema sp inner fields =>
      let v := mixedCast sp raw in
      match s_kind sp with
      | KObject =>
          match v with
          | VUndefined => Ok (getDefault s)
          | VObject props =>
              cs <- mapM (fun '(k, f) => c <- cast f (Js.get v k) ;; Ok (k, c))
                         fields ;;
              Ok (VObject (definedProps cs ++ unknownProps (map fst fields) props))
          | _ => Ok v
          end
      | KArray =>
          match v, inner with
          | VArray items, Some (Of i) =>
              cs <- mapM (cast i) items ;; Ok (VArray cs)
          | VArray items, Some (OfLazy builder) =>
              cs <- mapM (fun item => i <- builder item ;; cast i item) items ;;
              Ok (VArray cs)
          | _, _ => Ok v
          end
      | _ => Ok v
      end
  end.

(** ** Validation *)

Definition err (path : list segment) (type : string) : verror :=
  {| e_path := path; e_type := type |}.

(** The errors of one node on one value: the type error and the [oneOf]
    error first, and the tests only when those two pass. *)
Definition ownErrors (sp : spec) (path : list segment) (v : value) : list verror :=
  let k := s_kind sp in
  let typeError :=
    if negb (Js.isUndefined v) && negb (isType k (s_nullable sp) v)
    then [err path "typeError"] else [] in
  let oneOfError :=
    match s_whitelist sp with
    | Some vs =>
        if negb (Js.isUndefined v) && negb (existsb (Js.strictEq v) vs)
        then [err path "oneOf"] else []
    | None => []
    end in
  match typeError ++ oneOfError with
  | [] =>
      map (fun t => err path (t_name t))
          (filter (fun t => negb (t_ok t k v)) (s_tests sp))
  | initial => initial
  end.

(** The elements of an array with their indices. *)
Definition indexed (A : Type) (l : list A) : list (nat * A) :=
  combine (seq 0 (List.length l)) l.

(** [schema._validate(v, {strict: true, abortEarly: false})]: every error
    of the subtree, those of the children before those of the node.  The
    children of an object are its fields, read from the value; the
    children of an array are its elements, each against the element type,
    a lazy element type being resolved on the element.

    The errors of the fields of an object are listed here field after
    field, in the order of the shape.  yup validates the fields in the
    order of its [_nodes] and then sorts their errors with a comparison of
    its own on the path strings ([sortByKeyOrder]), so the list it reports
    holds the same entries and may hold them in another order.  What is
    stated about the errors of several fields is therefore stated up to a
    permutation of the list; the errors of one node (its type error, or
    its failing tests in the order they were attached) are in yup's
    order. *)
Fixpoint validateStrict (s : schema) (path : list segment) (v : value)
  {struct s} : result (list verror) :=
  match s with
  | Schema sp inner fields =>
      let own := ownErrors sp path v in
      match s_kind sp with
      | KObject =>
          if Js.isObject v then
            nested <- mapM (fun '(k, f) =>
                              validateStrict f (path ++ [Key k]) (Js.get v k))
                           fields ;;
            Ok (List.concat nested ++ own)
          else Ok own
      | KArray =>
          match v, inner with
          | VArray items, Some (Of i) =>
              nested <- mapM (fun '(n, item) =>
                                validateStrict i (path ++ [Idx n]) item)
                             (indexed items) ;;
              Ok (List.concat nested ++ own)
          | VArray items, Some (OfLazy builder) =>
              nested <- mapM (fun '(n, item) =>
                                i <- builder item ;;
                                validateStrict i (path ++ [Idx n]) item)
                             (indexed items) ;;
              Ok (List.concat nested ++ own)
          | _, _ => Ok own
          end
      | _ => Ok own
      end
  end.

Record validateOptions : Type := { abortEarly : bool }.

(** What is reported of the collected errors.  With [abortEarly] yup stops
    at one error (which one depends on scheduling; the first collected
    stands for it here). *)
Definition reported (opts : validateOptions) (errors : list verror) : list verror :=
  if abortEarly opts then firstn 1 errors else errors.

(** [schema.validate(data, opts)]: cast, then validate the cast value; the
    cast value when there is no error, else one [ValidationError]. *)
Definition validate (s : schema) (data : value) (opts : validateOptions)
  : result value :=
  c <- cast s data ;;
  errors <- validateStrict s [] c ;;
  match errors with
  | [] => Ok c
  | _ :: _ => Throw (ValidationError (reported opts errors))
  end.

(** ** Concatenation *)

Definition sameKind (a b : kind) : bool :=
  match a, b with
  | KMixed, KMixed | KString, KString | KArray, KArray | KObject, KObject => true
  | KOther n _, KOther m _ => String.eqb n m
  | _, _ => false
  end.

Definition isMixed (k : kind) : bool :=
  match k with KMixed => true | _ => false end.

(** The node state of [a.concat(b)]: [b]'s settings where it has them,
    [a]'s tests first and [b]'s added one by one with [.test]. *)
Definition concatSpec (a b : spec) : spec :=
  let start :=
    {| s_kind := s_kind b;
       s_nullable := s_nullable b || s_nullable a;
       s_default := match s_default b with Some d => Some d | None => s_default a end;
       s_tests := s_tests a;
       s_exclusive := s_exclusive a;
       s_transforms := s_transforms a ++ s_transforms b;
       s_whitelist := match s_whitelist b with Some w => Some w | None => s_whitelist a end |} in
  fold_left (fun sp t => addTestSpec t sp) (s_tests b) start.

(** [a.concat(b)]: a [TypeError] when the types differ and [a] is not
    mixed; else the fields of both, a field of both names being the
    concatenation of the two. *)
Fixpoint concat (a b : schema) {struct a} : result schema :=
  match a, b with
  | Schema spa ia fa, Schema spb ib fb =>
      if negb (sameKind (s_kind spa) (s_kind spb)) && negb (isMixed (s_kind spa))
      then Throw (TypeError "You cannot `concat()` schema's of different types")
      else
        merged <- mapM (fun '(k, f) =>
                          match Js.lookup k fb with
                          | Some g => c <- concat f g ;; Ok (k, c)
                          | None => Ok (k, f)
                          end) fa ;;
        Ok (Schema (concatSpec spa spb)
                   (match ib with Some i => Some i | None => ia end)
                   (merged ++ filter (fun '(k, _) => negb (Js.mem k (map fst fa))) fb))
  end.

(** ** Verdicts of a node on one value *)

(** The node reports at least one error on [v]. *)
Definition rejects (s : schema) (path : list segment) (v : value) : Prop :=
  exists errors, validateStrict s path v = Ok errors /\ errors <> [].

(** The node and its subtree report no error on [v]. *)
Definition accepts (s : schema) (path : list segment) (v : value) : Prop :=
  validateStrict s path v = Ok [].

End Yup.

(* ================================================================== *)
(** * Schemas, and what the module takes from its surroundings *)
(* ================================================================== *)

(** An attribute descriptor.  Every field is a JavaScript value, [VUndefined]
    when the descriptor does not have it.  [a_component] and [a_components]
    are read by the registry only. *)
Record attribute : Type := {
  a_type : value;
  a_required : value;
  a_default : value;
  a_min : value;
  a_max : value;
  a_repeatable : value;
  a_collection : value;
  a_model : value;
  a_plugin : value;
  a_component : value;
  a_components : value
}.

(** A schema (model): its name and its [attributes], if it has any. *)
Record model : Type := {
  m_uid : string;
  m_attributes : option (list (string * attribute))
}.

(** The [createOrUpdate] argument; the module exports the builder for
    ['creation'] and for ['update'] and nothing else. *)
Inductive mode : Type :=
| creation
| update.

(** The global [strapi] and the required modules, as far as [index.js]
    calls them. *)
Record environment : Type := {
  (* [strapi.db.getModelsByAttribute(attr)]; [None] is an [undefined] entry *)
  getModelsByAttribute : attribute -> list (option model);
  (* [strapi.getModel(key)] *)
  getModel : value -> option model;
  (* [_.keys(strapi.components)] *)
  components : list string;
  (* [contentTypesUtils.getNonWritableAttributes(model)] *)
  getNonWritableAttributes : model -> list string;
  (* [attr.type in validators], and [validators[attr.type]] applied to the
     descriptor and [isDraft] *)
  validators : value -> option (attribute -> bool -> Yup.schema);
  (* [formatYupErrors(e)]; it may itself throw *)
  formatYupErrors : thrown -> result value
}.

(** Modelled from the spec: the yup methods [notNil] and [notNull] that
    strapi-utils adds.  [notNil]: the value must be present and non-absent;
    [notNull]: the value must not be an explicit [null], absence is fine.
    Both are tests of the node (named [defined]), each with one shared test
    function. *)
Definition notNilTest : Yup.test :=
  {| Yup.t_name := "defined"; Yup.t_exclusive := false;
     Yup.t_fn := Some "isNotNilTest"; Yup.t_params := [];
     Yup.t_ok := fun _ v => negb (Js.isNil v) |}.

Definition notNil : Yup.schema -> Yup.schema := Yup.addTest notNilTest.

Definition notNullTest : Yup.test :=
  {| Yup.t_name := "defined"; Yup.t_exclusive := false;
     Yup.t_fn := Some "isNotNullTest"; Yup.t_params := [];
     Yup.t_ok := fun _ v => negb (Js.isNull v) |}.

Definition notNull : Yup.schema -> Yup.schema := Yup.addTest notNullTest.

(* ================================================================== *)
(** * index.js *)
(* ================================================================== *)

Definition isMedia (attr : attribute) : bool :=
  Js.is_string (Js.or (a_collection attr) (a_model attr)) "file"
  && Js.is_string (a_plugin attr) "upload".

Definition isSimpleAttribute (attr : attribute) : bool :=
  negb (Js.truthy (a_collection attr))
  && negb (Js.truthy (a_model attr))
  && negb (Js.is_string (a_type attr) "component")
  && negb (Js.is_string (a_type attr) "dynamiczone").

Definition addMinMax (attr : attribute) (validator : Yup.schema) (data : value)
  : Yup.schema :=
  let validator :=
    match Js.isInteger (a_min attr) with
    | Some n =>
        if Js.truthy (a_required attr) || Js.nonEmptyArray data
        then Yup.min n validator
        else validator
    | None => validator
    end in
  match Js.isInteger (a_max attr) with
  | Some n => Yup.max n validator
  | None => validator
  end.

Definition addRequiredValidation (createOrUpdate : mode) (required : bool)
  (validator : Yup.schema) : Yup.schema :=
  if required then
    match createOrUpdate with
    | creation => notNil validator
    | update => notNull validator
    end
  else Yup.nullable validator.

Definition addDefault (createOrUpdate : mode) (attr : attribute)
  (validator : Yup.schema) : Yup.schema :=
  match createOrUpdate with
  | creation =>
      if ((Js.is_string (a_type attr) "component" && Js.truthy (a_repeatable attr))
          || Js.is_string (a_type attr) "dynamiczone")
         && negb (Js.truthy (a_required attr))
      then Yup.default (VArray []) validator
      else Yup.default (a_default attr) validator
  | update => Yup.default VUndefined validator
  end.

Definition originalValue : Yup.transform := fun _ val originalVal => originalVal.

Definition preventCast (validator : Yup.schema) : Yup.schema :=
  Yup.addTransform originalValue validator.

(** The flag [!isDraft && attr.required], as [if (required)] reads it. *)
Definition requiredFlag (isDraft : bool) (attr : attribute) : bool :=
  negb isDraft && Js.truthy (a_required attr).

Section Builder.

Variable js : Js.runtime.
Variable strapi : environment.

(** [createModelValidator], which the functions below call back. *)
Variable modelValidator : mode -> option model -> value -> bool -> result Yup.schema.

(** The first entry of [strapi.db.getModelsByAttribute(attr)]. *)
Definition firstModel (attr : attribute) : option model :=
  match getModelsByAttribute strapi attr with
  | Some m :: _ => Some m
  | _ => None
  end.

(** The element of a repeatable component: the model validator of the
    element, not null. *)
Definition componentItem (createOrUpdate : mode) (m : model) (isDraft : bool)
  (item : value) : result Yup.schema :=
  v <- modelValidator createOrUpdate (Some m) item isDraft ;;
  Ok (notNull v).

Definition createComponentValidator (createOrUpdate : mode) (attr : attribute)
  (data : value) (isDraft : bool) : result Yup.schema :=
  match firstModel attr with
  | None => Throw (Error "Validation failed: Model not found")
  | Some m =>
      if Js.is_true (a_repeatable attr) then
        let validator :=
          Yup.arrayOf (Yup.OfLazy (componentItem createOrUpdate m isDraft))
                      (Yup.array js) in
        let validator := addRequiredValidation createOrUpdate true validator in
        Ok (addMinMax attr validator data)
      else
        validator <- modelValidator createOrUpdate (Some m) data isDraft ;;
        Ok (addRequiredValidation createOrUpdate (requiredFlag isDraft attr) validator)
  end.

(** The shape every dynamic-zone entry must have. *)
Definition dzSchema : Yup.schema :=
  notNull
    (Yup.shape
       [("__component",
         Yup.oneOf (map VString (components strapi))
                   (Yup.required (Yup.string_ js)))]
       (Yup.object js)).

(** The element of a dynamic zone, built on the entry. *)
Definition dzItem (createOrUpdate : mode) (isDraft : bool) (item : value)
  : result Yup.schema :=
  match getModel strapi (Js.get item "__component") with
  | Some m =>
      v <- modelValidator createOrUpdate (Some m) item isDraft ;;
      Yup.concat dzSchema v
  | None => Ok dzSchema
  end.

Definition createDzValidator (createOrUpdate : mode) (attr : attribute)
  (data : value) (isDraft : bool) : Yup.schema :=
  let validator :=
    Yup.arrayOf (Yup.OfLazy (dzItem createOrUpdate isDraft)) (Yup.array js) in
  let validator := addRequiredValidation createOrUpdate true validator in
  addMinMax attr validator data.

Definition createRelationValidator (createOrUpdate : mode) (attr : attribute)
  (data : value) (isDraft : bool) : Yup.schema :=
  let validator :=
    if Js.isArray data
    then Yup.arrayOf (Yup.Of Yup.mixed) (Yup.array js)
    else Yup.mixed in
  addRequiredValidation createOrUpdate (requiredFlag isDraft attr) validator.

Definition createSimpleAttributeValidator (createOrUpdate : mode)
  (attr : attribute) (isDraft : bool) : Yup.schema :=
  let validator :=
    match validators strapi (a_type attr) with
    | Some make => make attr isDraft
    | None => Yup.mixed
    end in
  addRequiredValidation createOrUpdate (requiredFlag isDraft attr) validator.

Definition createAttributeValidator (createOrUpdate : mode) (attr : attribute)
  (data : value) (isDraft : bool) : result Yup.schema :=
  validator <-
    (if isMedia attr then Ok Yup.mixed
     else if isSimpleAttribute attr then
       Ok (createSimpleAttributeValidator createOrUpdate attr isDraft)
     else
       validator <-
         (if Js.is_string (a_type attr) "component" then
            createComponentValidator createOrUpdate attr data isDraft
          else if Js.is_string (a_type attr) "dynamiczone" then
            Ok (createDzValidator createOrUpdate attr data isDraft)
          else
            Ok (createRelationValidator createOrUpdate attr data isDraft)) ;;
       Ok (preventCast validator)) ;;
  Ok (addDefault createOrUpdate attr validator).

(** [fp.getOr({}, 'attributes')(model)] *)
Definition attributesOf (m : option model) : list (string * attribute) :=
  match m with
  | Some m => match m_attributes m with Some attrs => attrs | None => [] end
  | None => []
  end.

Definition nonWritableOf (m : option model) : list string :=
  match m with
  | Some m => getNonWritableAttributes strapi m
  | None => []
  end.

(** The attributes the validator is built over. *)
Definition writableAttributes (m : option model) : list (string * attribute) :=
  filter (fun '(attrName, _) => negb (Js.mem attrName (nonWritableOf m)))
         (attributesOf m).

(** The body of [createModelValidator]. *)
Definition createModelValidatorBody (createOrUpdate : mode) (m : option model)
  (data : value) (isDraft : bool) : result Yup.schema :=
  fields <-
    mapM (fun '(attrName, attr) =>
            v <- createAttributeValidator createOrUpdate attr
                   (Js.get data attrName) isDraft ;;
            Ok (attrName, v))
         (writableAttributes m) ;;
  Ok (Yup.shape fields (Yup.object js)).

End Builder.

Section Entry.

Variable js : Js.runtime.
Variable strapi : environment.

(** [createModelValidator], with the call depth that is left; running out
    of it is the [RangeError] of the JavaScript stack. *)
Fixpoint createModelValidator (depth : nat) (createOrUpdate : mode)
  (m : option model) (data : value) (isDraft : bool) : result Yup.schema :=
  match depth with
  | O => Throw (RangeError "Maximum call stack size exceeded")
  | S depth' =>
      createModelValidatorBody js strapi (createModelValidator depth')
        createOrUpdate m data isDraft
  end.

(** The [try] block of [createValidateEntity]. *)
Definition tryValidate (depth : nat) (createOrUpdate : mode) (m : option model)
  (data : value) (isDraft : bool) : result value :=
  validator <- createModelValidator depth createOrUpdate m data isDraft ;;
  Yup.validate (Yup.required validator) data {| Yup.abortEarly := false |}.

(** The [catch] block. *)
Definition rethrow (e : thrown) : result value :=
  errors <- formatYupErrors strapi e ;;
  Throw (BadRequest "ValidationError" (VObject [("errors", errors)])).

Definition createValidateEntity (depth : nat) (createOrUpdate : mode)
  (m : option model) (data : value) (isDraft : bool) : result value :=
  match tryValidate depth createOrUpdate m data isDraft with
  | Ok v => Ok v
  | Throw e => rethrow e
  end.

Definition validateEntityCreation (depth : nat) := createValidateEntity depth creation.
Definition validateEntityUpdate (depth : nat) := createValidateEntity depth update.

End Entry.

(* ================================================================== *)
(** * Vocabulary of the properties *)
(* ================================================================== *)


(** What building a validator can throw: the unresolved component schema,
    or the exhausted call depth. *)
Definition buildError (e : thrown) : Prop :=
  e = Error "Validation failed: Model not found"
  \/ e = RangeError "Maximum call stack size exceeded".

(** The call fails with a validation error that has an entry of this type
    at this path. *)
Definition reportsError (r : result value) (path : list segment) (type : string)
  : Prop :=
  exists errors,
    r = Throw (ValidationError errors) /\ In (Yup.err path type) errors.

(* ================================================================== *)
(** * Concrete schemas and surroundings, for the examples *)
(* ================================================================== *)

Module Examples.

Definition js : Js.runtime :=
  {| Js.JSON_parse := fun _ => None; Js.toString := fun _ => "" |}.

Definition segmentValue (s : segment) : value :=
  match s with
  | Key name => VString name
  | Idx i => VNumber (inject_Z (Z.of_nat i))
  end.

(** Modelled from the spec: the error formatter of strapi-utils,
    [formatValidationFailure(rawFailure) -> ordered list of {path, message}];
    a failure without per-field errors gives the empty list. *)
Definition formatValidationFailure (e : thrown) : result value :=
  Ok (VArray
        match e with
        | ValidationError inner =>
            map (fun er =>
                   VObject [("path", VArray (map segmentValue (e_path er)));
                            ("message", VString (e_type er))])
                inner
        | _ => []
        end).

(** A descriptor with nothing set but its type. *)
Definition attr (type : string) : attribute :=
  {| a_type := VString type; a_required := VUndefined; a_default := VUndefined;
     a_min := VUndefined; a_max := VUndefined; a_repeatable := VUndefined;
     a_collection := VUndefined; a_model := VUndefined; a_plugin := VUndefined;
     a_component := VUndefined; a_components := VUndefined |}.

Definition withRequired (a : attribute) : attribute :=
  {| a_type := a_type a; a_required := VBool true; a_default := a_default a;
     a_min := a_min a; a_max := a_max a; a_repeatable := a_repeatable a;
     a_collection := a_collection a; a_model := a_model a; a_plugin := a_plugin a;
     a_component := a_component a; a_components := a_components a |}.

Definition withDefault (d : value) (a : attribute) : attribute :=
  {| a_type := a_type a; a_required := a_required a; a_default := d;
     a_min := a_min a; a_max := a_max a; a_repeatable := a_repeatable a;
     a_collection := a_collection a; a_model := a_model a; a_plugin := a_plugin a;
     a_component := a_component a; a_components := a_components a |}.

Definition withComponent (name : string) (a : attribute) : attribute :=
  {| a_type := a_type a; a_required := a_required a; a_default := a_default a;
     a_min := a_min a; a_max := a_max a; a_repeatable := a_repeatable a;
     a_collection := a_collection a; a_model := a_model a; a_plugin := a_plugin a;
     a_component := VString name; a_components := a_components a |}.

(** [{type: 'component', repeatable: true, min: 1}] *)
Definition tagsAttr : attribute :=
  {| a_type := VString "component"; a_required := VUndefined;
     a_default := VUndefined; a_min := VNumber 1; a_max := VUndefined;
     a_repeatable := VBool true; a_collection := VUndefined;
     a_model := VUndefined; a_plugin := VUndefined;
     a_component := VUndefined; a_components := VUndefined |}.

(** [{type: 'component'}] *)
Definition targetAttr : attribute := attr "component".

(** [{model: 'file', plugin: 'upload', required: true}] *)
Definition coverAttr : attribute :=
  {| a_type := VUndefined; a_required := VBool true; a_default := VUndefined;
     a_min := VUndefined; a_max := VUndefined; a_repeatable := VUndefined;
     a_collection := VUndefined; a_model := VString "file";
     a_plugin := VString "upload";
     a_component := VUndefined; a_components := VUndefined |}.

(** [{tags: {type: component, repeatable: true, min: 1}, target: {type: component}}] *)
Definition tagsSchema (uid : string) : model :=
  {| m_uid := uid;
     m_attributes := Some [("tags", tagsAttr); ("target", targetAttr)] |}.

(** A component schema with one required string. *)
Definition tagModel : model :=
  {| m_uid := "default.tag";
     m_attributes := Some [("label", withRequired (attr "string"))] |}.

(** Three required scalars, and the system field [id]. *)
Definition article : model :=
  {| m_uid := "article";
     m_attributes := Some [("id", withRequired (attr "integer"));
                           ("title", withRequired (attr "string"));
                           ("slug", withRequired (attr "string"));
                           ("body", withRequired (attr "string"))] |}.

(** One string with a default. *)
Definition named : model :=
  {| m_uid := "named";
     m_attributes :=
       Some [("name", withDefault (VString "x") (withRequired (attr "string")))] |}.

(** One component whose target the registry does not know. *)
Definition broken : model :=
  {| m_uid := "broken";
     m_attributes := Some [("seo", withComponent "shared.missing" (attr "component"))] |}.

(** One dynamic zone. *)
Definition page : model :=
  {| m_uid := "page";
     m_attributes := Some [("body", withRequired (attr "dynamiczone"))] |}.

(** [{tags: []}] *)
Definition tagsRecord : value := VObject [("tags", VArray [])].

(** A registry with the one component [default.tag]: a component
    attribute resolves to it unless it names another component. *)
Definition strapi : environment :=
  {| getModelsByAttribute :=
       fun a =>
         if Js.isUndefined (a_component a) || Js.is_string (a_component a) "default.tag"
         then [Some tagModel] else [None];
     getModel :=
       fun key => if Js.is_string key "default.tag" then Some tagModel else None;
     components := ["default.tag"];
     getNonWritableAttributes := fun _ => ["id"];
     validators := fun _ => None;
     formatYupErrors := formatValidationFailure |}.

(** A formatter that takes validation errors only and throws on anything
    else. *)
Definition strictFormatter (e : thrown) : result value :=
  match e with
  | ValidationError _ => formatValidationFailure e
  | _ => Throw (Error "invalid.input")
  end.

(** The same registry with that formatter. *)
Definition strapiStrict : environment :=
  {| getModelsByAttribute := getModelsByAttribute strapi;
     getModel := getModel strapi;
     components := components strapi;
     getNonWritableAttributes := getNonWritableAttributes strapi;
     validators := validators strapi;
     formatYupErrors := strictFormatter |}.

End Examples.

(** Further schemas: relations, and components that contain themselves. *)
Module Cases.

(** [{model: 'user'}] *)
Definition ownerAttr : attribute :=
  {| a_type := VUndefined; a_required := VUndefined; a_default := VUndefined;
     a_min := VUndefined; a_max := VUndefined; a_repeatable := VUndefined;
     a_collection := VUndefined; a_model := VString "user";
     a_plugin := VUndefined;
     a_component := VUndefined; a_components := VUndefined |}.

(** [{type: 'dynamiczone', required: true}] *)
Definition bodyAttr : attribute := Examples.withRequired (Examples.attr "dynamiczone").

(** [{type: 'dynamiczone', min: 2, max: 3}] *)
Definition blocksAttr : attribute :=
  {| a_type := VString "dynamiczone"; a_required := VUndefined;
     a_default := VUndefined; a_min := VNumber 2; a_max := VNumber 3;
     a_repeatable := VUndefined; a_collection := VUndefined;
     a_model := VUndefined; a_plugin := VUndefined;
     a_component := VUndefined; a_components := VUndefined |}.

(** [{type: 'component', component: 'tree.node'}] *)
Definition childAttr : attribute :=
  Examples.withComponent "tree.node" (Examples.attr "component").

(** [{type: 'component', component: 'tree.node', repeatable: true}] *)
Definition childrenAttr : attribute :=
  {| a_type := VString "component"; a_required := VUndefined;
     a_default := VUndefined; a_min := VUndefined; a_max := VUndefined;
     a_repeatable := VBool true; a_collection := VUndefined;
     a_model := VUndefined; a_plugin := VUndefined;
     a_component := VString "tree.node"; a_components := VUndefined |}.

(** A component that contains one component of its own schema. *)
Definition node : model :=
  {| m_uid := "tree.node"; m_attributes := Some [("child", childAttr)] |}.

(** A schema with a sequence of [tree.node], a relation and a string with
    a default. *)
Definition forest : model :=
  {| m_uid := "forest";
     m_attributes :=
       Some [("children", childrenAttr);
             ("owner", ownerAttr);
             ("title", Examples.withDefault (VString "untitled") (Examples.attr "string"))] |}.

(** The registry of the examples, with the component [tree.node]. *)
Definition strapi : environment :=
  {| getModelsByAttribute :=
       fun a =>
         if Js.is_string (a_component a) "tree.node" then [Some node]
         else getModelsByAttribute Examples.strapi a;
     getModel :=
       fun key =>
         if Js.is_string key "tree.node" then Some node
         else getModel Examples.strapi key;
     components := ["default.tag"; "tree.node"];
     getNonWritableAttributes := getNonWritableAttributes Examples.strapi;
     validators := validators Examples.strapi;
     formatYupErrors := formatYupErrors Examples.strapi |}.

(** The registry of the examples with one leaf validator: a [string] is a
    string of at least three characters. *)
Definition typed : environment :=
  {| getModelsByAttribute := getModelsByAttribute strapi;
     getModel := getModel strapi;
     components := components strapi;
     getNonWritableAttributes := getNonWritableAttributes strapi;
     validators :=
       fun type =>
         if Js.is_string type "string"
         then Some (fun _ _ => Yup.min 3 (Yup.string_ Examples.js))
         else None;
     formatYupErrors := formatYupErrors strapi |}.

End Cases.

(* ================================================================== *)
(** * Facts about the yup modifiers *)
(* ================================================================== *)

Module YupFacts.
Import Yup.

Lemma tests_addTest t s :
  tests_of (addTest t s) =
  filter (fun old =>
            negb (String.eqb (t_name old) (t_name t)
                  && ((t_exclusive t || isExclusive (t_name t) (s_exclusive (spec_of s)))
                      || sameFn old t)))
         (tests_of s) ++ [t].
Proof. destruct s; reflexivity. Qed.

Lemma in_addTest t s : In t (tests_of (addTest t s)).
Proof. rewrite tests_addTest. apply in_or_app. right. left. reflexivity. Qed.

Lemma nullable_addTest t s : nullable_of (addTest t s) = nullable_of s.
Proof. destruct s; reflexivity. Qed.

Lemma kind_addTest t s : kind_of (addTest t s) = kind_of s.
Proof. destruct s; reflexivity. Qed.

Lemma default_addTest t s : default_of (addTest t s) = default_of s.
Proof. destruct s; reflexivity. Qed.

Lemma inner_addTest t s : inner_of (addTest t s) = inner_of s.
Proof. destruct s; reflexivity. Qed.

Lemma fields_addTest t s : fields_of (addTest t s) = fields_of s.
Proof. destruct s; reflexivity. Qed.

Lemma whitelist_addTest t s : whitelist_of (addTest t s) = whitelist_of s.
Proof. destruct s; reflexivity. Qed.

Lemma transforms_addTest t s : transforms_of (addTest t s) = transforms_of s.
Proof. destruct s; reflexivity. Qed.

(** A test of another name survives [.test]. *)
Lemma in_addTest_other t u s :
  String.eqb (t_name u) (t_name t) = false ->
  In u (tests_of s) -> In u (tests_of (addTest t s)).
Proof.
  intros Hne Hin. rewrite tests_addTest. apply in_or_app. left.
  apply filter_In. split; [exact Hin | now rewrite Hne].
Qed.

(** What [.test] leaves in the list was there or is the new test. *)
Lemma in_addTest_inv t u s :
  In u (tests_of (addTest t s)) -> u = t \/ In u (tests_of s).
Proof.
  rewrite tests_addTest. intros H. apply in_app_or in H. destruct H as [H | H].
  - right. apply filter_In in H. tauto.
  - left. destruct H as [H | []]. now symmetry.
Qed.

Lemma hasTest_false name s :
  hasTest name s = false <->
  forall t, In t (tests_of s) -> String.eqb (t_name t) name = false.
Proof.
  unfold hasTest. split.
  - intros H t Hin.
    destruct (String.eqb (t_name t) name) eqn:E; [| reflexivity].
    rewrite <- H. symmetry. apply existsb_exists. now exists t.
  - intros H. destruct (existsb _ _) eqn:E; [| reflexivity].
    apply existsb_exists in E. destruct E as (t & Hin & Ht).
    now rewrite (H t Hin) in Ht.
Qed.

Lemma hasTest_true name s :
  hasTest name s = true <->
  exists t, In t (tests_of s) /\ t_name t = name.
Proof.
  unfold hasTest. rewrite existsb_exists. split; intros (t & Hin & Ht); exists t.
  - split; [exact Hin | now apply String.eqb_eq].
  - split; [exact Hin | now apply String.eqb_eq].
Qed.

Lemma hasTest_addTest_other name t s :
  String.eqb (t_name t) name = false ->
  hasTest name (addTest t s) = hasTest name s.
Proof.
  intros Hne.
  destruct (hasTest name s) eqn:E.
  - apply hasTest_true in E. destruct E as (u & Hin & Hu).
    apply hasTest_true. exists u. split; [| exact Hu].
    apply in_addTest_other; [| exact Hin].
    rewrite Hu. rewrite String.eqb_sym. exact Hne.
  - apply hasTest_false. intros u Hu.
    apply in_addTest_inv in Hu. destruct Hu as [-> | Hu]; [exact Hne |].
    rewrite hasTest_false in E. now apply E.
Qed.

Lemma minTest_inj n m : minTest n = minTest m -> n = m.
Proof. intros H. apply (f_equal t_params) in H. now inversion H. Qed.

Lemma maxTest_inj n m : maxTest n = maxTest m -> n = m.
Proof. intros H. apply (f_equal t_params) in H. now inversion H. Qed.

End YupFacts.

(* ================================================================== *)
(** * Properties of the modifier pipeline *)
(* ================================================================== *)

Import YupFacts.

Lemma no_minTest validator n :
  Yup.hasTest "min" validator = false -> ~ In (Yup.minTest n) (Yup.tests_of validator).
Proof.
  intros H Hin. rewrite hasTest_false in H. specialize (H _ Hin). discriminate.
Qed.

Lemma no_maxTest validator n :
  Yup.hasTest "max" validator = false -> ~ In (Yup.maxTest n) (Yup.tests_of validator).
Proof.
  intros H Hin. rewrite hasTest_false in H. specialize (H _ Hin). discriminate.
Qed.

(** The guard of the minimum bound. *)
Lemma addMinMax_min attr validator data n :
  Yup.hasTest "min" validator = false ->
  (In (Yup.minTest n) (Yup.tests_of (addMinMax attr validator data)) <->
   Js.isInteger (a_min attr) = Some n
   /\ (Js.truthy (a_required attr) = true \/ Js.nonEmptyArray data = true)).
Proof.
  intros Hmin. unfold addMinMax.
  assert (Hstep : forall s m,
             In (Yup.minTest n) (Yup.tests_of (Yup.max m s)) <->
             In (Yup.minTest n) (Yup.tests_of s)).
  { intros s m. split.
    - intros H. apply in_addTest_inv in H. destruct H as [H | H]; [| exact H].
      apply (f_equal Yup.t_name) in H. discriminate.
    - apply in_addTest_other. reflexivity. }
  assert (Hbase :
            In (Yup.minTest n)
               (Yup.tests_of
                  match Js.isInteger (a_min attr) with
                  | Some n0 =>
                      if Js.truthy (a_required attr) || Js.nonEmptyArray data
                      then Yup.min n0 validator else validator
                  | None => validator
                  end) <->
            Js.isInteger (a_min attr) = Some n
            /\ (Js.truthy (a_required attr) = true \/ Js.nonEmptyArray data = true)).
  { destruct (Js.isInteger (a_min attr)) as [n0 |].
    - destruct (Js.truthy (a_required attr) || Js.nonEmptyArray data) eqn:G.
      + apply orb_true_iff in G. split.
        * intros H. apply in_addTest_inv in H. destruct H as [H | H].
          -- apply minTest_inj in H. subst. tauto.
          -- now apply no_minTest in H.
        * intros [H _]. inversion H; subst. apply in_addTest.
      + apply orb_false_iff in G. destruct G as [G1 G2]. split.
        * intros H. now apply no_minTest in H.
        * intros [_ [H | H]]; congruence.
    - split.
      + intros H. now apply no_minTest in H.
      + intros [H _]. discriminate. }
  destruct (Js.isInteger (a_max attr)); [rewrite Hstep |]; exact Hbase.
Qed.

(** The maximum bound has no guard. *)
Lemma addMinMax_max attr validator data n :
  Yup.hasTest "max" validator = false ->
  (In (Yup.maxTest n) (Yup.tests_of (addMinMax attr validator data)) <->
   Js.isInteger (a_max attr) = Some n).
Proof.
  intros Hmax. unfold addMinMax.
  set (s := match Js.isInteger (a_min attr) with
            | Some n0 =>
                if Js.truthy (a_required attr) || Js.nonEmptyArray data
                then Yup.min n0 validator else validator
            | None => validator
            end).
  assert (Hs : Yup.hasTest "max" s = false).
  { subst s. destruct (Js.isInteger (a_min attr)); [| exact Hmax].
    destruct (_ || _); [| exact Hmax].
    unfold Yup.min. now rewrite hasTest_addTest_other. }
  destruct (Js.isInteger (a_max attr)) as [m |].
  - split.
    + intros H. apply in_addTest_inv in H. destruct H as [H | H].
      * apply maxTest_inj in H. now subst.
      * now apply no_maxTest in H.
    + intros H. inversion H; subst. apply in_addTest.
  - split.
    + intros H. now apply no_maxTest in H.
    + discriminate.
Qed.

(** A test named [min] or [max] on the outcome is the one [addMinMax] put. *)
Lemma addMinMax_named attr validator data :
  Yup.hasTest "min" validator = false ->
  Yup.hasTest "max" validator = false ->
  forall t, In t (Yup.tests_of (addMinMax attr validator data)) ->
    (Yup.t_name t = "min" -> exists n, t = Yup.minTest n)
    /\ (Yup.t_name t = "max" -> exists n, t = Yup.maxTest n).
Proof.
  intros Hmin Hmax t Hin. unfold addMinMax in Hin.
  assert (Hv : In t (Yup.tests_of validator) ->
               Yup.t_name t <> "min" /\ Yup.t_name t <> "max").
  { intros H. rewrite hasTest_false in Hmin, Hmax.
    specialize (Hmin _ H). specialize (Hmax _ H).
    split; intros E; rewrite E in *; discriminate. }
  assert (Hcases : (exists n, t = Yup.minTest n) \/ (exists n, t = Yup.maxTest n)
                   \/ In t (Yup.tests_of validator)).
  { destruct (Js.isInteger (a_max attr)) as [m |].
    - apply in_addTest_inv in Hin. destruct Hin as [-> | Hin]; [right; left; eauto |].
      destruct (Js.isInteger (a_min attr)) as [n |]; [| tauto].
      destruct (_ || _); [| tauto].
      apply in_addTest_inv in Hin. destruct Hin as [-> | Hin]; [left; eauto | tauto].
    - destruct (Js.isInteger (a_min attr)) as [n |]; [| tauto].
      destruct (_ || _); [| tauto].
      apply in_addTest_inv in Hin. destruct Hin as [-> | Hin]; [left; eauto | tauto]. }
  destruct Hcases as [[n ->] | [[n ->] | H]].
  - split; [eauto | discriminate].
  - split; [discriminate | eauto].
  - apply Hv in H. tauto.
Qed.

(** ** C4 *)

(** C4.  [addMinMax] on a validator that carries no bound yet: a minimum
    bound [n] is on the outcome if and only if the descriptor's [min] is
    the integer [n] and the attribute is required or the data is a
    non-empty array; a maximum bound [n] is on the outcome if and only if
    the descriptor's [max] is the integer [n].  A test named [min] or [max]
    is set exactly under these conditions. *)
Theorem addMinMax_bounds attr validator data :
  Yup.hasTest "min" validator = false ->
  Yup.hasTest "max" validator = false ->
  (forall n,
      In (Yup.minTest n) (Yup.tests_of (addMinMax attr validator data)) <->
      Js.isInteger (a_min attr) = Some n
      /\ (Js.truthy (a_required attr) = true \/ Js.nonEmptyArray data = true))
  /\ (forall n,
         In (Yup.maxTest n) (Yup.tests_of (addMinMax attr validator data)) <->
         Js.isInteger (a_max attr) = Some n)
  /\ (Yup.hasTest "min" (addMinMax attr validator data) = true <->
      Js.isInteger (a_min attr) <> None
      /\ (Js.truthy (a_required attr) = true \/ Js.nonEmptyArray data = true))
  /\ (Yup.hasTest "max" (addMinMax attr validator data) = true <->
      Js.isInteger (a_max attr) <> None).
Proof.
  intros Hmin Hmax.
  split; [intros n; now apply addMinMax_min |].
  split; [intros n; now apply addMinMax_max |].
  split.
  - rewrite hasTest_true. split.
    + intros (t & Hin & Hname).
      destruct (addMinMax_named attr validator data Hmin Hmax t Hin) as [H _].
      destruct (H Hname) as [n ->].
      apply addMinMax_min in Hin; [| exact Hmin].
      destruct Hin as [E G]. split; [congruence | exact G].
    + intros [E G]. destruct (Js.isInteger (a_min attr)) as [n |] eqn:En; [| congruence].
      exists (Yup.minTest n). split; [| reflexivity].
      apply addMinMax_min; [exact Hmin | tauto].
  - rewrite hasTest_true. split.
    + intros (t & Hin & Hname).
      destruct (addMinMax_named attr validator data Hmin Hmax t Hin) as [_ H].
      destruct (H Hname) as [n ->].
      apply addMinMax_max in Hin; [| exact Hmax]. congruence.
    + intros E. destruct (Js.isInteger (a_max attr)) as [n |] eqn:En; [| congruence].
      exists (Yup.maxTest n). split; [| reflexivity].
      apply addMinMax_max; [exact Hmax | exact En].
Qed.

(* ================================================================== *)
(** * Facts about [mapM], lookups and the builder's outcome *)
(* ================================================================== *)

Lemma bind_Ok {A B : Type} (r : result A) (k : A -> result B) b :
  bind r k = Ok b -> exists a, r = Ok a /\ k a = Ok b.
Proof. destruct r as [a | e]; simpl; [eauto | discriminate]. Qed.

Lemma bind_Throw {A B : Type} (r : result A) (k : A -> result B) e :
  bind r k = Throw e -> r = Throw e \/ exists a, r = Ok a /\ k a = Throw e.
Proof. destruct r as [a | e']; simpl; [eauto | intros H; left; congruence]. Qed.

Lemma mapM_Forall2 {A B : Type} (f : A -> result B) l bs :
  mapM f l = Ok bs <-> Forall2 (fun a b => f a = Ok b) l bs.
Proof.
  revert bs. induction l as [| a l IH]; intros bs; simpl.
  - split.
    + intros H. inversion H. constructor.
    + intros H. inversion H. reflexivity.
  - destruct (f a) as [b | e] eqn:Ea.
    + destruct (mapM f l) as [bs' | e] eqn:El.
      * split.
        -- intros H. inversion H; subst. constructor; [exact Ea |]. now apply IH.
        -- intros H. inversion H; subst. apply IH in H4. inversion H4; subst.
           congruence.
      * split; [discriminate |].
        intros H. inversion H; subst. apply IH in H4. discriminate.
    + split; [discriminate |]. intros H. inversion H; subst. congruence.
Qed.

(** One throwing element makes the whole run throw. *)
Lemma mapM_Throw_in {A B : Type} (f : A -> result B) l a e :
  In a l -> f a = Throw e -> exists e', mapM f l = Throw e'.
Proof.
  induction l as [| x l IH]; intros Hin Hf; [contradiction |]. simpl.
  destruct Hin as [-> | Hin].
  - rewrite Hf. eauto.
  - destruct (f x); [| eauto].
    destruct (IH Hin Hf) as [e' ->]. eauto.
Qed.

(** A throw of the run is the throw of one element. *)
Lemma mapM_Throw_inv {A B : Type} (f : A -> result B) l e :
  mapM f l = Throw e -> exists a, In a l /\ f a = Throw e.
Proof.
  induction l as [| x l IH]; simpl; [discriminate |].
  destruct (f x) as [b | e'] eqn:Ex.
  - destruct (mapM f l) as [bs | e'] eqn:El; [discriminate |].
    intros H. inversion H; subst.
    destruct (IH eq_refl) as (a & Hin & Ha). exists a. auto.
  - intros H. inversion H; subst. exists x. auto.
Qed.

Lemma Forall2_In_r {A B : Type} (R : A -> B -> Prop) l l' b :
  Forall2 R l l' -> In b l' -> exists a, In a l /\ R a b.
Proof.
  induction 1 as [| a b' l l' Hab _ IH]; intros Hin; [contradiction |].
  destruct Hin as [-> | Hin].
  - exists a. split; [now left | exact Hab].
  - destruct (IH Hin) as (a' & Ha & Hr). exists a'. split; [now right | exact Hr].
Qed.

Lemma lookup_None {A : Type} k (l : list (string * A)) :
  Js.lookup k l = None <-> forall a, ~ In (k, a) l.
Proof.
  induction l as [| [k' a'] l IH]; simpl.
  - split; [intros _ a [] | reflexivity].
  - destruct (String.eqb k k') eqn:E.
    + apply String.eqb_eq in E. subst. split; [discriminate |].
      intros H. exfalso. apply (H a'). now left.
    + apply String.eqb_neq in E. rewrite IH. split.
      * intros H a [Heq | Hin]; [inversion Heq; congruence | now apply (H a)].
      * intros H a Hin. apply (H a). now right.
Qed.

Lemma lookup_None_keys {A : Type} k (l : list (string * A)) :
  Js.lookup k l = None <-> ~ In k (map fst l).
Proof.
  rewrite lookup_None. split.
  - intros H Hin. apply in_map_iff in Hin. destruct Hin as ([k' a] & Hk & Hin).
    simpl in Hk. subst. now apply (H a).
  - intros H a Hin. apply H. apply in_map_iff. now exists (k, a).
Qed.

Lemma mem_In x l : Js.mem x l = true <-> In x l.
Proof.
  unfold Js.mem. rewrite existsb_exists. split.
  - intros (y & Hin & E). apply String.eqb_eq in E. now subst.
  - intros H. exists x. split; [exact H | apply String.eqb_refl].
Qed.

Section BuilderFacts.

Variable js : Js.runtime.
Variable strapi : environment.

Lemma default_addDefault createOrUpdate attr validator :
  Yup.default_of (addDefault createOrUpdate attr validator) =
  Some match createOrUpdate with
       | creation =>
           if ((Js.is_string (a_type attr) "component" && Js.truthy (a_repeatable attr))
               || Js.is_string (a_type attr) "dynamiczone")
              && negb (Js.truthy (a_required attr))
           then VArray []
           else a_default attr
       | update => VUndefined
       end.
Proof.
  destruct validator. unfold addDefault.
  destruct createOrUpdate; [| reflexivity].
  destruct (_ && _); reflexivity.
Qed.

(** [addDefault] touches the default and nothing else. *)
Lemma addDefault_rest createOrUpdate attr validator :
  Yup.tests_of (addDefault createOrUpdate attr validator) = Yup.tests_of validator
  /\ Yup.nullable_of (addDefault createOrUpdate attr validator) = Yup.nullable_of validator
  /\ Yup.kind_of (addDefault createOrUpdate attr validator) = Yup.kind_of validator
  /\ Yup.inner_of (addDefault createOrUpdate attr validator) = Yup.inner_of validator
  /\ Yup.fields_of (addDefault createOrUpdate attr validator) = Yup.fields_of validator
  /\ Yup.transforms_of (addDefault createOrUpdate attr validator) = Yup.transforms_of validator
  /\ Yup.whitelist_of (addDefault createOrUpdate attr validator) = Yup.whitelist_of validator.
Proof.
  destruct validator. unfold addDefault.
  destruct createOrUpdate; [destruct (_ && _) |]; repeat split.
Qed.

(** [preventCast] touches the transforms and nothing else. *)
Lemma preventCast_rest validator :
  Yup.tests_of (preventCast validator) = Yup.tests_of validator
  /\ Yup.nullable_of (preventCast validator) = Yup.nullable_of validator
  /\ Yup.kind_of (preventCast validator) = Yup.kind_of validator
  /\ Yup.inner_of (preventCast validator) = Yup.inner_of validator
  /\ Yup.fields_of (preventCast validator) = Yup.fields_of validator
  /\ Yup.default_of (preventCast validator) = Yup.default_of validator
  /\ Yup.whitelist_of (preventCast validator) = Yup.whitelist_of validator.
Proof. destruct validator. repeat split. Qed.

(** An attribute validator, when it is built, is some validator with the
    default put on it last. *)
Lemma createAttributeValidator_Ok recur createOrUpdate attr data isDraft v :
  createAttributeValidator js strapi recur createOrUpdate attr data isDraft = Ok v ->
  exists validator, v = addDefault createOrUpdate attr validator.
Proof.
  unfold createAttributeValidator. intros H.
  apply bind_Ok in H. destruct H as (validator & _ & H).
  inversion H. eauto.
Qed.

(** The outcome of [createModelValidator]: an object node over the writable
    attributes. *)
Lemma createModelValidator_Ok depth createOrUpdate m data isDraft v :
  createModelValidator js strapi depth createOrUpdate m data isDraft = Ok v ->
  exists depth' fields,
    depth = S depth'
    /\ Forall2
         (fun (na : string * attribute) (nv : string * Yup.schema) =>
            fst na = fst nv
            /\ createAttributeValidator js strapi
                 (createModelValidator js strapi depth')
                 createOrUpdate (snd na) (Js.get data (fst na)) isDraft
               = Ok (snd nv))
         (writableAttributes strapi m) fields
    /\ v = Yup.shape fields (Yup.object js).
Proof.
  destruct depth as [| depth']; simpl; [discriminate |].
  unfold createModelValidatorBody. intros H.
  apply bind_Ok in H. destruct H as (fields & Hm & H).
  inversion H; subst. exists depth', fields. split; [reflexivity |].
  split; [| reflexivity].
  apply mapM_Forall2 in Hm.
  eapply Forall2_impl; [| exact Hm].
  intros [n a] [n' v'] Hf. simpl in *.
  apply bind_Ok in Hf. destruct Hf as (x & Hx & Hf). inversion Hf; subst. auto.
Qed.

End BuilderFacts.

(* ================================================================== *)
(** * Defaults *)
(* ================================================================== *)

Section Defaults.

Variable js : Js.runtime.
Variable strapi : environment.

(** A node whose default is set to [undefined] casts [undefined] to
    [undefined], whatever its kind. *)
Lemma cast_undefined s :
  Yup.default_of s = Some VUndefined -> Yup.cast s VUndefined = Ok VUndefined.
Proof.
  destruct s as [sp i fs]. unfold Yup.default_of. simpl. intros Hd.
  unfold Yup.mixedCast. rewrite Hd.
  destruct (Yup.s_kind sp); reflexivity.
Qed.

Lemma rethrow_not_Ok e v : rethrow strapi e <> Ok v.
Proof.
  unfold rethrow. destruct (formatYupErrors strapi e); simpl; discriminate.
Qed.

Lemma createValidateEntity_Ok depth createOrUpdate m data isDraft out :
  createValidateEntity js strapi depth createOrUpdate m data isDraft = Ok out ->
  tryValidate js strapi depth createOrUpdate m data isDraft = Ok out.
Proof.
  unfold createValidateEntity.
  destruct (tryValidate js strapi depth createOrUpdate m data isDraft) as [v | e].
  - intros H. exact H.
  - intros H. now apply rethrow_not_Ok in H.
Qed.

Lemma validate_Ok s data opts out :
  Yup.validate s data opts = Ok out ->
  Yup.cast s data = Ok out /\ Yup.validateStrict s [] out = Ok [].
Proof.
  unfold Yup.validate. intros H.
  apply bind_Ok in H. destruct H as (c & Hc & H).
  apply bind_Ok in H. destruct H as (errors & He & H).
  destruct errors; [| discriminate]. inversion H; subst. auto.
Qed.

(** The cast of a record by the top-level validator: the defined casts of
    the fields, then the properties no field names. *)
Lemma cast_record fields props out :
  Yup.cast (Yup.required (Yup.shape fields (Yup.object js))) (VObject props) = Ok out ->
  exists cs,
    Forall2 (fun (nv : string * Yup.schema) (nc : string * value) =>
               fst nv = fst nc
               /\ Yup.cast (snd nv) (Js.get (VObject props) (fst nv)) = Ok (snd nc))
            fields cs
    /\ out = VObject (Yup.definedProps cs ++ Yup.unknownProps (map fst fields) props).
Proof.
  simpl. intros H. apply bind_Ok in H. destruct H as (cs & Hcs & H).
  inversion H; subst. exists cs. split; [| reflexivity].
  apply mapM_Forall2 in Hcs.
  eapply Forall2_impl; [| exact Hcs].
  intros [n f] [n' c] Hf. simpl in *.
  apply bind_Ok in Hf. destruct Hf as (x & Hx & Hf). inversion Hf; subst. auto.
Qed.

(** ** C1 *)

(** C1.  The default of every attribute validator that is built: in
    creation mode the descriptor's [default], except the empty array for a
    repeatable component or a dynamic zone that is not required; in update
    mode [undefined].  The validator is built for every attribute that is
    media, simple, or not of type [component].  So in update mode a
    property the record does not have is not in the normalized record
    either. *)
Theorem default_injection :
  (forall recur createOrUpdate attr data isDraft,
      isMedia attr = true \/ isSimpleAttribute attr = true
      \/ Js.is_string (a_type attr) "component" = false ->
      exists v,
        createAttributeValidator js strapi recur createOrUpdate attr data isDraft
        = Ok v)
  /\ (forall recur createOrUpdate attr data isDraft v,
      createAttributeValidator js strapi recur createOrUpdate attr data isDraft = Ok v ->
      Yup.default_of v =
      Some match createOrUpdate with
           | creation =>
               if ((Js.is_string (a_type attr) "component"
                    && Js.truthy (a_repeatable attr))
                   || Js.is_string (a_type attr) "dynamiczone")
                  && negb (Js.truthy (a_required attr))
               then VArray []
               else a_default attr
           | update => VUndefined
           end)
  /\ (forall depth m props isDraft out name,
         validateEntityUpdate js strapi depth m (VObject props) isDraft = Ok out ->
         Js.lookup name props = None ->
         exists ps, out = VObject ps /\ Js.lookup name ps = None).
Proof.
  split; [| split].
  - intros recur createOrUpdate attr data isDraft H.
    unfold createAttributeValidator.
    destruct (isMedia attr); [simpl; eauto |].
    destruct (isSimpleAttribute attr); [simpl; eauto |].
    destruct H as [H | [H | H]]; try discriminate.
    rewrite H. destruct (Js.is_string (a_type attr) "dynamiczone"); simpl; eauto.
  - intros recur createOrUpdate attr data isDraft v H.
    apply createAttributeValidator_Ok in H. destruct H as (validator & ->).
    apply default_addDefault.
  - intros depth m props isDraft out name H Hname.
    apply createValidateEntity_Ok in H. unfold tryValidate in H.
    apply bind_Ok in H. destruct H as (v & Hv & H).
    apply validate_Ok in H. destruct H as [Hcast _].
    apply createModelValidator_Ok in Hv.
    destruct Hv as (depth' & fields & -> & Hfields & ->).
    apply cast_record in Hcast. destruct Hcast as (cs & Hcs & ->).
    eexists. split; [reflexivity |].
    apply lookup_None. intros c Hin. apply in_app_or in Hin.
    destruct Hin as [Hin | Hin].
    + unfold Yup.definedProps in Hin. apply filter_In in Hin.
      destruct Hin as [Hin Hdef].
      destruct (@Forall2_In_r _ _ _ _ _ _ Hcs Hin) as ([n f] & Hf & Hn & Hc).
      cbn [fst snd] in Hn, Hc. subst n.
      destruct (@Forall2_In_r _ _ _ _ _ _ Hfields Hf) as ([n a] & Ha & Hn & Hb).
      cbn [fst snd] in Hn, Hb. subst n.
      apply createAttributeValidator_Ok in Hb. destruct Hb as (validator & ->).
      assert (Hget : Js.get (VObject props) name = VUndefined)
        by (simpl; now rewrite Hname).
      rewrite Hget in Hc.
      rewrite cast_undefined in Hc by apply (default_addDefault update).
      inversion Hc; subst. discriminate.
    + unfold Yup.unknownProps in Hin. apply filter_In in Hin.
      destruct Hin as [Hin _]. rewrite lookup_None in Hname. now apply (Hname c).
Qed.

End Defaults.

(* ================================================================== *)
(** * The required modifier *)
(* ================================================================== *)

Lemma validateStrict_undefined s path :
  Yup.validateStrict s path VUndefined = Ok (Yup.ownErrors (Yup.spec_of s) path VUndefined).
Proof.
  destruct s as [sp i fs]. simpl. destruct (Yup.s_kind sp); reflexivity.
Qed.

Lemma validateStrict_null s path :
  Yup.validateStrict s path VNull = Ok (Yup.ownErrors (Yup.spec_of s) path VNull).
Proof.
  destruct s as [sp i fs]. simpl. destruct (Yup.s_kind sp); reflexivity.
Qed.

(** A failing test of the node gives the node an error. *)
Lemma ownErrors_failing sp path v t :
  In t (Yup.s_tests sp) -> Yup.t_ok t (Yup.s_kind sp) v = false ->
  Yup.ownErrors sp path v <> [].
Proof.
  intros Hin Hfail. unfold Yup.ownErrors.
  destruct (_ ++ _); [| discriminate].
  intros E. apply map_eq_nil in E.
  assert (H : In t (filter (fun t0 => negb (Yup.t_ok t0 (Yup.s_kind sp) v)) (Yup.s_tests sp))).
  { apply filter_In. split; [exact Hin | now rewrite Hfail]. }
  rewrite E in H. contradiction.
Qed.

Lemma rejects_undefined s path t :
  In t (Yup.tests_of s) -> Yup.t_ok t (Yup.kind_of s) VUndefined = false ->
  Yup.rejects s path VUndefined.
Proof.
  intros Hin Hfail. eexists. split; [apply validateStrict_undefined |].
  now apply ownErrors_failing with (t := t).
Qed.

Lemma rejects_null s path t :
  In t (Yup.tests_of s) -> Yup.t_ok t (Yup.kind_of s) VNull = false ->
  Yup.rejects s path VNull.
Proof.
  intros Hin Hfail. eexists. split; [apply validateStrict_null |].
  now apply ownErrors_failing with (t := t).
Qed.

(** [null] is not of the type of a node that is not nullable, unless the
    node is of the mixed kind. *)
Lemma rejects_null_by_type s path :
  Yup.nullable_of s = false ->
  Yup.typeCheck (Yup.kind_of s) VNull = false ->
  Yup.rejects s path VNull.
Proof.
  intros Hn Hk. eexists. split; [apply validateStrict_null |].
  destruct s as [sp i fs]. unfold Yup.nullable_of, Yup.kind_of in *. simpl in *.
  unfold Yup.ownErrors, Yup.isType. rewrite Hn, Hk. simpl.
  destruct (Yup.s_whitelist sp); discriminate.
Qed.

Lemma validateStrict_same_own sp sp' inner fields path v :
  Yup.s_kind sp' = Yup.s_kind sp ->
  Yup.ownErrors sp' path v = Yup.ownErrors sp path v ->
  Yup.validateStrict (Yup.Schema sp' inner fields) path v
  = Yup.validateStrict (Yup.Schema sp inner fields) path v.
Proof.
  intros Hkind Hown. simpl. rewrite Hkind, Hown. reflexivity.
Qed.

Lemma filter_other_names (name : string) (b : Yup.test -> bool) tests :
  existsb (fun t => String.eqb (Yup.t_name t) name) tests = false ->
  filter (fun old => negb (String.eqb (Yup.t_name old) name && b old)) tests
  = tests.
Proof.
  induction tests as [| t tests IH]; simpl; intros H; [reflexivity |].
  apply orb_false_iff in H. destruct H as [Ht H].
  rewrite Ht. simpl. rewrite IH by exact H. reflexivity.
Qed.



(** ** C2 *)


(* ================================================================== *)
(** * Sequences: repeatable components and dynamic zones *)
(* ================================================================== *)

(** [addMinMax] adds tests named [min] and [max] and touches nothing else. *)
Lemma addMinMax_rest attr validator data :
  Yup.nullable_of (addMinMax attr validator data) = Yup.nullable_of validator
  /\ Yup.kind_of (addMinMax attr validator data) = Yup.kind_of validator
  /\ Yup.inner_of (addMinMax attr validator data) = Yup.inner_of validator
  /\ (forall t, In t (Yup.tests_of validator) ->
                Yup.t_name t = "defined" ->
                In t (Yup.tests_of (addMinMax attr validator data))).
Proof.
  unfold addMinMax.
  set (s := match Js.isInteger (a_min attr) with
            | Some n =>
                if Js.truthy (a_required attr) || Js.nonEmptyArray data
                then Yup.min n validator else validator
            | None => validator
            end).
  assert (Hs : Yup.nullable_of s = Yup.nullable_of validator
               /\ Yup.kind_of s = Yup.kind_of validator
               /\ Yup.inner_of s = Yup.inner_of validator
               /\ (forall t, In t (Yup.tests_of validator) ->
                             Yup.t_name t = "defined" -> In t (Yup.tests_of s))).
  { subst s. destruct (Js.isInteger (a_min attr)); [| tauto].
    destruct (_ || _); [| tauto]. unfold Yup.min.
    rewrite nullable_addTest, kind_addTest, inner_addTest.
    repeat split. intros t Hin Hname.
    apply in_addTest_other; [now rewrite Hname | exact Hin]. }
  destruct Hs as (Hn & Hk & Hi & Ht).
  destruct (Js.isInteger (a_max attr)); [| tauto]. unfold Yup.max.
  rewrite nullable_addTest, kind_addTest, inner_addTest.
  repeat split; try assumption. intros t Hin Hname.
  apply in_addTest_other; [now rewrite Hname | now apply Ht].
Qed.

Section Sequences.

Variable js : Js.runtime.
Variable strapi : environment.

(** The outer node of a sequence before [addMinMax]: an array node, not
    nullable, with the test of the required modifier. *)
Lemma sequence_required createOrUpdate i :
  let v := addRequiredValidation createOrUpdate true
             (Yup.arrayOf i (Yup.array js)) in
  Yup.kind_of v = Yup.KArray
  /\ Yup.nullable_of v = false
  /\ Yup.inner_of v = Some i
  /\ In (match createOrUpdate with creation => notNilTest | update => notNullTest end)
        (Yup.tests_of v).
Proof.
  destruct createOrUpdate; simpl; repeat split; now left.
Qed.

(** The same node after [addMinMax], [preventCast] and [addDefault]. *)
Lemma sequence_finished createOrUpdate attr data i :
  let v := addDefault createOrUpdate attr
             (preventCast
                (addMinMax attr
                   (addRequiredValidation createOrUpdate true
                      (Yup.arrayOf i (Yup.array js))) data)) in
  Yup.kind_of v = Yup.KArray
  /\ Yup.nullable_of v = false
  /\ Yup.inner_of v = Some i
  /\ In (match createOrUpdate with creation => notNilTest | update => notNullTest end)
        (Yup.tests_of v)
  /\ forall path, Yup.rejects v path VNull.
Proof.
  intros v.
  destruct (sequence_required createOrUpdate i) as (Hk & Hn & Hi & Ht).
  destruct (addMinMax_rest attr
              (addRequiredValidation createOrUpdate true
                 (Yup.arrayOf i (Yup.array js))) data) as (Hn' & Hk' & Hi' & Ht').
  destruct (preventCast_rest
              (addMinMax attr
                 (addRequiredValidation createOrUpdate true
                    (Yup.arrayOf i (Yup.array js))) data))
    as (Pt & Pn & Pk & Pi & _).
  destruct (addDefault_rest createOrUpdate attr
              (preventCast
                 (addMinMax attr
                    (addRequiredValidation createOrUpdate true
                       (Yup.arrayOf i (Yup.array js))) data)))
    as (Dt & Dn & Dk & Di & _).
  assert (Hin : In (match createOrUpdate with
                    | creation => notNilTest | update => notNullTest end)
                   (Yup.tests_of v)).
  { subst v. rewrite Dt, Pt. apply Ht'; [exact Ht |]. now destruct createOrUpdate. }
  subst v. repeat split.
  - now rewrite Dk, Pk, Hk'.
  - now rewrite Dn, Pn, Hn'.
  - now rewrite Di, Pi, Hi'.
  - exact Hin.
  - intros path. apply rejects_null_by_type.
    + now rewrite Dn, Pn, Hn'.
    + now rewrite Dk, Pk, Hk', Hk.
Qed.

(** ** C6 *)

(** C6.  The validator of a repeatable component (whose schema resolves)
    and of a dynamic zone, in both modes, draft or not, required or not:
    an array node that is not nullable and carries the test of the
    required modifier, so that [null] is rejected; its element type is
    built on each element; an element of a repeatable component carries
    the not-null test and rejects [null]. *)
Theorem sequence_container_not_nullable recur createOrUpdate attr data isDraft :
  isMedia attr = false ->
  (forall m,
      Js.is_string (a_type attr) "component" = true ->
      Js.is_true (a_repeatable attr) = true ->
      firstModel strapi attr = Some m ->
      exists v,
        createAttributeValidator js strapi recur createOrUpdate attr data isDraft = Ok v
        /\ Yup.kind_of v = Yup.KArray
        /\ Yup.nullable_of v = false
        /\ In (match createOrUpdate with
               | creation => notNilTest | update => notNullTest end)
              (Yup.tests_of v)
        /\ (forall path, Yup.rejects v path VNull)
        /\ Yup.inner_of v =
           Some (Yup.OfLazy (componentItem recur createOrUpdate m isDraft))
        /\ forall item s,
            componentItem recur createOrUpdate m isDraft item = Ok s ->
            In notNullTest (Yup.tests_of s)
            /\ forall path, Yup.rejects s path VNull)
  /\ (Js.is_string (a_type attr) "dynamiczone" = true ->
      exists v,
        createAttributeValidator js strapi recur createOrUpdate attr data isDraft = Ok v
        /\ Yup.kind_of v = Yup.KArray
        /\ Yup.nullable_of v = false
        /\ In (match createOrUpdate with
               | creation => notNilTest | update => notNullTest end)
              (Yup.tests_of v)
        /\ (forall path, Yup.rejects v path VNull)
        /\ Yup.inner_of v =
           Some (Yup.OfLazy (dzItem js strapi recur createOrUpdate isDraft))).
Proof.
  intros Hmedia. split.
  - intros m Htype Hrep Hm.
    assert (Hsimple : isSimpleAttribute attr = false).
    { unfold isSimpleAttribute. rewrite Htype. simpl.
      now rewrite andb_false_r. }
    unfold createAttributeValidator, createComponentValidator.
    rewrite Hmedia, Hsimple, Htype, Hm, Hrep. simpl.
    eexists. split; [reflexivity |].
    destruct (sequence_finished createOrUpdate attr data
                (Yup.OfLazy (componentItem recur createOrUpdate m isDraft)))
      as (Hk & Hn & Hi & Ht & Hr).
    repeat split; try assumption.
    + unfold componentItem in H. apply bind_Ok in H.
      destruct H as (x & _ & H). inversion H. apply in_addTest.
    + intros path. unfold componentItem in H. apply bind_Ok in H.
      destruct H as (x & _ & H). inversion H.
      apply rejects_null with (t := notNullTest); [apply in_addTest | reflexivity].
  - intros Htype.
    assert (Hsimple : isSimpleAttribute attr = false).
    { unfold isSimpleAttribute. rewrite Htype. now rewrite !andb_false_r. }
    assert (Hcomp : Js.is_string (a_type attr) "component" = false).
    { destruct (a_type attr); try reflexivity. simpl in *.
      apply String.eqb_eq in Htype. now subst. }
    unfold createAttributeValidator, createDzValidator.
    rewrite Hmedia, Hsimple, Hcomp, Htype. simpl.
    eexists. split; [reflexivity |].
    destruct (sequence_finished createOrUpdate attr data
                (Yup.OfLazy (dzItem js strapi recur createOrUpdate isDraft)))
      as (Hk & Hn & Hi & Ht & Hr).
    repeat split; assumption.
Qed.

End Sequences.

(* ================================================================== *)
(** * Media *)
(* ================================================================== *)

(** A node without tests and without [oneOf], of the mixed kind, reports
    nothing on any value. *)
Lemma mixed_accepts sp i fs path x :
  Yup.s_kind sp = Yup.KMixed -> Yup.s_tests sp = [] -> Yup.s_whitelist sp = None ->
  Yup.validateStrict (Yup.Schema sp i fs) path x = Ok [].
Proof.
  intros Hk Ht Hw. simpl. rewrite Hk.
  unfold Yup.ownErrors, Yup.isType. rewrite Hk, Ht, Hw. simpl.
  rewrite orb_true_r. simpl. now rewrite andb_false_r.
Qed.

(** Media: the first truthy of [collection] and [model] is ['file'], and
    [plugin] is ['upload']. *)
Lemma isMedia_iff attr :
  isMedia attr = true <->
  (a_collection attr = VString "file"
   \/ (Js.truthy (a_collection attr) = false /\ a_model attr = VString "file"))
  /\ a_plugin attr = VString "upload".
Proof.
  assert (Hstr : forall v s, Js.is_string v s = true <-> v = VString s).
  { intros v s. destruct v; simpl; split; intros H; try discriminate.
    - apply String.eqb_eq in H. now subst.
    - inversion H. apply String.eqb_refl. }
  unfold isMedia, Js.or. rewrite andb_true_iff, !Hstr.
  destruct (Js.truthy (a_collection attr)) eqn:E; split.
  - intros [H1 H2]. split; [now left | exact H2].
  - intros [[H | [H _]] H2]; [now split | discriminate].
  - intros [H1 H2]. split; [right; now split | exact H2].
  - intros [[H | [_ H]] H2]; [| now split].
    rewrite H in E. discriminate.
Qed.

(** ** C10 *)

(** C10.  A media attribute gets the mixed node with the default put on it
    and nothing else: no test (so no required modifier and no bound), not
    nullable, no transform (no cast prevention), no children; it reports no
    error on any value, a missing one included, whatever [required] says. *)
Theorem media_unconstrained js strapi recur createOrUpdate attr data isDraft :
  isMedia attr = true ->
  let v := addDefault createOrUpdate attr Yup.mixed in
  createAttributeValidator js strapi recur createOrUpdate attr data isDraft = Ok v
  /\ Yup.kind_of v = Yup.KMixed
  /\ Yup.tests_of v = []
  /\ Yup.nullable_of v = false
  /\ Yup.transforms_of v = []
  /\ Yup.whitelist_of v = None
  /\ Yup.inner_of v = None
  /\ Yup.fields_of v = []
  /\ (forall path x, Yup.validateStrict v path x = Ok [])
  /\ (forall path x, Yup.cast v VUndefined = Ok x -> Yup.validateStrict v path x = Ok []).
Proof.
  intros Hmedia v.
  destruct (addDefault_rest createOrUpdate attr Yup.mixed)
    as (Dt & Dn & Dk & Di & Df & Dtr & Dw).
  assert (Hall : forall path x, Yup.validateStrict v path x = Ok []).
  { intros path x. subst v.
    destruct (addDefault createOrUpdate attr Yup.mixed) as [sp i fs] eqn:E.
    apply mixed_accepts; [exact Dk | exact Dt | exact Dw]. }
  split.
  - unfold createAttributeValidator. now rewrite Hmedia.
  - repeat split; try assumption. intros path x _. apply Hall.
Qed.

(* ================================================================== *)
(** * Error paths *)
(* ================================================================== *)

Lemma Ok_inj {A : Type} (a b : A) : Ok a = Ok b -> a = b.
Proof. intros H. now inversion H. Qed.

Lemma Throw_not_Ok {A : Type} (e : thrown) (a : A) : Throw e = Ok a -> False.
Proof. discriminate. Qed.

(** Induction over a schema tree: through the fields, through a plain
    element type, and through whatever a lazy element type builds. *)
Lemma schema_tree_ind (P : Yup.schema -> Prop) :
  (forall sp inner fields,
      match inner with
      | None => True
      | Some (Yup.Of s) => P s
      | Some (Yup.OfLazy builder) => forall item s, builder item = Ok s -> P s
      end ->
      Forall (fun kf => P (snd kf)) fields ->
      P (Yup.Schema sp inner fields)) ->
  forall s, P s.
Proof.
  intros H.
  refine (fix F (s : Yup.schema) : P s :=
            match s with
            | Yup.Schema sp inner fields =>
                H sp inner fields
                  (match inner with
                   | None => I
                   | Some (Yup.Of s') => F s'
                   | Some (Yup.OfLazy builder) =>
                       fun item s' =>
                         match builder item as r return r = Ok s' -> P s' with
                         | Ok s'' =>
                             fun E =>
                               match Ok_inj E in _ = y return P y with
                               | eq_refl => F s''
                               end
                         | Throw e => fun E => False_ind _ (Throw_not_Ok E)
                         end
                   end)
                  ((fix G (l : list (string * Yup.schema))
                     : Forall (fun kf => P (snd kf)) l :=
                      match l with
                      | [] => Forall_nil _
                      | kf :: rest => Forall_cons kf (F (snd kf)) (G rest)
                      end) fields)
            end).
Qed.

Lemma ownErrors_path sp path v e :
  In e (Yup.ownErrors sp path v) -> e_path e = path.
Proof.
  unfold Yup.ownErrors.
  assert (Htests :
            In e (map (fun t => Yup.err path (Yup.t_name t))
                      (filter (fun t => negb (Yup.t_ok t (Yup.s_kind sp) v))
                              (Yup.s_tests sp))) ->
            e_path e = path).
  { intros H. apply in_map_iff in H. destruct H as (t & <- & _). reflexivity. }
  destruct (negb (Js.isUndefined v)
            && negb (Yup.isType (Yup.s_kind sp) (Yup.s_nullable sp) v));
    destruct (Yup.s_whitelist sp) as [vs |];
    try destruct (negb (Js.isUndefined v) && negb (existsb (Js.strictEq v) vs));
    simpl; try exact Htests;
    intros H; repeat (destruct H as [<- | H]; [reflexivity |]); contradiction.
Qed.

(** Errors of a subtree lie under the path of its root. *)
Lemma validateStrict_prefix s :
  forall path v errors,
    Yup.validateStrict s path v = Ok errors ->
    forall e, In e errors -> exists rest, e_path e = path ++ rest.
Proof.
  induction s as [sp inner fields IHi IHf] using schema_tree_ind.
  intros path v errors H e He. simpl in H.
  assert (Hown : In e (Yup.ownErrors sp path v) -> exists rest, e_path e = path ++ rest).
  { intros Hin. exists []. rewrite app_nil_r. now apply ownErrors_path in Hin. }
  assert (Hnest : forall (A : Type) (l : list A) (g : A -> result (list verror)) nested,
             mapM g l = Ok nested ->
             (forall a errs x, In a l -> g a = Ok errs -> In x errs ->
                               exists rest, e_path x = path ++ rest) ->
             In e (List.concat nested) -> exists rest, e_path e = path ++ rest).
  { intros A l g nested Hm Hg Hin.
    apply in_concat in Hin. destruct Hin as (errs & Herrs & Hin).
    apply mapM_Forall2 in Hm.
    destruct (@Forall2_In_r _ _ _ _ _ _ Hm Herrs) as (a & Ha & Hga).
    eapply Hg; eauto. }
  destruct (Yup.s_kind sp).
  - inversion H; subst. auto.
  - inversion H; subst. auto.
  - destruct v; try (inversion H; subst; now auto).
    destruct inner as [[i | builder] |]; try (inversion H; subst; now auto).
    + apply bind_Ok in H. destruct H as (nested & Hm & H). inversion H; subst.
      apply in_app_or in He. destruct He as [He | He]; [| now auto].
      eapply Hnest; [exact Hm | | exact He].
      intros [n item] errs x _ Hg Hx.
      destruct (IHi _ _ _ Hg _ Hx) as (rest & ->).
      exists ([Idx n] ++ rest). now rewrite app_assoc.
    + apply bind_Ok in H. destruct H as (nested & Hm & H). inversion H; subst.
      apply in_app_or in He. destruct He as [He | He]; [| now auto].
      eapply Hnest; [exact Hm | | exact He].
      intros [n item] errs x _ Hg Hx.
      apply bind_Ok in Hg. destruct Hg as (i & Hi & Hg).
      destruct (IHi _ _ Hi _ _ _ Hg _ Hx) as (rest & ->).
      exists ([Idx n] ++ rest). now rewrite app_assoc.
  - destruct (Js.isObject v); [| inversion H; subst; now auto].
    apply bind_Ok in H. destruct H as (nested & Hm & H). inversion H; subst.
    apply in_app_or in He. destruct He as [He | He]; [| now auto].
    eapply Hnest; [exact Hm | | exact He].
    intros [k f] errs x Hin Hg Hx.
    rewrite Forall_forall in IHf. specialize (IHf _ Hin). simpl in IHf.
    destruct (IHf _ _ _ Hg _ Hx) as (rest & ->).
    exists ([Key k] ++ rest). now rewrite app_assoc.
  - inversion H; subst. auto.
Qed.

(** Below an object node, an error path continues with the name of one of
    its fields. *)
Lemma validateStrict_field_paths s path v errors e name rest :
  Yup.validateStrict s path v = Ok errors ->
  In e errors -> e_path e = path ++ Key name :: rest ->
  In name (map fst (Yup.fields_of s)).
Proof.
  destruct s as [sp inner fields]. simpl. intros H He Hpath.
  assert (Hown : ~ In e (Yup.ownErrors sp path v)).
  { intros Hin. apply ownErrors_path in Hin. rewrite Hin in Hpath.
    rewrite <- (app_nil_r path) in Hpath at 1.
    apply app_inv_head in Hpath. discriminate. }
  assert (Hidx : forall (A : Type) (l : list (nat * A)) g nested,
             mapM g l = Ok nested ->
             (forall n a errs x, g (n, a) = Ok errs -> In x errs ->
                                 exists r, e_path x = (path ++ [Idx n]) ++ r) ->
             ~ In e (List.concat nested)).
  { intros A l g nested Hm Hg Hin.
    apply in_concat in Hin. destruct Hin as (errs & Herrs & Hin).
    apply mapM_Forall2 in Hm.
    destruct (@Forall2_In_r _ _ _ _ _ _ Hm Herrs) as ([n a] & Ha & Hga).
    destruct (Hg _ _ _ _ Hga Hin) as (r & Hr).
    rewrite Hr, <- app_assoc in Hpath. apply app_inv_head in Hpath. discriminate. }
  destruct (Yup.s_kind sp).
  - inversion H; subst. contradiction.
  - inversion H; subst. contradiction.
  - destruct v; try (inversion H; subst; contradiction).
    destruct inner as [[i | builder] |]; try (inversion H; subst; contradiction).
    + apply bind_Ok in H. destruct H as (nested & Hm & H). inversion H; subst.
      apply in_app_or in He. destruct He as [He | He]; [| contradiction].
      exfalso. eapply Hidx; [exact Hm | | exact He].
      intros n a errs x Hg Hx. simpl in Hg.
      eapply validateStrict_prefix; [exact Hg | exact Hx].
    + apply bind_Ok in H. destruct H as (nested & Hm & H). inversion H; subst.
      apply in_app_or in He. destruct He as [He | He]; [| contradiction].
      exfalso. eapply Hidx; [exact Hm | | exact He].
      intros n a errs x Hg Hx. simpl in Hg.
      apply bind_Ok in Hg. destruct Hg as (i & Hi & Hg).
      eapply validateStrict_prefix; [exact Hg | exact Hx].
  - destruct (Js.isObject v); [| inversion H; subst; contradiction].
    apply bind_Ok in H. destruct H as (nested & Hm & H). inversion H; subst.
    apply in_app_or in He. destruct He as [He | He]; [| contradiction].
    apply in_concat in He. destruct He as (errs & Herrs & Hin).
    apply mapM_Forall2 in Hm.
    destruct (@Forall2_In_r _ _ _ _ _ _ Hm Herrs) as ([k f] & Hkf & Hg).
    destruct (validateStrict_prefix _ _ _ Hg _ Hin) as (r & Hr).
    rewrite Hr, <- app_assoc in Hpath. apply app_inv_head in Hpath.
    inversion Hpath; subst. apply in_map_iff. now exists (name, f).
  - inversion H; subst. contradiction.
Qed.

(* ================================================================== *)
(** * Non-writable attributes *)
(* ================================================================== *)

Section NonWritable.

Variable js : Js.runtime.
Variable strapi : environment.

Lemma writable_not_nonWritable m name :
  In name (nonWritableOf strapi m) ->
  ~ In name (map fst (writableAttributes strapi m)).
Proof.
  intros Hnw Hin. apply in_map_iff in Hin. destruct Hin as ([n a] & Hn & Hin).
  simpl in Hn. subst n. unfold writableAttributes in Hin.
  apply filter_In in Hin. destruct Hin as [_ Hkeep].
  apply negb_true_iff in Hkeep.
  apply mem_In in Hnw. congruence.
Qed.

Lemma Forall2_names {A B : Type} (R : string * A -> string * B -> Prop) l l' :
  Forall2 (fun a b => fst a = fst b /\ R a b) l l' -> map fst l' = map fst l.
Proof.
  induction 1 as [| a b l l' [Hab _] _ IH]; simpl; [reflexivity |].
  now rewrite IH, Hab.
Qed.

(** ** C7 *)

(** C7.  The model validator has one child per writable attribute and no
    other: no child for a non-writable attribute, whatever its category.
    So no error that the validator, or a node with the same children,
    reports under its path continues with the name of a non-writable
    attribute.  Without a schema there is no non-writable attribute and no
    child. *)
Theorem nonwritable_excluded depth createOrUpdate m data isDraft v :
  createModelValidator js strapi depth createOrUpdate m data isDraft = Ok v ->
  map fst (Yup.fields_of v) = map fst (writableAttributes strapi m)
  /\ (forall name,
         In name (nonWritableOf strapi m) ->
         Js.lookup name (Yup.fields_of v) = None)
  /\ (forall s path c errors e name rest,
         Yup.fields_of s = Yup.fields_of v ->
         Yup.validateStrict s path c = Ok errors ->
         In e errors ->
         e_path e = path ++ Key name :: rest ->
         ~ In name (nonWritableOf strapi m))
  /\ (m = None -> nonWritableOf strapi m = [] /\ Yup.fields_of v = []).
Proof.
  intros H. apply createModelValidator_Ok in H.
  destruct H as (depth' & fields & -> & Hfields & ->).
  assert (Hnames : map fst (Yup.fields_of (Yup.shape fields (Yup.object js)))
                   = map fst (writableAttributes strapi m)).
  { simpl. eapply Forall2_names. exact Hfields. }
  split; [exact Hnames |]. split; [| split].
  - intros name Hnw. apply lookup_None_keys. rewrite Hnames.
    now apply writable_not_nonWritable.
  - intros s path c errors e name rest Hs Hv He Hpath Hnw.
    apply (@writable_not_nonWritable m name Hnw). rewrite <- Hnames, <- Hs.
    eapply validateStrict_field_paths; eauto.
  - intros ->. split; [reflexivity |].
    simpl in *. unfold writableAttributes in Hfields. simpl in Hfields.
    now inversion Hfields.
Qed.

End NonWritable.

(* ================================================================== *)
(** * The properties at concrete schemas *)
(* ================================================================== *)

(** In update mode the declared default ["x"] of [name] is not put into
    the empty record. *)
Lemma default_injection_witness :
  validateEntityUpdate Examples.js Examples.strapi 2 (Some Examples.named)
    (VObject []) false = Ok (VObject [])
  /\ exists ps, VObject [] = VObject ps /\ Js.lookup "name" ps = None.
Proof.
  split; [reflexivity |].
  apply (proj2 (proj2 (default_injection Examples.js Examples.strapi))
               2%nat (Some Examples.named) [] false (VObject []) "name");
    reflexivity.
Defined.


(** [min: 1] on an optional sequence: set on one element, not on none. *)
Lemma addMinMax_bounds_witness :
  let v := addRequiredValidation creation true
             (Yup.arrayOf (Yup.Of Yup.mixed) (Yup.array Examples.js)) in
  Yup.hasTest "min" v = false
  /\ Yup.hasTest "max" v = false
  /\ In (Yup.minTest 1)
        (Yup.tests_of (addMinMax Examples.tagsAttr v (VArray [VObject []])))
  /\ ~ In (Yup.minTest 1)
         (Yup.tests_of (addMinMax Examples.tagsAttr v (VArray []))).
Proof.
  intros v. split; [reflexivity |]. split; [reflexivity |]. split.
  - apply (proj1 (addMinMax_bounds Examples.tagsAttr v (VArray [VObject []])
                    eq_refl eq_refl) 1%Z).
    split; [reflexivity | right; reflexivity].
  - intros H.
    apply (proj1 (addMinMax_bounds Examples.tagsAttr v (VArray [])
                    eq_refl eq_refl) 1%Z) in H.
    destruct H as [_ [H | H]]; discriminate H.
Defined.

(** The optional repeatable component [tags]. *)
Lemma sequence_container_not_nullable_witness :
  isMedia Examples.tagsAttr = false
  /\ exists v,
      createAttributeValidator Examples.js Examples.strapi
        (createModelValidator Examples.js Examples.strapi 1)
        update Examples.tagsAttr (VArray []) true = Ok v
      /\ Yup.nullable_of v = false
      /\ In notNullTest (Yup.tests_of v).
Proof.
  split; [reflexivity |].
  destruct (proj1 (sequence_container_not_nullable Examples.js Examples.strapi
                     (createModelValidator Examples.js Examples.strapi 1)
                     update Examples.tagsAttr (VArray []) true eq_refl)
                  Examples.tagModel eq_refl eq_refl eq_refl)
    as (v & Hv & _ & Hn & Ht & _).
  exists v. auto.
Defined.

(** [id] is non-writable in [article]. *)
Lemma nonwritable_excluded_witness :
  exists v,
    createModelValidator Examples.js Examples.strapi 1 creation
      (Some Examples.article) (VObject []) false = Ok v
    /\ map fst (Yup.fields_of v) = ["title"; "slug"; "body"]
    /\ Js.lookup "id" (Yup.fields_of v) = None.
Proof.
  eexists. split; [reflexivity |].
  split.
  - apply (proj1 (nonwritable_excluded Examples.js Examples.strapi 1 creation
                    (Some Examples.article) (VObject []) false eq_refl)).
  - apply (proj1 (proj2 (nonwritable_excluded Examples.js Examples.strapi 1 creation
                           (Some Examples.article) (VObject []) false eq_refl))).
    simpl. now left.
Defined.

(** The required media attribute [cover], missing from the record. *)
Lemma media_unconstrained_witness :
  isMedia Examples.coverAttr = true
  /\ Js.truthy (a_required Examples.coverAttr) = true
  /\ Yup.validateStrict (addDefault creation Examples.coverAttr Yup.mixed)
       [Key "cover"] VUndefined = Ok [].
Proof.
  split; [reflexivity |]. split; [reflexivity |].
  destruct (media_unconstrained Examples.js Examples.strapi
              (createModelValidator Examples.js Examples.strapi 1)
              creation Examples.coverAttr VUndefined false eq_refl)
    as (_ & _ & _ & _ & _ & _ & _ & _ & Hall & _).
  apply Hall.
Defined.

(* ================================================================== *)
(** * The entry point: one aggregate of all errors *)
(* ================================================================== *)

Section Aggregation.

Variable js : Js.runtime.
Variable strapi : environment.

(** The errors of the top-level node on an object: those of its fields,
    one list after the other. *)
Lemma record_errors fields path props errors :
  Yup.validateStrict (Yup.required (Yup.shape fields (Yup.object js)))
                     path (VObject props) = Ok errors ->
  exists perField,
    Forall2 (fun (kf : string * Yup.schema) errs =>
               Yup.validateStrict (snd kf) (path ++ [Key (fst kf)])
                                  (Js.get (VObject props) (fst kf)) = Ok errs)
            fields perField
    /\ errors = List.concat perField.
Proof.
  simpl. intros H. apply bind_Ok in H. destruct H as (nested & Hm & H).
  inversion H; subst. exists nested. split.
  - apply mapM_Forall2 in Hm. eapply Forall2_impl; [| exact Hm].
    intros [k f] errs Hf. exact Hf.
  - unfold Yup.ownErrors. simpl. now rewrite app_nil_r.
Qed.

(** ** C3 *)

(** C3.  What the presence test of the top-level node sees of a missing
    record.  [required] is put on the model validator, and validation runs
    on the cast record.  A schema without writable attributes: the missing
    record stays missing, and the [try] block throws one validation error,
    [required] at the root.  A schema with writable attributes: the missing
    record is cast to the object of the defaults of its fields before any
    test runs, so no error is reported at the root, whatever the fields
    report, and when the fields report nothing the call returns that
    object: the missing record is not rejected. *)
Theorem absent_record_accepted depth createOrUpdate m isDraft v :
  createModelValidator js strapi depth createOrUpdate m VUndefined isDraft = Ok v ->
  (Yup.fields_of v = [] ->
   tryValidate js strapi depth createOrUpdate m VUndefined isDraft
   = Throw (ValidationError [Yup.err [] "required"]))
  /\ (Yup.fields_of v <> [] ->
      let c := VObject (map (fun '(k, f) => (k, Yup.getDefault f)) (Yup.fields_of v)) in
      Yup.cast (Yup.required v) VUndefined = Ok c
      /\ forall errors,
          Yup.validateStrict (Yup.required v) [] c = Ok errors ->
          (forall e, In e errors -> e_path e <> [])
          /\ (errors = [] ->
              createValidateEntity js strapi depth createOrUpdate m VUndefined isDraft
              = Ok c)).
Proof.
  intros Hbuild.
  pose proof (createModelValidator_Ok _ _ _ _ _ _ _ Hbuild) as Hshape.
  destruct Hshape as (depth' & fields & -> & _ & ->).
  simpl Yup.fields_of. split.
  - intros ->. unfold tryValidate. rewrite Hbuild. reflexivity.
  - intros Hfields.
    assert (Hcast : Yup.cast (Yup.required (Yup.shape fields (Yup.object js))) VUndefined
                    = Ok (VObject (map (fun '(k, f) => (k, Yup.getDefault f)) fields))).
    { destruct fields as [| kf fields]; [congruence | reflexivity]. }
    split; [exact Hcast |].
    intros errors Hval. split.
    + intros e He Hpath.
      apply record_errors in Hval. destruct Hval as (perField & Hper & ->).
      apply in_concat in He. destruct He as (errs & Herrs & He).
      destruct (@Forall2_In_r _ _ _ _ _ errs Hper Herrs) as ([k f] & _ & Hf).
      destruct (@validateStrict_prefix _ _ _ _ Hf e He) as (rest & Hrest).
      rewrite Hpath in Hrest. discriminate.
    + intros ->. unfold createValidateEntity, tryValidate. rewrite Hbuild.
      cbn [bind]. unfold Yup.validate. rewrite Hcast. cbn [bind].
      rewrite Hval. reflexivity.
Qed.

(** X17.  Validation collects.  On an object record the errors are those
    of all the fields of the model validator, each field validated on its
    own property, and nothing else: three fields with one error each give
    three errors.  No error: the cast record is returned.  Any error: the
    [try] block throws one validation error that carries all of them, and
    the caller gets what the [catch] block makes of it, which is one bad
    request named [ValidationError] with the formatted errors whenever the
    formatter returns.  The list of errors is taken up to the order of its
    entries. *)
Theorem error_aggregation depth createOrUpdate m data isDraft v c errors :
  createModelValidator js strapi depth createOrUpdate m data isDraft = Ok v ->
  Yup.cast (Yup.required v) data = Ok c ->
  Yup.validateStrict (Yup.required v) [] c = Ok errors ->
  (forall props,
      c = VObject props ->
      exists perField,
        Forall2 (fun (kf : string * Yup.schema) errs =>
                   Yup.validateStrict (snd kf) [Key (fst kf)]
                                      (Js.get c (fst kf)) = Ok errs)
                (Yup.fields_of v) perField
        /\ Permutation errors (List.concat perField)
        /\ forall e1 e2 e3,
            perField = [[e1]; [e2]; [e3]] ->
            Permutation errors [e1; e2; e3] /\ List.length errors = 3%nat)
  /\ (errors = [] ->
      createValidateEntity js strapi depth createOrUpdate m data isDraft = Ok c)
  /\ (errors <> [] ->
      exists reported,
        Permutation reported errors
        /\ tryValidate js strapi depth createOrUpdate m data isDraft
           = Throw (ValidationError reported)
        /\ createValidateEntity js strapi depth createOrUpdate m data isDraft
           = rethrow strapi (ValidationError reported)
        /\ forall payload,
            formatYupErrors strapi (ValidationError reported) = Ok payload ->
            createValidateEntity js strapi depth createOrUpdate m data isDraft
            = Throw (BadRequest "ValidationError" (VObject [("errors", payload)]))).
Proof.
  intros Hbuild Hcast Hval.
  assert (Htry : tryValidate js strapi depth createOrUpdate m data isDraft
                 = match errors with
                   | [] => Ok c
                   | _ :: _ => Throw (ValidationError errors)
                   end).
  { unfold tryValidate. rewrite Hbuild. simpl.
    unfold Yup.validate. rewrite Hcast. simpl. rewrite Hval. simpl.
    destruct errors; reflexivity. }
  pose proof (createModelValidator_Ok _ _ _ _ _ _ _ Hbuild) as Hshape.
  destruct Hshape as (depth' & fields & -> & Hfields & ->).
  split; [| split].
  - intros props ->. apply record_errors in Hval.
    destruct Hval as (perField & Hper & ->).
    exists perField. split; [exact Hper |]. split; [apply Permutation_refl |].
    intros e1 e2 e3 ->. split; [apply Permutation_refl | reflexivity].
  - intros ->. unfold createValidateEntity. now rewrite Htry.
  - intros Hne. destruct errors as [| e errors]; [congruence |].
    exists (e :: errors). split; [apply Permutation_refl |].
    split; [exact Htry |].
    assert (Hcall : createValidateEntity js strapi (S depth') createOrUpdate m data isDraft
                    = rethrow strapi (ValidationError (e :: errors))).
    { unfold createValidateEntity. now rewrite Htry. }
    split; [exact Hcall |].
    intros payload Hp. rewrite Hcall. unfold rethrow. now rewrite Hp.
Qed.

End Aggregation.

(** A missing record in creation mode, for the schema [named] with the
    one attribute [name] of default ['x']: the record of the defaults is
    returned. *)
Lemma absent_record_accepted_witness :
  validateEntityCreation Examples.js Examples.strapi 1
    (Some Examples.named) VUndefined false
  = Ok (VObject [("name", VString "x")]).
Proof.
  destruct (proj2 (@absent_record_accepted Examples.js Examples.strapi 1 creation
                     (Some Examples.named) false _ eq_refl))
    as (_ & Hval); [discriminate |].
  apply (proj2 (Hval [] eq_refl)). reflexivity.
Defined.

(** The same call, and an update of [article] with a missing record: both
    return, neither reports [required] at the root. *)
Lemma absent_record_counterexample :
  validateEntityCreation Examples.js Examples.strapi 1
    (Some Examples.named) VUndefined false
  = Ok (VObject [("name", VString "x")])
  /\ exists out,
      validateEntityUpdate Examples.js Examples.strapi 1
        (Some Examples.article) VUndefined false = Ok out
      /\ ~ reportsError
            (validateEntityUpdate Examples.js Examples.strapi 1
               (Some Examples.article) VUndefined false)
            [] "required".
Proof.
  split; [reflexivity |]. eexists. split; [reflexivity |].
  intros (errors & H & _). discriminate.
Qed.

(** Three required fields of [article] are missing: three errors, and one
    bad request that carries the three. *)
Lemma error_aggregation_witness :
  let errors := [Yup.err [Key "title"] "defined";
                 Yup.err [Key "slug"] "defined";
                 Yup.err [Key "body"] "defined"] in
  exists reported,
    Permutation reported errors
    /\ validateEntityCreation Examples.js Examples.strapi 1
         (Some Examples.article) (VObject []) false
       = rethrow Examples.strapi (ValidationError reported).
Proof.
  intros errors.
  destruct (proj2 (proj2
              (@error_aggregation Examples.js Examples.strapi 1 creation
                 (Some Examples.article) (VObject []) false _ _ errors
                 eq_refl eq_refl eq_refl)))
    as (reported & Hperm & _ & Hcall & _); [discriminate |].
  exists reported. split; [exact Hperm | exact Hcall].
Defined.

(* ================================================================== *)
(** * Failures of the build *)
(* ================================================================== *)

Section BuildFailures.

Variable js : Js.runtime.
Variable strapi : environment.

Lemma createComponentValidator_unresolved recur createOrUpdate attr data isDraft :
  firstModel strapi attr = None ->
  createComponentValidator js strapi recur createOrUpdate attr data isDraft
  = Throw (Error "Validation failed: Model not found").
Proof. unfold createComponentValidator. now intros ->. Qed.

Lemma createAttributeValidator_Throw recur createOrUpdate attr data isDraft e :
  (forall createOrUpdate' m' data' isDraft' e',
      recur createOrUpdate' m' data' isDraft' = Throw e' -> buildError e') ->
  createAttributeValidator js strapi recur createOrUpdate attr data isDraft = Throw e ->
  buildError e.
Proof.
  intros Hrecur. unfold createAttributeValidator.
  destruct (isMedia attr); [discriminate |].
  destruct (isSimpleAttribute attr); [discriminate |].
  destruct (Js.is_string (a_type attr) "component").
  - unfold createComponentValidator.
    destruct (firstModel strapi attr) as [m |].
    + destruct (Js.is_true (a_repeatable attr)); [discriminate |].
      destruct (recur createOrUpdate (Some m) data isDraft) as [v |] eqn:E;
        [discriminate |].
      simpl. intros H. inversion H; subst. eapply Hrecur. exact E.
    + simpl. intros H. inversion H. now left.
  - destruct (Js.is_string (a_type attr) "dynamiczone"); discriminate.
Qed.

(** Building the model validator throws nothing but the unresolved schema
    and the exhausted depth. *)
Lemma createModelValidator_Throw depth :
  forall createOrUpdate m data isDraft e,
    createModelValidator js strapi depth createOrUpdate m data isDraft = Throw e ->
    buildError e.
Proof.
  induction depth as [| depth IH]; intros createOrUpdate m data isDraft e H.
  - simpl in H. inversion H. now right.
  - simpl in H. unfold createModelValidatorBody in H.
    apply bind_Throw in H. destruct H as [H | (fields & _ & H)]; [| discriminate].
    apply mapM_Throw_inv in H. destruct H as ([n a] & _ & H).
    apply bind_Throw in H. destruct H as [H | (v & _ & H)]; [| discriminate].
    eapply createAttributeValidator_Throw; [| exact H]. exact IH.
Qed.

(** A writable component attribute whose schema does not resolve makes the
    build throw. *)
Lemma createModelValidator_unresolved depth createOrUpdate m data isDraft name attr :
  In (name, attr) (writableAttributes strapi m) ->
  isMedia attr = false ->
  Js.is_string (a_type attr) "component" = true ->
  firstModel strapi attr = None ->
  exists e,
    createModelValidator js strapi depth createOrUpdate m data isDraft = Throw e
    /\ buildError e.
Proof.
  intros Hin Hmedia Htype Hmodel.
  assert (Hthrow : exists e,
             createModelValidator js strapi depth createOrUpdate m data isDraft
             = Throw e).
  { destruct depth as [| depth]; simpl; [eauto |].
    unfold createModelValidatorBody.
    destruct (@mapM_Throw_in _ _
                (fun '(attrName, attr0) =>
                   v <- createAttributeValidator js strapi
                          (createModelValidator js strapi depth)
                          createOrUpdate attr0 (Js.get data attrName) isDraft ;;
                   Ok (attrName, v))
                (writableAttributes strapi m) (name, attr)
                (Error "Validation failed: Model not found") Hin) as (e & ->).
    - unfold createAttributeValidator. rewrite Hmedia.
      assert (Hsimple : isSimpleAttribute attr = false).
      { unfold isSimpleAttribute. rewrite Htype. simpl. now rewrite andb_false_r. }
      rewrite Hsimple, Htype.
      now rewrite createComponentValidator_unresolved.
    - simpl. eauto. }
  destruct Hthrow as (e & He). exists e. split; [exact He |].
  eapply createModelValidator_Throw. exact He.
Qed.

(** ** C8 *)

(** C8, as the code has it.  A component attribute whose schema does not
    resolve makes [createComponentValidator] throw
    [Error('Validation failed: Model not found')], whatever the data.  The
    call then never returns a record: the build throws inside the [try]
    block, and the caller gets what the [catch] block makes of that error,
    the same block that handles validation errors: the bad request named
    [ValidationError] with the formatter's outcome when the formatter
    returns, and else what the formatter throws. *)
Theorem unresolved_component_fails depth createOrUpdate m data isDraft name attr :
  In (name, attr) (writableAttributes strapi m) ->
  isMedia attr = false ->
  Js.is_string (a_type attr) "component" = true ->
  firstModel strapi attr = None ->
  (forall recur createOrUpdate' data' isDraft',
      createComponentValidator js strapi recur createOrUpdate' attr data' isDraft'
      = Throw (Error "Validation failed: Model not found"))
  /\ exists e,
      buildError e
      /\ tryValidate js strapi depth createOrUpdate m data isDraft = Throw e
      /\ createValidateEntity js strapi depth createOrUpdate m data isDraft
         = rethrow strapi e
      /\ (forall out,
             createValidateEntity js strapi depth createOrUpdate m data isDraft
             <> Ok out)
      /\ (forall payload,
             formatYupErrors strapi e = Ok payload ->
             createValidateEntity js strapi depth createOrUpdate m data isDraft
             = Throw (BadRequest "ValidationError" (VObject [("errors", payload)])))
      /\ (forall e',
             formatYupErrors strapi e = Throw e' ->
             createValidateEntity js strapi depth createOrUpdate m data isDraft
             = Throw e').
Proof.
  intros Hin Hmedia Htype Hmodel. split.
  - intros. now apply createComponentValidator_unresolved.
  - destruct (@createModelValidator_unresolved depth createOrUpdate m data isDraft
                name attr Hin Hmedia Htype Hmodel) as (e & He & Hbuild).
    exists e. split; [exact Hbuild |].
    assert (Htry : tryValidate js strapi depth createOrUpdate m data isDraft = Throw e).
    { unfold tryValidate. now rewrite He. }
    assert (Hcall : createValidateEntity js strapi depth createOrUpdate m data isDraft
                    = rethrow strapi e).
    { unfold createValidateEntity. now rewrite Htry. }
    split; [exact Htry |]. split; [exact Hcall |]. rewrite Hcall.
    split; [| split].
    + intros out. apply rethrow_not_Ok.
    + intros payload Hp. unfold rethrow. now rewrite Hp.
    + intros e' Hp. unfold rethrow. now rewrite Hp.
Qed.

End BuildFailures.

(** [seo] of [broken] names a component the registry does not know. *)
Lemma unresolved_component_fails_witness :
  In ("seo", Examples.withComponent "shared.missing" (Examples.attr "component"))
     (writableAttributes Examples.strapi (Some Examples.broken))
  /\ validateEntityCreation Examples.js Examples.strapi 2
       (Some Examples.broken) (VObject []) false
     = rethrow Examples.strapi (Error "Validation failed: Model not found").
Proof.
  split; [now left |].
  destruct (@unresolved_component_fails Examples.js Examples.strapi 2 creation
              (Some Examples.broken) (VObject []) false
              "seo" (Examples.withComponent "shared.missing" (Examples.attr "component"))
              (or_introl eq_refl) eq_refl eq_refl eq_refl)
    as (_ & e & _ & Htry & Hcall & _).
  vm_compute in Htry. inversion Htry; subst e. exact Hcall.
Defined.

(** C8 as stated fails: the schema-resolution error does not reach the
    caller.  With the formatter of the specification the caller gets the
    same bad request as for field errors; with a formatter that refuses
    what is not a validation error the caller gets that formatter's error. *)
Lemma schema_resolution_error_counterexample :
  firstModel Examples.strapi
    (Examples.withComponent "shared.missing" (Examples.attr "component")) = None
  /\ validateEntityCreation Examples.js Examples.strapi 2
       (Some Examples.broken) (VObject []) false
     <> Throw (Error "Validation failed: Model not found")
  /\ validateEntityCreation Examples.js Examples.strapi 2
       (Some Examples.broken) (VObject []) false
     = Throw (BadRequest "ValidationError" (VObject [("errors", VArray [])]))
  /\ (exists payload,
         validateEntityCreation Examples.js Examples.strapi 2
           (Some Examples.article) (VObject []) false
         = Throw (BadRequest "ValidationError" (VObject [("errors", payload)])))
  /\ validateEntityCreation Examples.js Examples.strapiStrict 2
       (Some Examples.broken) (VObject []) false
     = Throw (Error "invalid.input").
Proof.
  split; [reflexivity |]. split; [discriminate |]. split; [reflexivity |].
  split; [eexists; reflexivity | reflexivity].
Defined.

(* ================================================================== *)
(** * An optional sequence that is empty *)
(* ================================================================== *)

Section EmptySequence.

Variable js : Js.runtime.
Variable strapi : environment.

(** The validator of [tags] on the empty array: no minimum bound, and the
    empty array passes unchanged. *)
Lemma tags_validator recur isDraft tv :
  createAttributeValidator js strapi recur creation Examples.tagsAttr
    (VArray []) isDraft = Ok tv ->
  Yup.hasTest "min" tv = false
  /\ Yup.cast tv (VArray []) = Ok (VArray [])
  /\ forall path, Yup.validateStrict tv path (VArray []) = Ok [].
Proof.
  unfold createAttributeValidator, createComponentValidator. simpl.
  destruct (firstModel strapi Examples.tagsAttr) as [m |]; [| discriminate].
  simpl. intros H. inversion H; subst. repeat split.
Qed.

(** The validator of [target] on a missing value: the value stays missing
    and passes. *)
Lemma target_validator depth isDraft gv :
  createAttributeValidator js strapi (createModelValidator js strapi depth)
    creation Examples.targetAttr VUndefined isDraft = Ok gv ->
  Yup.cast gv VUndefined = Ok VUndefined
  /\ forall path, Yup.validateStrict gv path VUndefined = Ok [].
Proof.
  unfold createAttributeValidator, createComponentValidator. simpl.
  destruct (firstModel strapi Examples.targetAttr) as [m |]; [| discriminate].
  simpl.
  destruct (createModelValidator js strapi depth creation (Some m) VUndefined isDraft)
    as [mv | e] eqn:E; [| discriminate].
  apply createModelValidator_Ok in E. destruct E as (d & fields & _ & _ & ->).
  simpl. intros H. inversion H; subst. clear H.
  unfold requiredFlag. simpl. rewrite andb_false_r. simpl.
  split; reflexivity.
Qed.

Lemma tagsSchema_build depth isDraft uid v :
  createModelValidator js strapi depth creation
    (Some (Examples.tagsSchema uid)) Examples.tagsRecord isDraft = Ok v ->
  (forall tv, Js.lookup "tags" (Yup.fields_of v) = Some tv ->
              Yup.hasTest "min" tv = false)
  /\ Yup.validate (Yup.required v) Examples.tagsRecord {| Yup.abortEarly := false |}
     = Ok Examples.tagsRecord.
Proof.
  intros H. apply createModelValidator_Ok in H.
  destruct H as (d & fields & -> & Hfields & ->).
  unfold writableAttributes in Hfields. simpl in Hfields.
  destruct (Js.mem "tags" (getNonWritableAttributes strapi (Examples.tagsSchema uid)));
    destruct (Js.mem "target" (getNonWritableAttributes strapi (Examples.tagsSchema uid)));
    simpl in Hfields;
    repeat match goal with
           | H : Forall2 _ (_ :: _) _ |- _ =>
               inversion H as [| ? [? ?] ? ? [? ?] ?]; subst; clear H
           | H : Forall2 _ [] _ |- _ => inversion H; subst; clear H
           end;
    simpl in *; subst;
    repeat match goal with
           | H : createAttributeValidator _ _ _ _ Examples.tagsAttr _ _ = Ok _ |- _ =>
               apply tags_validator in H; destruct H as (? & ? & ?)
           | H : createAttributeValidator _ _ _ _ Examples.targetAttr _ _ = Ok _ |- _ =>
               apply target_validator in H; destruct H as (? & ?)
           end.
  - split; [discriminate |]. reflexivity.
  - split; [discriminate |].
    unfold Yup.validate. simpl.
    match goal with H : Yup.cast _ VUndefined = _ |- _ => rewrite H end. simpl.
    match goal with H : forall _, Yup.validateStrict _ _ VUndefined = _ |- _ =>
                      rewrite H end.
    reflexivity.
  - split; [intros tv Htv; inversion Htv; subst; assumption |].
    unfold Yup.validate. simpl.
    match goal with H : Yup.cast _ (VArray []) = _ |- _ => rewrite H end. simpl.
    match goal with H : forall _, Yup.validateStrict _ _ (VArray []) = _ |- _ =>
                      rewrite H end.
    reflexivity.
  - split; [intros tv Htv; inversion Htv; subst; assumption |].
    unfold Yup.validate. simpl.
    match goal with H : Yup.cast _ (VArray []) = _ |- _ => rewrite H end. simpl.
    match goal with H : Yup.cast _ VUndefined = _ |- _ => rewrite H end. simpl.
    match goal with H : forall _, Yup.validateStrict _ _ (VArray []) = _ |- _ =>
                      rewrite H end.
    match goal with H : forall _, Yup.validateStrict _ _ VUndefined = _ |- _ =>
                      rewrite H end.
    reflexivity.
Qed.

(** ** C5 *)

(** C5, as the code has it.  For the schema
    [{tags: {type: component, repeatable: true, min: 1}, target: {type: component}}]
    in creation mode and the record [{tags: []}]: the validator of [tags]
    carries no minimum bound, because [tags] is not required and the data
    is an empty array; validation reports no [min] error on [tags], and
    whenever the validator can be built the record is accepted and
    returned as it is. *)
Theorem empty_optional_sequence_accepted depth isDraft uid :
  ~ reportsError
      (tryValidate js strapi depth creation (Some (Examples.tagsSchema uid))
         Examples.tagsRecord isDraft)
      [Key "tags"] "min"
  /\ forall v,
      createModelValidator js strapi depth creation
        (Some (Examples.tagsSchema uid)) Examples.tagsRecord isDraft = Ok v ->
      (forall tv, Js.lookup "tags" (Yup.fields_of v) = Some tv ->
                  Yup.hasTest "min" tv = false)
      /\ validateEntityCreation js strapi depth (Some (Examples.tagsSchema uid))
           Examples.tagsRecord isDraft = Ok Examples.tagsRecord.
Proof.
  split.
  - intros (errors & Hthrow & _). unfold tryValidate in Hthrow.
    destruct (createModelValidator js strapi depth creation
                (Some (Examples.tagsSchema uid)) Examples.tagsRecord isDraft)
      as [v | e] eqn:E.
    + apply tagsSchema_build in E. destruct E as [_ E].
      simpl in Hthrow. rewrite E in Hthrow. discriminate.
    + apply createModelValidator_Throw in E. simpl in Hthrow.
      inversion Hthrow; subst. destruct E; discriminate.
  - intros v Hv. pose proof (tagsSchema_build _ _ _ Hv) as [Hmin Hvalid].
    split; [exact Hmin |].
    unfold validateEntityCreation, createValidateEntity, tryValidate.
    rewrite Hv. simpl. now rewrite Hvalid.
Qed.

End EmptySequence.

(** The record [{tags: []}] passes although [tags] declares [min: 1]. *)
Lemma empty_optional_sequence_accepted_witness :
  exists v,
    createModelValidator Examples.js Examples.strapi 2 creation
      (Some (Examples.tagsSchema "post")) Examples.tagsRecord false = Ok v
    /\ validateEntityCreation Examples.js Examples.strapi 2
         (Some (Examples.tagsSchema "post")) Examples.tagsRecord false
       = Ok Examples.tagsRecord.
Proof.
  eexists. split; [reflexivity |].
  apply (proj2 (empty_optional_sequence_accepted Examples.js Examples.strapi
                  2 false "post") _ eq_refl).
Defined.

(** C5 as stated fails: with both component schemas resolved, validating
    [{tags: []}] in creation mode does not fail, and reports no [min]
    error on [tags]. *)
Lemma min_violation_counterexample :
  firstModel Examples.strapi Examples.tagsAttr = Some Examples.tagModel
  /\ firstModel Examples.strapi Examples.targetAttr = Some Examples.tagModel
  /\ validateEntityCreation Examples.js Examples.strapi 2
       (Some (Examples.tagsSchema "post")) Examples.tagsRecord false
     = Ok Examples.tagsRecord
  /\ ~ reportsError
        (validateEntityCreation Examples.js Examples.strapi 2
           (Some (Examples.tagsSchema "post")) Examples.tagsRecord false)
        [Key "tags"] "min"
  /\ ~ reportsError
        (tryValidate Examples.js Examples.strapi 2 creation
           (Some (Examples.tagsSchema "post")) Examples.tagsRecord false)
        [Key "tags"] "min".
Proof.
  split; [reflexivity |]. split; [reflexivity |]. split; [reflexivity |].
  split; intros (errors & H & _); vm_compute in H; discriminate H.
Defined.

(* ================================================================== *)
(** * Dynamic-zone entries *)
(* ================================================================== *)

Lemma existsb_strictEq_string s l :
  existsb (Js.strictEq (VString s)) (map VString l) = true -> In s l.
Proof.
  intros H. apply existsb_exists in H. destruct H as (x & Hin & Heq).
  apply in_map_iff in Hin. destruct Hin as (t & <- & Hin).
  simpl in Heq. apply String.eqb_eq in Heq. now subst.
Qed.

Lemma filter_other_keys {A : Type} k (l : list (string * A)) :
  Js.lookup k l = None ->
  filter (fun '(k', _) => negb (Js.mem k' [k])) l = l.
Proof.
  induction l as [| [k' a] l IH]; [reflexivity |].
  cbn [Js.lookup filter].
  destruct (String.eqb k k') eqn:E; [discriminate |].
  intros H.
  assert (Hmem : Js.mem k' [k] = false).
  { unfold Js.mem. simpl. now rewrite String.eqb_sym, E. }
  rewrite Hmem. simpl negb. cbv iota. f_equal. apply IH. exact H.
Qed.

(** Joining keeps the receiver's children in front. *)
Lemma concat_fields spa ia k f fa spb ib fb s :
  Yup.concat (Yup.Schema spa ia ((k, f) :: fa)) (Yup.Schema spb ib fb) = Ok s ->
  exists i g fs, s = Yup.Schema (Yup.concatSpec spa spb) i (g :: fs).
Proof.
  intros H. simpl in H.
  destruct (negb (Yup.sameKind (Yup.s_kind spa) (Yup.s_kind spb))
            && negb (Yup.isMixed (Yup.s_kind spa))); [discriminate |].
  apply bind_Ok in H. destruct H as (merged & Hm & H).
  destruct (match Js.lookup k fb with
            | Some g => c <- Yup.concat f g;; Ok (k, c)
            | None => Ok (k, f)
            end) as [x |]; [| discriminate].
  destruct (mapM _ fa) as [xs |]; [| discriminate].
  inversion Hm; subst. inversion H; subst. simpl. eauto.
Qed.

Section DynamicZone.

Variable js : Js.runtime.
Variable strapi : environment.

(** What the shape of an entry accepts: an object whose [__component] is
    the name of a registered component. *)
Lemma dzSchema_accepts path c :
  c <> VUndefined ->
  Yup.accepts (dzSchema js strapi) path c ->
  exists props name,
    c = VObject props
    /\ Js.get c "__component" = VString name
    /\ In name (components strapi).
Proof.
  intros Hc. unfold Yup.accepts, dzSchema.
  destruct c as [| | b | q | s | items | props]; simpl;
    try congruence; try discriminate.
  intros H. exists props.
  destruct (match Js.lookup "__component" props with
            | Some v => v
            | None => VUndefined
            end) as [| | b | q | s | items | props'];
    simpl in H; try discriminate.
  exists s. split; [reflexivity |]. split; [reflexivity |].
  unfold Yup.ownErrors in H. simpl in H.
  destruct (existsb (Js.strictEq (VString s)) (map VString (components strapi)))
    eqn:E; simpl in H; [| discriminate].
  now apply existsb_strictEq_string.
Qed.

Lemma dzSchema_rejects_null path : Yup.rejects (dzSchema js strapi) path VNull.
Proof. eexists. split; [reflexivity |]. discriminate. Qed.

(** The shape joined with a model validator that has no field
    [__component]: the children of both, and the node's own tests as in
    the shape. *)
Lemma concat_dzSchema fields s :
  Js.lookup "__component" fields = None ->
  Yup.concat (dzSchema js strapi) (Yup.shape fields (Yup.object js)) = Ok s ->
  Yup.fields_of s = Yup.fields_of (dzSchema js strapi) ++ fields
  /\ forall path c,
      Yup.accepts s path c ->
      Yup.accepts (dzSchema js strapi) path c
      /\ Yup.accepts (Yup.shape fields (Yup.object js)) path c.
Proof.
  intros Hno. unfold dzSchema. simpl. rewrite Hno. simpl.
  assert (Hf : filter (fun '(k, _) => negb (String.eqb k "__component" || false))
                      fields = fields)
    by apply (filter_other_keys "__component" fields Hno).
  rewrite Hf.
  intros H. inversion H; subst. clear H. split; [reflexivity |].
  intros path c. unfold Yup.accepts.
  destruct c as [| | b | q | str | items | props]; simpl;
    try discriminate; try (intros _; split; reflexivity).
  set (own := Yup.ownErrors _ (path ++ [Key "__component"]) _).
  destruct (mapM _ fields) as [nested |]; simpl; [| discriminate].
  unfold Yup.ownErrors. simpl. rewrite !app_nil_r.
  intros H. inversion H as [Happ]. apply app_eq_nil in Happ.
  destruct Happ as [-> ->]. split; reflexivity.
Qed.

(** ** C9 *)

(** C9.  The element type of a dynamic zone is built on each entry.
    An entry whose [__component] the registry does not resolve gets the
    shape alone, without any model validator; the shape accepts only an
    object whose [__component] is a string among the registered component
    names, and rejects [null].  An entry whose [__component] resolves to a
    schema (one without an attribute named [__component]) gets the shape
    joined with that schema's model validator, and what the joined
    validator accepts, both the shape and the model validator accept.  The
    cast of an entry is never [undefined]. *)
Theorem dynamic_zone_entries depth createOrUpdate attr data isDraft :
  let entry :=
    dzItem js strapi (createModelValidator js strapi depth) createOrUpdate isDraft in
  Yup.inner_of
    (createDzValidator js strapi (createModelValidator js strapi depth)
       createOrUpdate attr data isDraft)
  = Some (Yup.OfLazy entry)
  /\ (forall path c,
         c <> VUndefined ->
         Yup.accepts (dzSchema js strapi) path c ->
         exists props name,
           c = VObject props
           /\ Js.get c "__component" = VString name
           /\ In name (components strapi))
  /\ (forall path, Yup.rejects (dzSchema js strapi) path VNull)
  /\ (forall item,
         getModel strapi (Js.get item "__component") = None ->
         entry item = Ok (dzSchema js strapi))
  /\ (forall item m s,
         getModel strapi (Js.get item "__component") = Some m ->
         Js.lookup "__component" (writableAttributes strapi (Some m)) = None ->
         entry item = Ok s ->
         exists mv,
           createModelValidator js strapi depth createOrUpdate (Some m) item isDraft
           = Ok mv
           /\ Yup.concat (dzSchema js strapi) mv = Ok s
           /\ forall path c,
               Yup.accepts s path c ->
               Yup.accepts (dzSchema js strapi) path c /\ Yup.accepts mv path c)
  /\ (forall item s c,
         entry item = Ok s -> Yup.cast s item = Ok c -> c <> VUndefined).
Proof.
  intros entry. split; [| split; [| split; [| split; [| split]]]].
  - unfold createDzValidator.
    destruct (addMinMax_rest attr
                (addRequiredValidation createOrUpdate true
                   (Yup.arrayOf (Yup.OfLazy entry) (Yup.array js))) data)
      as (_ & _ & Hi & _).
    fold entry. rewrite Hi. now destruct createOrUpdate.
  - apply dzSchema_accepts.
  - apply dzSchema_rejects_null.
  - intros item Hm. unfold entry, dzItem. now rewrite Hm.
  - intros item m s Hm Hno H. unfold entry, dzItem in H. rewrite Hm in H.
    apply bind_Ok in H. destruct H as (mv & Hmv & Hs).
    exists mv. split; [exact Hmv |]. split; [exact Hs |].
    pose proof (createModelValidator_Ok _ _ _ _ _ _ _ Hmv) as Hshape.
    destruct Hshape as (d & fields & _ & Hfields & ->).
    apply (concat_dzSchema fields); [| exact Hs].
    apply lookup_None_keys.
    pose proof (@Forall2_names _ _ _ _ _ Hfields) as Hn. rewrite Hn.
    now apply lookup_None_keys.
  - intros item s c Hs Hcast.
    assert (Hshape : exists sp i f fs,
               s = Yup.Schema sp i (f :: fs)
               /\ Yup.s_kind sp = Yup.KObject /\ Yup.s_default sp = None).
    { unfold entry, dzItem in Hs.
      destruct (getModel strapi (Js.get item "__component")) as [m |].
      - apply bind_Ok in Hs. destruct Hs as (mv & Hmv & Hs).
        apply createModelValidator_Ok in Hmv.
        destruct Hmv as (d & fields & _ & _ & ->).
        unfold dzSchema, notNull, Yup.addTest, Yup.map_spec, Yup.shape,
          Yup.object, Yup.base in Hs.
        apply concat_fields in Hs. destruct Hs as (i & g & fs & ->).
        do 4 eexists. split; [reflexivity |]. split; reflexivity.
      - inversion Hs; subst. unfold dzSchema. simpl.
        do 4 eexists. split; [reflexivity |]. split; reflexivity. }
    destruct Hshape as (sp & i & f & fs & -> & Hk & Hd).
    destruct sp as [k n d t ex tr w]. simpl in Hk, Hd. subst k d.
    destruct f as [kf f]. simpl in Hcast.
    destruct (Yup.mixedCast _ item) eqn:E;
      try (inversion Hcast; discriminate).
    apply bind_Ok in Hcast. destruct Hcast as (cs & _ & Hcast).
    inversion Hcast. discriminate.
Qed.

End DynamicZone.

(** The dynamic zone [body] of [page]: an entry of an unknown component is
    checked against the shape alone and fails on its discriminator; an
    entry of the component [default.tag] passes. *)
Lemma dynamic_zone_entries_witness :
  let entry :=
    dzItem Examples.js Examples.strapi
      (createModelValidator Examples.js Examples.strapi 2) creation false in
  getModel Examples.strapi (VString "unknown.x") = None
  /\ entry (VObject [("__component", VString "unknown.x")])
     = Ok (dzSchema Examples.js Examples.strapi)
  /\ tryValidate Examples.js Examples.strapi 3 creation (Some Examples.page)
       (VObject [("body", VArray [VObject [("__component", VString "unknown.x")]])])
       false
     = Throw (ValidationError
                [Yup.err [Key "body"; Idx 0; Key "__component"] "oneOf"])
  /\ tryValidate Examples.js Examples.strapi 3 creation (Some Examples.page)
       (VObject [("body", VArray [VObject [("__component", VString "default.tag");
                                           ("label", VString "x")]])])
       false
     = Ok (VObject [("body", VArray [VObject [("__component", VString "default.tag");
                                              ("label", VString "x")]])]).
Proof.
  intros entry. split; [reflexivity |]. split.
  - destruct (dynamic_zone_entries Examples.js Examples.strapi 2 creation
                (Examples.attr "dynamiczone") VUndefined false)
      as (_ & _ & _ & Hunknown & _).
    apply Hunknown. reflexivity.
  - split; reflexivity.
Defined.

(* ================================================================== *)
(** * Further properties of the validator *)
(* ================================================================== *)

Lemma lookup_app {A : Type} k (l1 l2 : list (string * A)) :
  Js.lookup k (l1 ++ l2) =
  match Js.lookup k l1 with Some a => Some a | None => Js.lookup k l2 end.
Proof.
  induction l1 as [| [k' a] l1 IH]; simpl; [reflexivity |].
  destruct (String.eqb k k'); [reflexivity | exact IH].
Qed.

(** A filter on the keys that lets [k] through does not change what [k]
    reads. *)
Lemma lookup_filter_key {A : Type} (keep : string -> bool) k (l : list (string * A)) :
  keep k = true ->
  Js.lookup k (filter (fun '(k', _) => keep k') l) = Js.lookup k l.
Proof.
  intros Hk. induction l as [| [k' a] l IH]; simpl; [reflexivity |].
  destruct (String.eqb k k') eqn:E.
  - apply String.eqb_eq in E. subst k'. rewrite Hk. simpl.
    now rewrite String.eqb_refl.
  - destruct (keep k'); simpl; [now rewrite E | exact IH].
Qed.

(** A filter that keeps the first entry of [k] does not change what [k]
    reads. *)
Lemma lookup_filter_kept {A : Type} (keep : string * A -> bool) k a
  (l : list (string * A)) :
  Js.lookup k l = Some a -> keep (k, a) = true ->
  Js.lookup k (filter keep l) = Some a.
Proof.
  induction l as [| [k' a'] l IH]; simpl; [discriminate |].
  destruct (String.eqb k k') eqn:E.
  - apply String.eqb_eq in E. subst k'. intros H Hk. inversion H; subst.
    rewrite Hk. simpl. now rewrite String.eqb_refl.
  - intros H Hk. destruct (keep (k', a')); simpl; [rewrite E |]; now apply IH.
Qed.

(** Reading a key on both sides of two lists related entry by entry. *)
Lemma lookup_Forall2 {A B : Type} (R : string * A -> string * B -> Prop) k a l l' :
  Forall2 (fun x y => fst x = fst y /\ R x y) l l' ->
  Js.lookup k l = Some a ->
  exists b, Js.lookup k l' = Some b /\ R (k, a) (k, b).
Proof.
  induction 1 as [| [k1 a1] [k2 b2] l l' [Hk HR] _ IH]; simpl; [discriminate |].
  simpl in Hk. subst k2.
  destruct (String.eqb k k1) eqn:E.
  - apply String.eqb_eq in E. subst k1. intros H. inversion H; subst. eauto.
  - exact IH.
Qed.

Lemma mapM_all_Ok {A B : Type} (f : A -> result B) l :
  (forall a, In a l -> exists b, f a = Ok b) -> exists bs, mapM f l = Ok bs.
Proof.
  induction l as [| a l IH]; intros H; simpl; [eauto |].
  destruct (H a (or_introl eq_refl)) as (b & ->).
  destruct IH as (bs & ->); [intros x Hx; apply H; now right |]. eauto.
Qed.

(** A run whose every element gives the same outcome. *)
Lemma mapM_const {A B : Type} (f : A -> result B) (b : B) l :
  (forall a, In a l -> f a = Ok b) -> mapM f l = Ok (map (fun _ => b) l).
Proof.
  induction l as [| a l IH]; intros H; simpl; [reflexivity |].
  rewrite (H a (or_introl eq_refl)).
  rewrite IH; [reflexivity |]. intros x Hx. apply H. now right.
Qed.

Lemma mapM_id {A : Type} (f : A -> result A) l :
  (forall a, In a l -> f a = Ok a) -> mapM f l = Ok l.
Proof.
  induction l as [| a l IH]; intros H; simpl; [reflexivity |].
  rewrite (H a (or_introl eq_refl)).
  rewrite IH; [reflexivity |]. intros x Hx. apply H. now right.
Qed.

Lemma concat_nils {A B : Type} (l : list A) :
  List.concat (map (fun _ => @nil B) l) = [].
Proof. induction l; simpl; auto. Qed.

Section PassThrough.

Variable js : Js.runtime.
Variable strapi : environment.

(** The names of the fields of the model validator. *)
Lemma model_validator_names depth createOrUpdate m data isDraft v :
  createModelValidator js strapi depth createOrUpdate m data isDraft = Ok v ->
  exists fields,
    v = Yup.shape fields (Yup.object js)
    /\ map fst fields = map fst (writableAttributes strapi m).
Proof.
  intros H. apply createModelValidator_Ok in H.
  destruct H as (d & fields & _ & Hf & ->). exists fields. split; [reflexivity |].
  eapply Forall2_names. exact Hf.
Qed.

(** X1.  What the validator does not know it returns as it came: in the
    record that a successful call returns, a property that is not a
    writable attribute of the schema reads as in the input.  This holds in
    particular for the non-writable attributes: they are not validated,
    and not removed either. *)
Theorem unknown_properties_kept depth createOrUpdate m props isDraft out :
  createValidateEntity js strapi depth createOrUpdate m (VObject props) isDraft
  = Ok out ->
  (forall name,
      ~ In name (map fst (writableAttributes strapi m)) ->
      Js.get out name = Js.get (VObject props) name)
  /\ (forall name,
         In name (nonWritableOf strapi m) ->
         Js.get out name = Js.get (VObject props) name).
Proof.
  intros H.
  assert (Hmain : forall name,
             ~ In name (map fst (writableAttributes strapi m)) ->
             Js.get out name = Js.get (VObject props) name).
  { intros name Hname.
    apply createValidateEntity_Ok in H. unfold tryValidate in H.
    apply bind_Ok in H. destruct H as (v & Hv & H).
    apply validate_Ok in H. destruct H as [Hcast _].
    apply model_validator_names in Hv. destruct Hv as (fields & -> & Hnames).
    apply cast_record in Hcast. destruct Hcast as (cs & Hcs & ->).
    assert (Hcsn : map fst cs = map fst fields).
    { eapply Forall2_names. exact Hcs. }
    simpl. rewrite lookup_app.
    assert (Hnone : Js.lookup name (Yup.definedProps cs) = None).
    { apply lookup_None. intros c Hin. unfold Yup.definedProps in Hin.
      apply filter_In in Hin. destruct Hin as [Hin _].
      apply Hname. rewrite <- Hnames, <- Hcsn.
      apply in_map_iff. now exists (name, c). }
    rewrite Hnone. unfold Yup.unknownProps.
    rewrite (lookup_filter_key (fun k => negb (Js.mem k (map fst fields)))).
    - reflexivity.
    - apply negb_true_iff. destruct (Js.mem name (map fst fields)) eqn:E;
        [| reflexivity].
      apply mem_In in E. rewrite Hnames in E. contradiction. }
  split; [exact Hmain |].
  intros name Hnw. apply Hmain. now apply writable_not_nonWritable.
Qed.

End PassThrough.

(** The system field [id] and an unknown property come back as sent. *)
Lemma unknown_properties_kept_witness :
  let record :=
    [("id", VNumber 7); ("title", VString "t"); ("slug", VString "s");
     ("body", VString "b"); ("extra", VBool true)] in
  exists out,
    validateEntityCreation Examples.js Examples.strapi 1 (Some Examples.article)
      (VObject record) false = Ok out
    /\ Js.get out "id" = VNumber 7
    /\ Js.get out "extra" = VBool true.
Proof.
  intros record. eexists. split; [reflexivity |].
  destruct (@unknown_properties_kept Examples.js Examples.strapi 1 creation
              (Some Examples.article) record false _ eq_refl) as [Hunknown Hnw].
  split.
  - apply Hnw. simpl. now left.
  - apply Hunknown. simpl. intros [H | [H | [H | []]]]; discriminate.
Defined.

Section Relations.

Variable js : Js.runtime.
Variable strapi : environment.

(** The node of the mixed kind without transforms casts every value to
    itself and reports nothing. *)
Lemma cast_mixed x : Yup.cast Yup.mixed x = Ok x.
Proof. destruct x; reflexivity. Qed.

Lemma validateStrict_mixed path x : Yup.validateStrict Yup.mixed path x = Ok [].
Proof. apply mixed_accepts; reflexivity. Qed.

(** X2.  A relation is an opaque reference: the validator of a relation
    attribute is always built, casts every value that is not [undefined]
    to itself (a string is not parsed, the elements of an array are not
    touched), and reports no error on the data it was built for unless
    that data is [null] or missing. *)
Theorem relation_values_pass recur createOrUpdate attr data isDraft :
  isMedia attr = false ->
  isSimpleAttribute attr = false ->
  Js.is_string (a_type attr) "component" = false ->
  Js.is_string (a_type attr) "dynamiczone" = false ->
  exists v,
    createAttributeValidator js strapi recur createOrUpdate attr data isDraft = Ok v
    /\ (forall x, x <> VUndefined -> Yup.cast v x = Ok x)
    /\ (Js.isNil data = false ->
        forall path, Yup.validateStrict v path data = Ok []).
Proof.
  intros Hmedia Hsimple Hcomp Hdz.
  unfold createAttributeValidator, createRelationValidator.
  rewrite Hmedia, Hsimple, Hcomp, Hdz. simpl.
  eexists. split; [reflexivity |].
  assert (Hitems : forall items,
             mapM (Yup.cast Yup.mixed) items = Ok items).
  { intros items. apply mapM_id. intros a _. apply cast_mixed. }
  assert (Hvalid : forall path (items : list value),
             mapM (fun '(n, item) =>
                     Yup.validateStrict Yup.mixed (path ++ [Idx n]) item)
                  (Yup.indexed items)
             = Ok (map (fun _ => []) (Yup.indexed items))).
  { intros path items. apply mapM_const. intros [n item] _.
    apply validateStrict_mixed. }
  destruct (Js.isArray data) eqn:Harr.
  - (* an array of references *)
    set (mx := Yup.mixed) in *. clearbody mx. split.
    + intros x Hx.
      destruct (requiredFlag isDraft attr); destruct createOrUpdate;
        unfold addDefault; try destruct (_ && negb _);
        destruct x; try congruence; simpl; try reflexivity;
        now rewrite Hitems.
    + intros Hnil path.
      destruct data; try discriminate.
      destruct (requiredFlag isDraft attr); destruct createOrUpdate;
        unfold addDefault; try destruct (_ && negb _); simpl;
        rewrite Hvalid; simpl; now rewrite concat_nils.
  - (* one reference *)
    split.
    + intros x Hx.
      destruct (requiredFlag isDraft attr); destruct createOrUpdate;
        unfold addDefault; try destruct (_ && negb _);
        destruct x; try congruence; reflexivity.
    + intros Hnil path.
      destruct data; try discriminate;
        destruct (requiredFlag isDraft attr); destruct createOrUpdate;
        unfold addDefault; try destruct (_ && negb _); reflexivity.
Qed.

End Relations.

(** The relation [owner]: a string that looks like JSON stays a string,
    and any reference passes. *)
Lemma relation_values_pass_witness :
  exists v,
    createAttributeValidator Examples.js Examples.strapi
      (createModelValidator Examples.js Examples.strapi 1)
      creation Cases.ownerAttr (VNumber 5) false = Ok v
    /\ Yup.cast v (VString "[1]") = Ok (VString "[1]")
    /\ Yup.validateStrict v [Key "owner"] (VNumber 5) = Ok [].
Proof.
  destruct (@relation_values_pass Examples.js Examples.strapi
              (createModelValidator Examples.js Examples.strapi 1)
              creation Cases.ownerAttr (VNumber 5) false
              eq_refl eq_refl eq_refl eq_refl) as (v & Hv & Hcast & Hval).
  exists v. split; [exact Hv |]. split.
  - apply Hcast. discriminate.
  - apply Hval. reflexivity.
Defined.

Section AbsentSequences.

Variable js : Js.runtime.
Variable strapi : environment.

(** The attribute is handled as a sequence: a repeatable component whose
    schema resolves, or a dynamic zone, and not media. *)
Lemma sequence_build recur createOrUpdate attr data isDraft :
  isMedia attr = false ->
  (Js.is_string (a_type attr) "component" = true
   /\ Js.is_true (a_repeatable attr) = true
   /\ firstModel strapi attr <> None)
  \/ Js.is_string (a_type attr) "dynamiczone" = true ->
  exists builder,
    createAttributeValidator js strapi recur createOrUpdate attr data isDraft
    = Ok (addDefault createOrUpdate attr
            (preventCast
               (addMinMax attr
                  (addRequiredValidation createOrUpdate true
                     (Yup.arrayOf (Yup.OfLazy builder) (Yup.array js)))
                  data)))
    /\ (Js.is_string (a_type attr) "component" && Js.truthy (a_repeatable attr)
        || Js.is_string (a_type attr) "dynamiczone") = true.
Proof.
  intros Hmedia [(Htype & Hrep & Hm) | Htype].
  - assert (Hsimple : isSimpleAttribute attr = false).
    { unfold isSimpleAttribute. rewrite Htype. simpl. now rewrite andb_false_r. }
    destruct (firstModel strapi attr) as [m |] eqn:E; [| congruence].
    unfold createAttributeValidator, createComponentValidator.
    rewrite Hmedia, Hsimple, Htype, E, Hrep. simpl.
    eexists. split; [reflexivity |].
    destruct (a_repeatable attr) as [| | [|] | | | |]; try discriminate. reflexivity.
  - assert (Hsimple : isSimpleAttribute attr = false).
    { unfold isSimpleAttribute. rewrite Htype. now rewrite !andb_false_r. }
    assert (Hcomp : Js.is_string (a_type attr) "component" = false).
    { destruct (a_type attr); try reflexivity. simpl in *.
      apply String.eqb_eq in Htype. now subst. }
    unfold createAttributeValidator, createDzValidator.
    rewrite Hmedia, Hsimple, Hcomp, Htype. simpl.
    eexists. split; reflexivity.
Qed.

(** X3.  A draft does not relax a required sequence.  In creation mode a
    repeatable component or dynamic zone that is required, has no default
    and is missing from the record stays missing in the cast and is
    reported with exactly one error, [defined], whether the record is a
    draft or not. *)
Theorem required_sequence_ignores_draft recur attr isDraft :
  isMedia attr = false ->
  (Js.is_string (a_type attr) "component" = true
   /\ Js.is_true (a_repeatable attr) = true
   /\ firstModel strapi attr <> None)
  \/ Js.is_string (a_type attr) "dynamiczone" = true ->
  Js.truthy (a_required attr) = true ->
  a_default attr = VUndefined ->
  exists v,
    createAttributeValidator js strapi recur creation attr VUndefined isDraft = Ok v
    /\ Yup.cast v VUndefined = Ok VUndefined
    /\ forall path,
        Yup.validateStrict v path VUndefined = Ok [Yup.err path "defined"].
Proof.
  intros Hmedia Hseq Hreq Hdef.
  destruct (sequence_build recur creation attr VUndefined isDraft Hmedia Hseq)
    as (builder & -> & Hcond).
  eexists. split; [reflexivity |].
  unfold addDefault, addMinMax. rewrite Hcond, Hreq, Hdef. simpl.
  destruct (Js.isInteger (a_min attr)); destruct (Js.isInteger (a_max attr));
    split; reflexivity.
Qed.

(** X4.  In creation mode a repeatable component or dynamic zone that is
    not required and is missing from the record is cast to the empty
    array, and no minimum applies to it whatever [min] the descriptor
    declares: the only error it can get is [max], when the declared
    maximum is negative. *)
Theorem optional_sequence_defaults_to_empty recur attr isDraft :
  isMedia attr = false ->
  (Js.is_string (a_type attr) "component" = true
   /\ Js.is_true (a_repeatable attr) = true
   /\ firstModel strapi attr <> None)
  \/ Js.is_string (a_type attr) "dynamiczone" = true ->
  Js.truthy (a_required attr) = false ->
  exists v,
    createAttributeValidator js strapi recur creation attr VUndefined isDraft = Ok v
    /\ Yup.cast v VUndefined = Ok (VArray [])
    /\ Yup.hasTest "min" v = false
    /\ forall path,
        Yup.validateStrict v path (VArray []) =
        Ok match Js.isInteger (a_max attr) with
           | Some n => if (0 <=? n)%Z then [] else [Yup.err path "max"]
           | None => []
           end.
Proof.
  intros Hmedia Hseq Hreq.
  destruct (sequence_build recur creation attr VUndefined isDraft Hmedia Hseq)
    as (builder & -> & Hcond).
  eexists. split; [reflexivity |].
  unfold addDefault, addMinMax. rewrite Hcond, Hreq. simpl.
  destruct (Js.isInteger (a_min attr)); destruct (Js.isInteger (a_max attr)) as [n |];
    simpl; repeat split; try reflexivity;
    intros path; unfold Yup.ownErrors; simpl;
    destruct (0 <=? n)%Z; reflexivity.
Qed.

End AbsentSequences.

(** The required dynamic zone [body], missing from a draft. *)
Lemma required_sequence_ignores_draft_witness :
  (exists v,
      createAttributeValidator Examples.js Examples.strapi
        (createModelValidator Examples.js Examples.strapi 1)
        creation Cases.bodyAttr VUndefined true = Ok v
      /\ Yup.validateStrict v [Key "body"] VUndefined
         = Ok [Yup.err [Key "body"] "defined"])
  /\ tryValidate Examples.js Examples.strapi 1 creation (Some Examples.page)
       (VObject []) true
     = Throw (ValidationError [Yup.err [Key "body"] "defined"]).
Proof.
  split; [| reflexivity].
  destruct (@required_sequence_ignores_draft Examples.js Examples.strapi
              (createModelValidator Examples.js Examples.strapi 1)
              Cases.bodyAttr true eq_refl (or_intror eq_refl) eq_refl eq_refl)
    as (v & Hv & _ & Hval).
  exists v. split; [exact Hv | apply Hval].
Defined.

(** The optional sequence [tags] with [min: 1], missing from the record. *)
Lemma optional_sequence_defaults_to_empty_witness :
  exists v,
    createAttributeValidator Examples.js Examples.strapi
      (createModelValidator Examples.js Examples.strapi 1)
      creation Examples.tagsAttr VUndefined false = Ok v
    /\ Yup.cast v VUndefined = Ok (VArray [])
    /\ Yup.validateStrict v [Key "tags"] (VArray []) = Ok [].
Proof.
  assert (Hseq : (Js.is_string (a_type Examples.tagsAttr) "component" = true
                  /\ Js.is_true (a_repeatable Examples.tagsAttr) = true
                  /\ firstModel Examples.strapi Examples.tagsAttr <> None)
                 \/ Js.is_string (a_type Examples.tagsAttr) "dynamiczone" = true).
  { left. split; [reflexivity |]. split; [reflexivity | discriminate]. }
  destruct (@optional_sequence_defaults_to_empty Examples.js Examples.strapi
              (createModelValidator Examples.js Examples.strapi 1)
              Examples.tagsAttr false eq_refl Hseq eq_refl)
    as (v & Hv & Hcast & _ & Hval).
  exists v. split; [exact Hv |]. split; [exact Hcast | apply Hval].
Defined.

Lemma mapM_map {A B : Type} (f : A -> result B) (g : A -> B) l :
  (forall a, In a l -> f a = Ok (g a)) -> mapM f l = Ok (map g l).
Proof.
  induction l as [| a l IH]; intros H; simpl; [reflexivity |].
  rewrite (H a (or_introl eq_refl)).
  rewrite IH; [reflexivity |]. intros x Hx. apply H. now right.
Qed.

Lemma filter_all {A : Type} (keep : A -> bool) l :
  (forall a, In a l -> keep a = true) -> filter keep l = l.
Proof.
  induction l as [| a l IH]; intros H; simpl; [reflexivity |].
  rewrite (H a (or_introl eq_refl)). f_equal. apply IH.
  intros x Hx. apply H. now right.
Qed.

Lemma filter_none {A : Type} (keep : A -> bool) l :
  (forall a, In a l -> keep a = false) -> filter keep l = [].
Proof.
  induction l as [| a l IH]; intros H; simpl; [reflexivity |].
  rewrite (H a (or_introl eq_refl)). apply IH.
  intros x Hx. apply H. now right.
Qed.

Lemma concat_all_nil {A : Type} (ls : list (list A)) :
  (forall l, In l ls -> l = []) -> List.concat ls = [].
Proof.
  induction ls as [| l ls IH]; intros H; simpl; [reflexivity |].
  rewrite (H l (or_introl eq_refl)). simpl. apply IH.
  intros x Hx. apply H. now right.
Qed.

(** A node whose tests all pass a missing value reports nothing on it. *)
Lemma validateStrict_undefined_pass s path :
  Forall (fun t => forall k, Yup.t_ok t k VUndefined = true) (Yup.tests_of s) ->
  Yup.validateStrict s path VUndefined = Ok [].
Proof.
  intros Hpass. rewrite validateStrict_undefined. f_equal.
  unfold Yup.ownErrors. simpl.
  assert (Hnone : filter (fun t => negb (Yup.t_ok t (Yup.s_kind (Yup.spec_of s)) VUndefined))
                         (Yup.s_tests (Yup.spec_of s)) = []).
  { apply filter_none. intros t Ht. rewrite Forall_forall in Hpass.
    unfold Yup.tests_of in Hpass. now rewrite (Hpass t Ht). }
  destruct (Yup.s_whitelist (Yup.spec_of s)); simpl; now rewrite Hnone.
Qed.

Lemma tests_pass_addTest (P : Yup.test -> Prop) t s :
  P t -> Forall P (Yup.tests_of s) -> Forall P (Yup.tests_of (Yup.addTest t s)).
Proof.
  intros Ht Hs. apply Forall_forall. intros u Hu.
  apply in_addTest_inv in Hu. destruct Hu as [-> | Hu]; [exact Ht |].
  rewrite Forall_forall in Hs. now apply Hs.
Qed.

Lemma tests_pass_addMinMax (P : Yup.test -> Prop) attr validator data :
  (forall n, P (Yup.minTest n)) -> (forall n, P (Yup.maxTest n)) ->
  Forall P (Yup.tests_of validator) ->
  Forall P (Yup.tests_of (addMinMax attr validator data)).
Proof.
  intros Hmin Hmax Hv. unfold addMinMax.
  destruct (Js.isInteger (a_max attr)).
  - apply tests_pass_addTest; [apply Hmax |].
    destruct (Js.isInteger (a_min attr)); [| exact Hv].
    destruct (_ || _); [| exact Hv]. apply tests_pass_addTest; auto.
  - destruct (Js.isInteger (a_min attr)); [| exact Hv].
    destruct (_ || _); [| exact Hv]. apply tests_pass_addTest; auto.
Qed.

Lemma tests_pass_addRequired (P : Yup.test -> Prop) createOrUpdate flag validator :
  (flag = true -> P (match createOrUpdate with
                     | creation => notNilTest | update => notNullTest end)) ->
  Forall P (Yup.tests_of validator) ->
  Forall P (Yup.tests_of (addRequiredValidation createOrUpdate flag validator)).
Proof.
  intros Ht Hv. unfold addRequiredValidation. destruct flag.
  - destruct createOrUpdate; apply tests_pass_addTest; auto.
  - now destruct validator.
Qed.

Section Updates.

Variable js : Js.runtime.
Variable strapi : environment.

(** In update mode no test that the builder attaches fails on a missing
    value. *)
Lemma update_tests_pass depth attr data isDraft v :
  (isMedia attr = false -> isSimpleAttribute attr = true ->
   validators strapi (a_type attr) = None) ->
  createAttributeValidator js strapi (createModelValidator js strapi depth)
    update attr data isDraft = Ok v ->
  Forall (fun t => forall k, Yup.t_ok t k VUndefined = true) (Yup.tests_of v).
Proof.
  intros Hleaf H.
  set (P := fun t : Yup.test => forall k, Yup.t_ok t k VUndefined = true).
  assert (Hnull : forall flag : bool, flag = true -> P notNullTest)
    by (intros _ _ k; reflexivity).
  assert (Hmin : forall n, P (Yup.minTest n)) by (intros n k; reflexivity).
  assert (Hmax : forall n, P (Yup.maxTest n)) by (intros n k; reflexivity).
  unfold createAttributeValidator in H.
  apply bind_Ok in H. destruct H as (validator & Hval & H).
  apply Ok_inj in H. subst v.
  destruct (addDefault_rest update attr validator) as (-> & _).
  destruct (isMedia attr); [apply Ok_inj in Hval; subst; constructor |].
  destruct (isSimpleAttribute attr).
  - apply Ok_inj in Hval. subst validator. unfold createSimpleAttributeValidator.
    rewrite (Hleaf eq_refl eq_refl).
    apply tests_pass_addRequired; [apply Hnull | constructor].
  - apply bind_Ok in Hval. destruct Hval as (w & Hw & Hval).
    apply Ok_inj in Hval. subst validator.
    destruct (preventCast_rest w) as (-> & _).
    destruct (Js.is_string (a_type attr) "component").
    + unfold createComponentValidator in Hw.
      destruct (firstModel strapi attr) as [m |]; [| discriminate].
      destruct (Js.is_true (a_repeatable attr)).
      * apply Ok_inj in Hw. subst w.
        apply tests_pass_addMinMax; auto.
        apply tests_pass_addRequired; [apply Hnull | constructor].
      * apply bind_Ok in Hw. destruct Hw as (mv & Hmv & Hw).
        apply Ok_inj in Hw. subst w.
        apply createModelValidator_Ok in Hmv.
        destruct Hmv as (d & fields & _ & _ & ->).
        apply tests_pass_addRequired; [apply Hnull | constructor].
    + destruct (Js.is_string (a_type attr) "dynamiczone");
        apply Ok_inj in Hw; subst w.
      * unfold createDzValidator.
        apply tests_pass_addMinMax; auto.
        apply tests_pass_addRequired; [apply Hnull | constructor].
      * unfold createRelationValidator.
        apply tests_pass_addRequired; [apply Hnull |].
        destruct (Js.isArray data); constructor.
Qed.

(** X5.  An update that touches no writable attribute is accepted as it
    is.  When the schema's simple attributes have no leaf validator, and
    the validator can be built, an update record that has none of the
    writable attributes (the empty record in particular) is returned
    unchanged: nothing is required, nothing is defaulted. *)
Theorem untouched_update_accepted depth m props isDraft :
  (forall name attr,
      In (name, attr) (writableAttributes strapi m) ->
      isMedia attr = false -> isSimpleAttribute attr = true ->
      validators strapi (a_type attr) = None) ->
  (forall name,
      In name (map fst (writableAttributes strapi m)) ->
      Js.lookup name props = None) ->
  (exists v,
      createModelValidator js strapi depth update m (VObject props) isDraft = Ok v) ->
  validateEntityUpdate js strapi depth m (VObject props) isDraft
  = Ok (VObject props).
Proof.
  intros Hleaf Hmissing (v & Hv).
  unfold validateEntityUpdate, createValidateEntity, tryValidate.
  rewrite Hv. cbn [bind].
  apply createModelValidator_Ok in Hv.
  destruct Hv as (d & fields & _ & Hfields & ->).
  assert (Hnames : map fst fields = map fst (writableAttributes strapi m)).
  { eapply Forall2_names. exact Hfields. }
  assert (Hfield : forall k f,
             In (k, f) fields ->
             Js.get (VObject props) k = VUndefined
             /\ Yup.cast f VUndefined = Ok VUndefined
             /\ forall path, Yup.validateStrict f path VUndefined = Ok []).
  { intros k f Hin.
    assert (Hk : Js.lookup k props = None).
    { apply Hmissing. rewrite <- Hnames. apply in_map_iff. now exists (k, f). }
    destruct (@Forall2_In_r _ _ _ _ _ _ Hfields Hin) as ([n a] & Ha & Hn & Hb).
    cbn [fst snd] in Hn, Hb. subst n.
    split; [simpl; now rewrite Hk |].
    pose proof (createAttributeValidator_Ok _ _ _ _ _ _ _ Hb) as (w & Hw).
    split.
    - rewrite Hw. apply cast_undefined. apply (default_addDefault update).
    - intros path. apply validateStrict_undefined_pass.
      eapply update_tests_pass; [| exact Hb]. intros Hm Hs. eapply Hleaf; eauto. }
  unfold Yup.validate.
  assert (Hcast : Yup.cast (Yup.required (Yup.shape fields (Yup.object js)))
                           (VObject props) = Ok (VObject props)).
  { simpl.
    rewrite (mapM_map _ (fun kf : string * Yup.schema => (fst kf, VUndefined))).
    - simpl. unfold Yup.definedProps, Yup.unknownProps.
      rewrite filter_none, filter_all; [reflexivity | |].
      + intros [k x] Hin. apply negb_true_iff.
        destruct (Js.mem k (map fst fields)) eqn:E; [| reflexivity].
        apply mem_In in E. rewrite Hnames in E. apply Hmissing in E.
        rewrite lookup_None in E. now apply E in Hin.
      + intros [k x] Hin. apply in_map_iff in Hin.
        destruct Hin as ([k' f] & Heq & _). now inversion Heq.
    - intros [k f] Hin. destruct (Hfield k f Hin) as (Hget & Hc & _).
      simpl in Hget |- *. rewrite Hget, Hc. reflexivity. }
  rewrite Hcast. cbn [bind].
  assert (Hval : Yup.validateStrict (Yup.required (Yup.shape fields (Yup.object js)))
                                    [] (VObject props) = Ok []).
  { simpl.
    rewrite (mapM_map _ (fun _ : string * Yup.schema => @nil verror)).
    - simpl. now rewrite concat_nils.
    - intros [k f] Hin. destruct (Hfield k f Hin) as (Hget & _ & Hv).
      simpl in Hget |- *. rewrite Hget. apply Hv. }
  rewrite Hval. reflexivity.
Qed.

End Updates.

(** An update of [forest] that names no attribute of it. *)
Lemma untouched_update_accepted_witness :
  validateEntityUpdate Examples.js Cases.strapi 1 (Some Cases.forest)
    (VObject [("note", VString "n")]) false
  = Ok (VObject [("note", VString "n")]).
Proof.
  apply untouched_update_accepted.
  - intros name attr _ _ _. reflexivity.
  - intros name Hin. simpl in Hin.
    destruct Hin as [<- | [<- | [<- | []]]]; reflexivity.
  - eexists. reflexivity.
Defined.

Section RecordShape.

Variable js : Js.runtime.
Variable strapi : environment.

(** X6.  A record that is not an object is rejected at the root.  When
    the validator can be built and the data is [null], a boolean, a number,
    an array, or a string that does not parse as JSON, the [try] block
    throws one validation error with the single entry [typeError] at the
    empty path, and no field is looked at. *)
Theorem non_object_record_rejected depth createOrUpdate m data isDraft :
  (exists v,
      createModelValidator js strapi depth createOrUpdate m data isDraft = Ok v) ->
  match data with
  | VNull | VBool _ | VNumber _ | VArray _ => True
  | VString s => Js.JSON_parse js s = None
  | VUndefined | VObject _ => False
  end ->
  tryValidate js strapi depth createOrUpdate m data isDraft
  = Throw (ValidationError [Yup.err [] "typeError"])
  /\ createValidateEntity js strapi depth createOrUpdate m data isDraft
     = rethrow strapi (ValidationError [Yup.err [] "typeError"]).
Proof.
  intros (v & Hv) Hdata.
  assert (Htry : tryValidate js strapi depth createOrUpdate m data isDraft
                 = Throw (ValidationError [Yup.err [] "typeError"])).
  { unfold tryValidate. rewrite Hv. cbn [bind].
    apply createModelValidator_Ok in Hv.
    destruct Hv as (d & fields & _ & _ & ->).
    destruct data; try contradiction; try reflexivity.
    unfold Yup.validate. simpl.
    unfold Yup.mixedCast, Yup.coerceJson. simpl. rewrite Hdata. reflexivity. }
  split; [exact Htry |].
  unfold createValidateEntity. now rewrite Htry.
Qed.

End RecordShape.

(** An array in place of the record. *)
Lemma non_object_record_rejected_witness :
  tryValidate Examples.js Examples.strapi 1 creation (Some Examples.article)
    (VArray [VObject [("title", VString "t")]]) false
  = Throw (ValidationError [Yup.err [] "typeError"]).
Proof.
  apply non_object_record_rejected.
  - eexists. reflexivity.
  - exact I.
Defined.

Section BuildDepth.

Variable js : Js.runtime.
Variable strapi : environment.

(** X7.  Sequences are built lazily.  A schema whose writable attributes
    are media, simple, relations, dynamic zones or repeatable components
    with a resolved schema is built in one call, whatever the data and
    whatever the component schemas contain (themselves included): no
    component schema is entered while building. *)
Theorem flat_schema_builds recur createOrUpdate m data isDraft :
  (forall name attr,
      In (name, attr) (writableAttributes strapi m) ->
      isMedia attr = true
      \/ isSimpleAttribute attr = true
      \/ Js.is_string (a_type attr) "component" = false
      \/ (Js.is_true (a_repeatable attr) = true /\ firstModel strapi attr <> None)) ->
  (exists v,
      createModelValidatorBody js strapi recur createOrUpdate m data isDraft = Ok v)
  /\ exists v,
      createModelValidator js strapi 1 createOrUpdate m data isDraft = Ok v.
Proof.
  intros Hattrs.
  assert (Hany : forall r,
             exists v,
               createModelValidatorBody js strapi r createOrUpdate m data isDraft
               = Ok v).
  { intros r. unfold createModelValidatorBody.
    destruct (@mapM_all_Ok _ _
                (fun '(attrName, attr) =>
                   v <- createAttributeValidator js strapi r createOrUpdate attr
                          (Js.get data attrName) isDraft ;;
                   Ok (attrName, v))
                (writableAttributes strapi m)) as (fields & ->).
    - intros [name attr] Hin.
      assert (Hok : exists v,
                 createAttributeValidator js strapi r createOrUpdate attr
                   (Js.get data name) isDraft = Ok v).
      { unfold createAttributeValidator.
        destruct (isMedia attr) eqn:Hm; [simpl; eauto |].
        destruct (isSimpleAttribute attr) eqn:Hs; [simpl; eauto |].
        destruct (Hattrs name attr Hin) as [H | [H | [H | [Hrep Hmodel]]]];
          try congruence.
        - rewrite H. destruct (Js.is_string (a_type attr) "dynamiczone");
            simpl; eauto.
        - destruct (Js.is_string (a_type attr) "component").
          + unfold createComponentValidator.
            destruct (firstModel strapi attr); [| congruence].
            rewrite Hrep. simpl. eauto.
          + destruct (Js.is_string (a_type attr) "dynamiczone"); simpl; eauto. }
      destruct Hok as (v & ->). simpl. eauto.
    - simpl. eauto. }
  split; [apply Hany |]. simpl. apply Hany.
Qed.

(** X8.  A component that contains itself once is never built.  When a
    writable attribute of a schema is a non-repeatable component whose
    schema is that schema again, building the validator fails at every
    call depth and for every data (the recursion of the source has no
    end), so the call never returns a record. *)
Theorem self_contained_component_never_builds m name attr createOrUpdate isDraft :
  In (name, attr) (writableAttributes strapi (Some m)) ->
  isMedia attr = false ->
  Js.is_string (a_type attr) "component" = true ->
  Js.is_true (a_repeatable attr) = false ->
  firstModel strapi attr = Some m ->
  forall depth data,
    (exists e,
        createModelValidator js strapi depth createOrUpdate (Some m) data isDraft
        = Throw e
        /\ buildError e)
    /\ forall out,
        createValidateEntity js strapi depth createOrUpdate (Some m) data isDraft
        <> Ok out.
Proof.
  intros Hin Hmedia Htype Hrep Hmodel.
  assert (Hsimple : isSimpleAttribute attr = false).
  { unfold isSimpleAttribute. rewrite Htype. simpl. now rewrite andb_false_r. }
  assert (Hbuild : forall depth data,
             exists e,
               createModelValidator js strapi depth createOrUpdate (Some m) data isDraft
               = Throw e).
  { induction depth as [| depth IH]; intros data; simpl; [eauto |].
    unfold createModelValidatorBody.
    destruct (IH (Js.get data name)) as (e & He).
    destruct (@mapM_Throw_in _ _
                (fun '(attrName, attr0) =>
                   v <- createAttributeValidator js strapi
                          (createModelValidator js strapi depth)
                          createOrUpdate attr0 (Js.get data attrName) isDraft ;;
                   Ok (attrName, v))
                (writableAttributes strapi (Some m)) (name, attr) e Hin) as (e' & ->).
    - unfold createAttributeValidator, createComponentValidator.
      now rewrite Hmedia, Hsimple, Htype, Hmodel, Hrep, He.
    - simpl. eauto. }
  intros depth data. destruct (Hbuild depth data) as (e & He). split.
  - exists e. split; [exact He |]. eapply createModelValidator_Throw. exact He.
  - intros out H. apply createValidateEntity_Ok in H.
    unfold tryValidate in H. rewrite He in H. discriminate.
Qed.

End BuildDepth.

(** [forest] has a sequence of [tree.node], which contains itself: it is
    built in one call. *)
Lemma flat_schema_builds_witness :
  exists v,
    createModelValidator Examples.js Cases.strapi 1 creation (Some Cases.forest)
      (VObject []) false = Ok v.
Proof.
  apply (flat_schema_builds Examples.js Cases.strapi
           (createModelValidator Examples.js Cases.strapi 0)).
  intros name attr Hin. simpl in Hin.
  destruct Hin as [H | [H | [H | []]]]; inversion H; subst.
  - right. right. right. split; [reflexivity | discriminate].
  - right. right. left. reflexivity.
  - right. left. reflexivity.
Defined.

(** [tree.node] contains one [tree.node]: never built. *)
Lemma self_contained_component_never_builds_witness :
  In ("child", Cases.childAttr) (writableAttributes Cases.strapi (Some Cases.node))
  /\ firstModel Cases.strapi Cases.childAttr = Some Cases.node
  /\ forall out,
      validateEntityCreation Examples.js Cases.strapi 50 (Some Cases.node)
        (VObject []) false <> Ok out.
Proof.
  split; [now left |]. split; [reflexivity |].
  apply (@self_contained_component_never_builds Examples.js Cases.strapi
           Cases.node "child" Cases.childAttr creation false
           (or_introl eq_refl) eq_refl eq_refl eq_refl eq_refl 50%nat (VObject [])).
Defined.

Section NullAndDefaults.

Variable js : Js.runtime.
Variable strapi : environment.

(** X9.  What is not required may be [null].  For an attribute that is not
    a sequence and whose flag [!isDraft && required] is off (every such
    attribute of a draft), the validator built on [null] casts [null] to
    [null] and reports nothing: media, a simple attribute without leaf
    validator, a relation, a single component. *)
Theorem optional_accepts_null depth createOrUpdate attr isDraft v :
  requiredFlag isDraft attr = false ->
  (isMedia attr = false -> isSimpleAttribute attr = true ->
   validators strapi (a_type attr) = None) ->
  (Js.is_string (a_type attr) "component" = true ->
   Js.is_true (a_repeatable attr) = false) ->
  Js.is_string (a_type attr) "dynamiczone" = false ->
  createAttributeValidator js strapi (createModelValidator js strapi depth)
    createOrUpdate attr VNull isDraft = Ok v ->
  Yup.cast v VNull = Ok VNull
  /\ forall path, Yup.validateStrict v path VNull = Ok [].
Proof.
  intros Hflag Hleaf Hsingle Hdz H.
  unfold createAttributeValidator in H.
  destruct (isMedia attr).
  - simpl in H. apply Ok_inj in H. subst v.
    destruct createOrUpdate; unfold addDefault; try destruct (_ && negb _);
      split; reflexivity.
  - destruct (isSimpleAttribute attr).
    + simpl in H. apply Ok_inj in H. subst v.
      unfold createSimpleAttributeValidator.
      rewrite (Hleaf eq_refl eq_refl), Hflag.
      destruct createOrUpdate; unfold addDefault; try destruct (_ && negb _);
        split; reflexivity.
    + destruct (Js.is_string (a_type attr) "component") eqn:Hc.
      * unfold createComponentValidator in H.
        destruct (firstModel strapi attr) as [m |]; [| discriminate].
        rewrite (Hsingle eq_refl), Hflag in H.
        destruct (createModelValidator js strapi depth createOrUpdate (Some m)
                    VNull isDraft) as [mv |] eqn:E; [| discriminate].
        apply createModelValidator_Ok in E.
        destruct E as (d & fields & _ & _ & ->).
        simpl in H. apply Ok_inj in H. subst v.
        destruct createOrUpdate; unfold addDefault; rewrite ?Hc; simpl;
          try destruct (_ && negb _); split; reflexivity.
      * rewrite Hdz in H. simpl in H. apply Ok_inj in H. subst v.
        unfold createRelationValidator. rewrite Hflag. simpl.
        destruct createOrUpdate; unfold addDefault; try destruct (_ && negb _);
          split; reflexivity.
Qed.

(** A node with a default that is a primitive or the empty array casts a
    missing value to that default. *)
Lemma cast_undefined_default s d :
  Yup.default_of s = Some d ->
  match d with
  | VNull | VBool _ | VNumber _ | VString _ | VArray [] => True
  | _ => False
  end ->
  Yup.cast s VUndefined = Ok d.
Proof.
  destruct s as [sp i fs]. unfold Yup.default_of. simpl. intros Hd Hplain.
  unfold Yup.mixedCast. rewrite Hd.
  destruct (Yup.s_kind sp); destruct d as [| | b | q | str | [| x items] | props];
    try contradiction; try reflexivity.
  destruct i as [[i | builder] |]; reflexivity.
Qed.

(** X10.  In creation mode an omitted attribute comes back with its
    default.  When the call returns a record, a writable attribute that
    the input record does not have reads in the result as the default of
    its validator (the descriptor's [default], or the empty array for a
    sequence that is not required), provided that default is a primitive
    or the empty array. *)
Theorem creation_default_filled depth m props isDraft out name attr :
  validateEntityCreation js strapi depth m (VObject props) isDraft = Ok out ->
  Js.lookup name (writableAttributes strapi m) = Some attr ->
  Js.lookup name props = None ->
  let d := if ((Js.is_string (a_type attr) "component"
                && Js.truthy (a_repeatable attr))
               || Js.is_string (a_type attr) "dynamiczone")
              && negb (Js.truthy (a_required attr))
           then VArray [] else a_default attr in
  match d with
  | VNull | VBool _ | VNumber _ | VString _ | VArray [] => True
  | _ => False
  end ->
  Js.get out name = d.
Proof.
  intros H Hattr Hmissing d Hplain.
  apply createValidateEntity_Ok in H. unfold tryValidate in H.
  apply bind_Ok in H. destruct H as (v & Hv & H).
  apply validate_Ok in H. destruct H as [Hcast _].
  apply createModelValidator_Ok in Hv.
  destruct Hv as (depth' & fields & _ & Hfields & ->).
  apply cast_record in Hcast. destruct Hcast as (cs & Hcs & ->).
  destruct (lookup_Forall2 _ name Hfields Hattr) as (f & Hf & Hbuild).
  destruct (lookup_Forall2 _ name Hcs Hf) as (c & Hc & Hcastf).
  cbn [fst snd] in Hbuild, Hcastf.
  assert (Hget : Js.get (VObject props) name = VUndefined)
    by (simpl; now rewrite Hmissing).
  rewrite Hget in Hcastf.
  apply createAttributeValidator_Ok in Hbuild. destruct Hbuild as (w & ->).
  rewrite (cast_undefined_default _ (default_addDefault creation attr w) Hplain)
    in Hcastf.
  apply Ok_inj in Hcastf. subst c.
  simpl. rewrite lookup_app.
  unfold Yup.definedProps.
  rewrite (@lookup_filter_kept _ _ name _ cs Hc); [reflexivity |].
  fold d. destruct d as [| | b | q | str | items | ps]; try contradiction; reflexivity.
Qed.

End NullAndDefaults.

(** In a draft the required [title] may be [null]. *)
Lemma optional_accepts_null_witness :
  exists v,
    createAttributeValidator Examples.js Examples.strapi
      (createModelValidator Examples.js Examples.strapi 1)
      creation (Examples.withRequired (Examples.attr "string")) VNull true = Ok v
    /\ Yup.validateStrict v [Key "title"] VNull = Ok [].
Proof.
  eexists. split; [reflexivity |].
  apply (@optional_accepts_null Examples.js Examples.strapi 1 creation
           (Examples.withRequired (Examples.attr "string")) true _
           eq_refl (fun _ _ => eq_refl) (fun H => eq_refl) eq_refl eq_refl).
Defined.

(** The empty record for [forest]: [title] and [children] get their
    defaults. *)
Lemma creation_default_filled_witness :
  exists out,
    validateEntityCreation Examples.js Cases.strapi 1 (Some Cases.forest)
      (VObject []) false = Ok out
    /\ Js.get out "title" = VString "untitled"
    /\ Js.get out "children" = VArray [].
Proof.
  eexists. split; [reflexivity |]. split.
  - apply (@creation_default_filled Examples.js Cases.strapi 1 (Some Cases.forest)
             [] false _ "title"
             (Examples.withDefault (VString "untitled") (Examples.attr "string"))
             eq_refl eq_refl eq_refl I).
  - apply (@creation_default_filled Examples.js Cases.strapi 1 (Some Cases.forest)
             [] false _ "children" Cases.childrenAttr
             eq_refl eq_refl eq_refl I).
Defined.

(* ================================================================== *)
(** * Bounds of a sequence *)
(* ================================================================== *)

(** An error at the path of a node is an error of the node itself. *)
Lemma validateStrict_own s path v errors e :
  Yup.validateStrict s path v = Ok errors ->
  In e errors -> e_path e = path ->
  In e (Yup.ownErrors (Yup.spec_of s) path v).
Proof.
  destruct s as [sp inner fields]. simpl. intros H He Hpath.
  assert (Hnested : forall (A : Type) (l : list A) g nested,
             mapM g l = Ok nested ->
             (forall a errs x, g a = Ok errs -> In x errs ->
                               exists seg r, e_path x = (path ++ [seg]) ++ r) ->
             ~ In e (List.concat nested)).
  { intros A l g nested Hm Hg Hin.
    apply in_concat in Hin. destruct Hin as (errs & Herrs & Hin).
    apply mapM_Forall2 in Hm.
    destruct (@Forall2_In_r _ _ _ _ _ _ Hm Herrs) as (a & Ha & Hga).
    destruct (Hg _ _ _ Hga Hin) as (seg & r & Hr).
    rewrite Hpath, <- app_assoc in Hr.
    rewrite <- (app_nil_r path) in Hr at 1.
    apply app_inv_head in Hr. discriminate. }
  destruct (Yup.s_kind sp).
  - inversion H; subst. exact He.
  - inversion H; subst. exact He.
  - destruct v; try (inversion H; subst; exact He).
    destruct inner as [[i | builder] |]; try (inversion H; subst; exact He).
    + apply bind_Ok in H. destruct H as (nested & Hm & H). inversion H; subst.
      apply in_app_or in He. destruct He as [He | He]; [| exact He].
      exfalso. eapply Hnested; [exact Hm | | exact He].
      intros [n a] errs x Hg Hx. simpl in Hg. exists (Idx n).
      eapply validateStrict_prefix; [exact Hg | exact Hx].
    + apply bind_Ok in H. destruct H as (nested & Hm & H). inversion H; subst.
      apply in_app_or in He. destruct He as [He | He]; [| exact He].
      exfalso. eapply Hnested; [exact Hm | | exact He].
      intros [n a] errs x Hg Hx. simpl in Hg.
      apply bind_Ok in Hg. destruct Hg as (i & Hi & Hg). exists (Idx n).
      eapply validateStrict_prefix; [exact Hg | exact Hx].
  - destruct (Js.isObject v); [| inversion H; subst; exact He].
    apply bind_Ok in H. destruct H as (nested & Hm & H). inversion H; subst.
    apply in_app_or in He. destruct He as [He | He]; [| exact He].
    exfalso. eapply Hnested; [exact Hm | | exact He].
    intros [k f] errs x Hg Hx. exists (Key k).
    eapply validateStrict_prefix; [exact Hg | exact Hx].
  - inversion H; subst. exact He.
Qed.

(** The errors of the node itself are among the errors of its subtree. *)
Lemma validateStrict_own_incl s path v errors e :
  Yup.validateStrict s path v = Ok errors ->
  In e (Yup.ownErrors (Yup.spec_of s) path v) -> In e errors.
Proof.
  destruct s as [sp inner fields]. simpl. intros H He.
  destruct (Yup.s_kind sp).
  - inversion H; subst. exact He.
  - inversion H; subst. exact He.
  - destruct v; try (inversion H; subst; exact He).
    destruct inner as [[i | builder] |]; try (inversion H; subst; exact He);
      apply bind_Ok in H; destruct H as (nested & Hm & H); inversion H; subst;
      apply in_or_app; now right.
  - destruct (Js.isObject v); [| inversion H; subst; exact He].
    apply bind_Ok in H. destruct H as (nested & Hm & H). inversion H; subst.
    apply in_or_app. now right.
  - inversion H; subst. exact He.
Qed.

(** On a value of its type, a node without [oneOf] reports its failing
    tests. *)
Lemma ownErrors_tests sp path v :
  Yup.typeCheck (Yup.s_kind sp) v = true ->
  Yup.s_whitelist sp = None ->
  Yup.ownErrors sp path v =
  map (fun t => Yup.err path (Yup.t_name t))
      (filter (fun t => negb (Yup.t_ok t (Yup.s_kind sp) v)) (Yup.s_tests sp)).
Proof.
  intros Ht Hw. unfold Yup.ownErrors, Yup.isType. rewrite Ht, Hw.
  rewrite orb_true_r. simpl. now rewrite andb_false_r.
Qed.

Lemma addMinMax_whitelist attr validator data :
  Yup.whitelist_of (addMinMax attr validator data) = Yup.whitelist_of validator.
Proof.
  unfold addMinMax.
  destruct (Js.isInteger (a_max attr)); destruct (Js.isInteger (a_min attr));
    try destruct (_ || _); unfold Yup.max, Yup.min;
    now rewrite ?whitelist_addTest.
Qed.

Section Bounds.

Variable js : Js.runtime.
Variable strapi : environment.

(** X11.  The bounds of a sequence are enforced on its length.  For a
    repeatable component or dynamic zone built on an array, validation of
    that array reports [min] at the path of the sequence exactly when
    [min] is an integer, the attribute is required or the array is not
    empty, and the array is shorter than [min]; it reports [max] there
    exactly when [max] is an integer and the array is longer. *)
Theorem sequence_bounds_enforced recur createOrUpdate attr items isDraft :
  isMedia attr = false ->
  (Js.is_string (a_type attr) "component" = true
   /\ Js.is_true (a_repeatable attr) = true
   /\ firstModel strapi attr <> None)
  \/ Js.is_string (a_type attr) "dynamiczone" = true ->
  exists v,
    createAttributeValidator js strapi recur createOrUpdate attr (VArray items) isDraft
    = Ok v
    /\ forall path errors,
        Yup.validateStrict v path (VArray items) = Ok errors ->
        (In (Yup.err path "min") errors <->
         exists n,
           Js.isInteger (a_min attr) = Some n
           /\ (Js.truthy (a_required attr) = true \/ items <> [])
           /\ (Z.of_nat (List.length items) < n)%Z)
        /\ (In (Yup.err path "max") errors <->
            exists n,
              Js.isInteger (a_max attr) = Some n
              /\ (n < Z.of_nat (List.length items))%Z).
Proof.
  intros Hmedia Hseq.
  destruct (@sequence_build js strapi recur createOrUpdate attr (VArray items)
              isDraft Hmedia Hseq) as (builder & Hv & _).
  eexists. split; [exact Hv |]. clear Hv.
  set (base := addRequiredValidation createOrUpdate true
                 (Yup.arrayOf (Yup.OfLazy builder) (Yup.array js))).
  set (bounded := addMinMax attr base (VArray items)).
  set (v := addDefault createOrUpdate attr (preventCast bounded)).
  assert (Hbmin : Yup.hasTest "min" base = false) by now destruct createOrUpdate.
  assert (Hbmax : Yup.hasTest "max" base = false) by now destruct createOrUpdate.
  assert (Htests : Yup.tests_of v = Yup.tests_of bounded).
  { subst v. destruct (addDefault_rest createOrUpdate attr (preventCast bounded))
      as (-> & _). now destruct (preventCast_rest bounded) as (-> & _). }
  assert (Hkind : Yup.s_kind (Yup.spec_of v) = Yup.KArray).
  { destruct (sequence_finished js createOrUpdate attr (VArray items)
                (Yup.OfLazy builder)) as (Hk & _). exact Hk. }
  assert (Hwl : Yup.s_whitelist (Yup.spec_of v) = None).
  { subst v. destruct (addDefault_rest createOrUpdate attr (preventCast bounded))
      as (_ & _ & _ & _ & _ & _ & Hw).
    destruct (preventCast_rest bounded) as (_ & _ & _ & _ & _ & _ & Hw').
    unfold Yup.whitelist_of in *. rewrite Hw, Hw'.
    subst bounded. pose proof (addMinMax_whitelist attr base (VArray items)) as Hw''.
    unfold Yup.whitelist_of in Hw''. rewrite Hw''. now destruct createOrUpdate. }
  assert (Hgate : Js.nonEmptyArray (VArray items) = true <-> items <> []).
  { destruct items; simpl; split; congruence. }
  intros path errors Hval.
  assert (Hown : forall type,
             In (Yup.err path type) errors <->
             exists t, In t (Yup.tests_of bounded)
                       /\ Yup.t_name t = type
                       /\ Yup.t_ok t Yup.KArray (VArray items) = false).
  { intros type. split.
    - intros He. apply (validateStrict_own _ _ _ Hval) in He; [| reflexivity].
      rewrite ownErrors_tests in He; [| now rewrite Hkind | exact Hwl].
      apply in_map_iff in He. destruct He as (t & Ht & Hin).
      apply filter_In in Hin. destruct Hin as [Hin Hfail].
      exists t. unfold Yup.tests_of in Htests. rewrite Htests in Hin.
      rewrite Hkind in Hfail. apply negb_true_iff in Hfail.
      split; [exact Hin |]. split; [now inversion Ht | exact Hfail].
    - intros (t & Hin & Hname & Hfail).
      eapply validateStrict_own_incl; [exact Hval |].
      rewrite ownErrors_tests; [| now rewrite Hkind | exact Hwl].
      apply in_map_iff. exists t. split; [now rewrite Hname |].
      apply filter_In. unfold Yup.tests_of in Htests. rewrite Htests.
      split; [exact Hin |]. rewrite Hkind. now rewrite Hfail. }
  split.
  - rewrite Hown. split.
    + intros (t & Hin & Hname & Hfail).
      destruct (addMinMax_named attr base (VArray items) Hbmin Hbmax t Hin) as [Hm _].
      destruct (Hm Hname) as (n & ->).
      apply (addMinMax_min attr base (VArray items) n Hbmin) in Hin.
      destruct Hin as [Hint Hg]. exists n. split; [exact Hint |].
      split; [rewrite <- Hgate; exact Hg |].
      simpl in Hfail. apply Z.leb_gt in Hfail. exact Hfail.
    + intros (n & Hint & Hg & Hlt). exists (Yup.minTest n).
      split; [| split; [reflexivity |]].
      * apply (addMinMax_min attr base (VArray items) n Hbmin).
        split; [exact Hint |]. rewrite Hgate. exact Hg.
      * simpl. now apply Z.leb_gt.
  - rewrite Hown. split.
    + intros (t & Hin & Hname & Hfail).
      destruct (addMinMax_named attr base (VArray items) Hbmin Hbmax t Hin) as [_ Hm].
      destruct (Hm Hname) as (n & ->).
      apply (addMinMax_max attr base (VArray items) n Hbmax) in Hin.
      exists n. split; [exact Hin |].
      simpl in Hfail. apply Z.leb_gt in Hfail. exact Hfail.
    + intros (n & Hint & Hlt). exists (Yup.maxTest n).
      split; [| split; [reflexivity |]].
      * now apply (addMinMax_max attr base (VArray items) n Hbmax).
      * simpl. now apply Z.leb_gt.
Qed.

End Bounds.

(** [blocks] wants two to three entries and gets one. *)
Lemma sequence_bounds_enforced_witness :
  let entries :=
    [VObject [("__component", VString "default.tag"); ("label", VString "x")]] in
  exists v,
    createAttributeValidator Examples.js Examples.strapi
      (createModelValidator Examples.js Examples.strapi 2)
      creation Cases.blocksAttr (VArray entries) false = Ok v
    /\ Yup.validateStrict v [Key "blocks"] (VArray entries)
       = Ok [Yup.err [Key "blocks"] "min"]
    /\ In (Yup.err [Key "blocks"] "min") [Yup.err [Key "blocks"] "min"].
Proof.
  intros entries.
  destruct (@sequence_bounds_enforced Examples.js Examples.strapi
              (createModelValidator Examples.js Examples.strapi 2)
              creation Cases.blocksAttr entries false
              eq_refl (or_intror eq_refl)) as (v & Hv & Hbounds).
  assert (Hval : Yup.validateStrict v [Key "blocks"] (VArray entries)
                 = Ok [Yup.err [Key "blocks"] "min"]).
  { vm_compute in Hv. apply Ok_inj in Hv. subst v. reflexivity. }
  exists v. split; [exact Hv |]. split; [exact Hval |].
  apply (Hbounds _ _ Hval). exists 2%Z.
  split; [reflexivity |]. split; [right; discriminate | reflexivity].
Defined.

Section Discriminator.

Variable js : Js.runtime.
Variable strapi : environment.

(** X12.  What the shape of a dynamic-zone entry reports on an object.
    Without [__component]: one error, [required], at the discriminator.
    With a string that is not the name of a registered component: one
    error, [oneOf], at the discriminator.  With the name of a registered
    component (not the empty string): nothing. *)
Theorem discriminator_errors path props :
  let here := path ++ [Key "__component"] in
  (Js.get (VObject props) "__component" = VUndefined ->
   Yup.validateStrict (dzSchema js strapi) path (VObject props)
   = Ok [Yup.err here "required"])
  /\ (forall name,
         Js.get (VObject props) "__component" = VString name ->
         ~ In name (components strapi) ->
         Yup.validateStrict (dzSchema js strapi) path (VObject props)
         = Ok [Yup.err here "oneOf"])
  /\ (forall name,
         Js.get (VObject props) "__component" = VString name ->
         In name (components strapi) ->
         name <> "" ->
         Yup.validateStrict (dzSchema js strapi) path (VObject props) = Ok []).
Proof.
  intros here. unfold dzSchema. simpl.
  split; [| split].
  - intros ->. reflexivity.
  - intros name -> Hnot. unfold Yup.ownErrors. simpl.
    destruct (existsb (Js.strictEq (VString name)) (map VString (components strapi)))
      eqn:E; [| reflexivity].
    apply existsb_strictEq_string in E. contradiction.
  - intros name -> Hin Hne. unfold Yup.ownErrors. simpl.
    assert (E : existsb (Js.strictEq (VString name))
                        (map VString (components strapi)) = true).
    { apply existsb_exists. exists (VString name). split.
      - apply in_map_iff. now exists name.
      - simpl. apply String.eqb_refl. }
    rewrite E. simpl.
    apply String.eqb_neq in Hne. now rewrite Hne.
Qed.

(** X13.  A single component is validated as its schema says.  For a
    component attribute that is not repeatable, the built validator has
    the children of the target schema's model validator, and casts and
    validates every object exactly as that model validator does: the
    modifiers put on it play no part once the value is an object. *)
Theorem single_component_as_model depth createOrUpdate attr data isDraft v :
  isMedia attr = false ->
  Js.is_string (a_type attr) "component" = true ->
  Js.is_true (a_repeatable attr) = false ->
  createAttributeValidator js strapi (createModelValidator js strapi depth)
    createOrUpdate attr data isDraft = Ok v ->
  exists m mv,
    firstModel strapi attr = Some m
    /\ createModelValidator js strapi depth createOrUpdate (Some m) data isDraft
       = Ok mv
    /\ Yup.fields_of v = Yup.fields_of mv
    /\ (forall props, Yup.cast v (VObject props) = Yup.cast mv (VObject props))
    /\ (forall path props,
           Yup.validateStrict v path (VObject props)
           = Yup.validateStrict mv path (VObject props)).
Proof.
  intros Hmedia Htype Hrep H.
  assert (Hsimple : isSimpleAttribute attr = false).
  { unfold isSimpleAttribute. rewrite Htype. simpl. now rewrite andb_false_r. }
  unfold createAttributeValidator, createComponentValidator in H.
  rewrite Hmedia, Hsimple, Htype, Hrep in H.
  destruct (firstModel strapi attr) as [m |]; [| discriminate].
  destruct (createModelValidator js strapi depth createOrUpdate (Some m) data isDraft)
    as [mv |] eqn:E; [| discriminate].
  exists m, mv. split; [reflexivity |]. split; [exact E |].
  apply createModelValidator_Ok in E. destruct E as (d & fields & _ & _ & ->).
  simpl in H. apply Ok_inj in H. subst v.
  destruct (requiredFlag isDraft attr); destruct createOrUpdate;
    unfold addDefault; try destruct (_ && negb _);
    (split; [reflexivity |]; split; intros; reflexivity).
Qed.

End Discriminator.

(** The single component [target] of schema [default.tag]: an empty object
    misses the required [label] of the component. *)
Lemma single_component_as_model_witness :
  exists v,
    createAttributeValidator Examples.js Examples.strapi
      (createModelValidator Examples.js Examples.strapi 1)
      creation Examples.targetAttr (VObject []) false = Ok v
    /\ Yup.validateStrict v [Key "target"] (VObject [])
       = Ok [Yup.err [Key "target"; Key "label"] "defined"].
Proof.
  eexists. split; [reflexivity |].
  destruct (@single_component_as_model Examples.js Examples.strapi 1 creation
              Examples.targetAttr (VObject []) false _
              eq_refl eq_refl eq_refl eq_refl)
    as (m & mv & Hm & Hmv & _ & _ & Hval).
  rewrite Hval. clear Hval.
  assert (Em : Some Examples.tagModel = Some m) by exact Hm.
  injection Em as <-. vm_compute in Hmv. apply Ok_inj in Hmv. subst mv. reflexivity.
Defined.

Section EmptyAndFallback.

Variable js : Js.runtime.
Variable strapi : environment.

(** X14.  What the empty array gets.  For a repeatable component or
    dynamic zone built on the empty array, in either mode: the empty array
    is of the right type and defined, so the only errors are [min], when
    the attribute is required and declares a positive integer [min], and
    [max], when it declares a negative integer [max].  A required sequence
    without [min] may be empty. *)
Theorem empty_sequence_errors recur createOrUpdate attr isDraft :
  isMedia attr = false ->
  (Js.is_string (a_type attr) "component" = true
   /\ Js.is_true (a_repeatable attr) = true
   /\ firstModel strapi attr <> None)
  \/ Js.is_string (a_type attr) "dynamiczone" = true ->
  exists v,
    createAttributeValidator js strapi recur createOrUpdate attr (VArray []) isDraft
    = Ok v
    /\ Yup.cast v (VArray []) = Ok (VArray [])
    /\ forall path,
        Yup.validateStrict v path (VArray []) =
        Ok (match Js.isInteger (a_min attr) with
            | Some n =>
                if Js.truthy (a_required attr) && negb (n <=? 0)%Z
                then [Yup.err path "min"] else []
            | None => []
            end
            ++ match Js.isInteger (a_max attr) with
               | Some n => if (0 <=? n)%Z then [] else [Yup.err path "max"]
               | None => []
               end).
Proof.
  intros Hmedia Hseq.
  destruct (@sequence_build js strapi recur createOrUpdate attr (VArray [])
              isDraft Hmedia Hseq) as (builder & -> & Hcond).
  eexists. split; [reflexivity |].
  unfold addDefault, addMinMax. rewrite Hcond. simpl.
  destruct (Js.truthy (a_required attr));
    destruct (Js.isInteger (a_min attr)) as [n |];
    destruct (Js.isInteger (a_max attr)) as [k |];
    destruct createOrUpdate; simpl;
    (split; [reflexivity |]); intros path; unfold Yup.ownErrors; simpl;
    try destruct (n <=? 0)%Z; try destruct (0 <=? k)%Z; reflexivity.
Qed.

(** X15.  A type without leaf validator accepts what is there.  For a
    simple attribute whose type the leaf registry does not know, the
    validator is always built, casts every value that is not [undefined]
    to itself, and reports nothing on a value that is neither [null] nor
    missing; on [null] it reports one error, [defined], exactly when the
    flag [!isDraft && required] is on. *)
Theorem unknown_type_accepts recur createOrUpdate attr data isDraft :
  isMedia attr = false ->
  isSimpleAttribute attr = true ->
  validators strapi (a_type attr) = None ->
  exists v,
    createAttributeValidator js strapi recur createOrUpdate attr data isDraft = Ok v
    /\ (forall x, x <> VUndefined -> Yup.cast v x = Ok x)
    /\ (forall path x, Js.isNil x = false -> Yup.validateStrict v path x = Ok [])
    /\ (forall path,
           Yup.validateStrict v path VNull =
           Ok (if requiredFlag isDraft attr then [Yup.err path "defined"] else [])).
Proof.
  intros Hmedia Hsimple Hleaf.
  unfold createAttributeValidator, createSimpleAttributeValidator.
  rewrite Hmedia, Hsimple, Hleaf. simpl.
  eexists. split; [reflexivity |].
  destruct (requiredFlag isDraft attr); destruct createOrUpdate;
    unfold addDefault; try destruct (_ && negb _);
    (split; [intros x Hx; destruct x; try congruence; reflexivity |];
     split; [intros path x Hx; destruct x; try discriminate; reflexivity |];
     intros path; reflexivity).
Qed.

End EmptyAndFallback.

(** The required dynamic zone [body] without bounds may be empty. *)
Lemma empty_sequence_errors_witness :
  exists v,
    createAttributeValidator Examples.js Examples.strapi
      (createModelValidator Examples.js Examples.strapi 1)
      creation Cases.bodyAttr (VArray []) false = Ok v
    /\ Yup.validateStrict v [Key "body"] (VArray []) = Ok [].
Proof.
  destruct (@empty_sequence_errors Examples.js Examples.strapi
              (createModelValidator Examples.js Examples.strapi 1)
              creation Cases.bodyAttr false eq_refl (or_intror eq_refl))
    as (v & Hv & _ & Hval).
  exists v. split; [exact Hv | apply Hval].
Defined.

(** The required [title] of a type that has no leaf validator here. *)
Lemma unknown_type_accepts_witness :
  exists v,
    createAttributeValidator Examples.js Examples.strapi
      (createModelValidator Examples.js Examples.strapi 1)
      creation (Examples.withRequired (Examples.attr "string")) (VNumber 3) false
    = Ok v
    /\ Yup.cast v (VNumber 3) = Ok (VNumber 3)
    /\ Yup.validateStrict v [Key "title"] (VNumber 3) = Ok []
    /\ Yup.validateStrict v [Key "title"] VNull = Ok [Yup.err [Key "title"] "defined"].
Proof.
  destruct (@unknown_type_accepts Examples.js Examples.strapi
              (createModelValidator Examples.js Examples.strapi 1)
              creation (Examples.withRequired (Examples.attr "string"))
              (VNumber 3) false eq_refl eq_refl eq_refl)
    as (v & Hv & Hcast & Hval & Hnull).
  exists v. split; [exact Hv |]. split; [apply Hcast; discriminate |].
  split; [apply Hval; reflexivity | apply Hnull].
Defined.

Section Leaf.

Variable js : Js.runtime.
Variable strapi : environment.

(** X16.  The leaf validator decides on a value that is there.  For a
    simple attribute whose type has a leaf validator that carries no test
    named [defined], the attribute's validator reports on every value that
    is neither [null] nor missing exactly what the leaf validator reports:
    the required test, the nullable mark and the default that the service
    adds change nothing for a present value. *)
Theorem leaf_validator_decides recur createOrUpdate attr data isDraft make :
  isMedia attr = false ->
  isSimpleAttribute attr = true ->
  validators strapi (a_type attr) = Some make ->
  Yup.hasTest "defined" (make attr isDraft) = false ->
  exists v,
    createAttributeValidator js strapi recur createOrUpdate attr data isDraft = Ok v
    /\ forall path x,
        Js.isNil x = false ->
        Yup.validateStrict v path x
        = Yup.validateStrict (make attr isDraft) path x.
Proof.
  intros Hmedia Hsimple Hleaf Hfresh.
  unfold createAttributeValidator, createSimpleAttributeValidator.
  rewrite Hmedia, Hsimple, Hleaf. simpl.
  eexists. split; [reflexivity |]. intros path x Hx.
  destruct (make attr isDraft) as [sp inner fields].
  unfold Yup.hasTest in Hfresh. simpl in Hfresh.
  assert (Hnull : Js.isNull x = false) by (destruct x; try discriminate; reflexivity).
  assert (Hundef : Js.isUndefined x = false)
    by (destruct x; try discriminate; reflexivity).
  assert (Htype : forall n, Yup.isType (Yup.s_kind sp) n x
                            = Yup.typeCheck (Yup.s_kind sp) x).
  { intros n. unfold Yup.isType. rewrite Hnull, andb_false_r. reflexivity. }
  assert (Hadd : forall t,
             Yup.t_name t = "defined" ->
             Yup.t_ok t (Yup.s_kind sp) x = true ->
             Yup.ownErrors (Yup.addTestSpec t sp) path x = Yup.ownErrors sp path x).
  { intros t Hname Hok. unfold Yup.ownErrors, Yup.addTestSpec. cbn [Yup.s_kind
      Yup.s_nullable Yup.s_whitelist Yup.s_tests]. rewrite Hname.
    rewrite filter_other_names by exact Hfresh.
    rewrite filter_app, map_app. simpl. rewrite Hok. simpl.
    rewrite app_nil_r. reflexivity. }
  assert (Hnil : Yup.t_ok notNilTest (Yup.s_kind sp) x = true)
    by (simpl; rewrite Hx; reflexivity).
  assert (Hnn : Yup.t_ok notNullTest (Yup.s_kind sp) x = true)
    by (simpl; rewrite Hnull; reflexivity).
  unfold addRequiredValidation, addDefault, notNil, notNull.
  destruct (requiredFlag isDraft attr); destruct createOrUpdate;
    try destruct (_ && negb _);
    cbn [Yup.addTest Yup.nullable Yup.default Yup.map_spec];
    apply validateStrict_same_own; try reflexivity;
    try (rewrite <- (Hadd notNilTest eq_refl Hnil); reflexivity);
    try (rewrite <- (Hadd notNullTest eq_refl Hnn); reflexivity);
    unfold Yup.ownErrors; cbn [Yup.s_kind Yup.s_nullable Yup.s_whitelist Yup.s_tests];
    rewrite !Htype; reflexivity.
Qed.

End Leaf.

(** A required [string] under a leaf validator that wants three
    characters: two characters are too short, and that is all. *)
Lemma leaf_validator_decides_witness :
  exists v,
    createAttributeValidator Examples.js Cases.typed
      (createModelValidator Examples.js Cases.typed 1)
      creation (Examples.withRequired (Examples.attr "string")) (VString "ab") false
    = Ok v
    /\ Yup.validateStrict v [Key "title"] (VString "ab")
       = Ok [Yup.err [Key "title"] "min"].
Proof.
  destruct (@leaf_validator_decides Examples.js Cases.typed
              (createModelValidator Examples.js Cases.typed 1)
              creation (Examples.withRequired (Examples.attr "string"))
              (VString "ab") false _ eq_refl eq_refl eq_refl eq_refl)
    as (v & Hv & Hval).
  exists v. split; [exact Hv |]. rewrite Hval by reflexivity. reflexivity.
Defined.

(** The shape of a dynamic-zone entry on the empty object. *)
Lemma discriminator_errors_witness :
  Yup.validateStrict (dzSchema Examples.js Examples.strapi) [] (VObject [])
  = Ok [Yup.err [Key "__component"] "required"].
Proof.
  apply (proj1 (@discriminator_errors Examples.js Examples.strapi [] [])).
  reflexivity.
Defined.
